(** * User-management backend: the data-access services over the store

    A shallow embedding of the TypeScript services of
    [src/database/services] (user, role, session, refresh-token,
    password-reset and audit services).  Every service function is a short
    sequence of calls on the ORM client; the embedding gives the client's
    operations a meaning over tables held as lists of rows and writes each
    service function as the same sequence of calls.

    Conventions of the embedding:
    - a [Date] is its [getTime()] value, an integer number of milliseconds;
    - [new Date()] reads the world's clock, and every read is counted;
    - an [async] function is run to completion without interleaving;
    - the [include] option of a query only decorates the returned object
      with joined rows and is left out;
    - a thrown client error is a [Throw] result that leaves the tables as
      they were;
    - the schema and the connector of the store are not among the sources:
      what they decide is either modelled from the spec, and marked so, or
      a parameter of the world ([Schema]). *)

From Stdlib Require Import ZArith List String Ascii Bool Lia.
From Stdlib Require Import Sorting.Sorted Sorting.Permutation.
Import ListNotations.

Local Open Scope string_scope.
Local Open Scope list_scope.
Local Open Scope Z_scope.

(** ** Entities *)

Definition Date := Z.

Module User.
Record t := mk {
  id : string;
  email : string;
  password : string;
  firstName : string;
  lastName : string;
  roleId : string;
  phone : option string;
  avatar : option string;
  isActive : bool;
  createdAt : Date
}.
End User.

Module Role.
Record t := mk {
  id : string;
  name : string;
  description : option string;
  permissions : list string
}.
End Role.

Module Session.
Record t := mk {
  id : string;
  token : string;
  userId : string;
  ipAddress : option string;
  userAgent : option string;
  expiresAt : Date;
  lastActivityAt : Date;
  createdAt : Date
}.
End Session.

Module RefreshToken.
Record t := mk {
  id : string;
  token : string;
  userId : string;
  expiresAt : Date;
  isRevoked : bool;
  createdAt : Date
}.
End RefreshToken.

Module PasswordResetToken.
Record t := mk {
  id : string;
  token : string;
  userId : string;
  expiresAt : Date;
  isUsed : bool;
  createdAt : Date
}.
End PasswordResetToken.

Module AuditLog.
Record t := mk {
  id : string;
  action : string;
  entityType : string;
  entityId : string;
  userId : string;
  oldValue : option string;
  newValue : option string;
  ipAddress : option string;
  userAgent : option string;
  createdAt : Date
}.
End AuditLog.

(** ** The store, the clock and the record of issued queries *)

Record Database := mkDatabase {
  users : list User.t;
  roles : list Role.t;
  sessions : list Session.t;
  refreshTokens : list RefreshToken.t;
  passwordResetTokens : list PasswordResetToken.t;
  auditLogs : list AuditLog.t
}.

Inductive Model :=
  MUser | MRole | MSession | MRefreshToken | MPasswordResetToken | MAuditLog.

Inductive Action :=
  ACreate | AFindUnique | AFindMany | AUpdate | AUpdateMany
| ADelete | ADeleteMany | ACount.

(** What the schema and the connector of the store fix.  Neither is among
    the sources, so both are parameters of the world:
    - [insensitiveContains]: the connector's matching for a string filter
      [{ contains: q, mode: 'insensitive' }], applied to [q] and to the
      column; [None] for a connector that has no such mode and refuses
      the query;
    - [lastActivityDefault]: the value the schema gives the column
      [Session.lastActivityAt] of a row created without it, from the
      store's current time. *)
Record Schema := mkSchema {
  insensitiveContains : option (string -> string -> bool);
  lastActivityDefault : Date -> Date
}.

Record World := mkWorld {
  db : Database;
  clock : nat -> Date;        (* the value of the k-th clock read *)
  reads : nat;                (* clock reads so far *)
  idSupply : nat -> string;   (* the id given to the k-th created row *)
  created : nat;              (* rows created so far *)
  queries : list (Model * Action);  (* client calls so far, oldest first *)
  schema : Schema
}.

Inductive PrismaError :=
  RecordNotFound | UniqueConstraint | ForeignKeyConstraint | ValidationError.

Inductive Result (A : Type) :=
| Ok (a : A)
| Throw (e : PrismaError).
Arguments Ok {A} a.
Arguments Throw {A} e.

Definition M (A : Type) := World -> Result A * World.

Definition ret {A} (a : A) : M A := fun w => (Ok a, w).

Definition throw {A} (e : PrismaError) : M A := fun w => (Throw e, w).

Definition bind {A B} (m : M A) (f : A -> M B) : M B :=
  fun w =>
    match m w with
    | (Ok a, w') => f a w'
    | (Throw e, w') => (Throw e, w')
    end.

Declare Scope svc_scope.
Delimit Scope svc_scope with svc.
Notation "x <- m ;; k" := (bind m (fun x => k))
  (at level 61, m at next level, right associativity) : svc_scope.
Notation "m ;;; k" := (bind m (fun _ => k))
  (at level 61, right associativity) : svc_scope.
Local Open Scope svc_scope.

Definition getDb : M Database := fun w => (Ok (db w), w).

Definition putDb (d : Database) : M unit := fun w =>
  (Ok tt, mkWorld d (clock w) (reads w) (idSupply w) (created w)
                  (queries w) (schema w)).

Definition issue (m : Model) (a : Action) : M unit := fun w =>
  (Ok tt, mkWorld (db w) (clock w) (reads w) (idSupply w) (created w)
                  (queries w ++ [(m, a)]) (schema w)).

(** [new Date()] *)
Definition new_Date : M Date := fun w =>
  (Ok (clock w (reads w)),
   mkWorld (db w) (clock w) (S (reads w)) (idSupply w) (created w)
           (queries w) (schema w)).

(** The id the store gives to a new row. *)
Definition freshId : M string := fun w =>
  (Ok (idSupply w (created w)),
   mkWorld (db w) (clock w) (reads w) (idSupply w) (S (created w))
           (queries w) (schema w)).

Definition getSchema : M Schema := fun w => (Ok (schema w), w).

(** The clock value the next [new Date()] returns. *)
Definition now (w : World) : Date := clock w (reads w).

(** ** Rows of a table *)

Section Rows.
Context {R : Type}.

(** Replace the first row that satisfies [p]. *)
Fixpoint patchFirst (p : R -> bool) (f : R -> R) (t : list R) : list R :=
  match t with
  | [] => []
  | r :: t' => if p r then f r :: t' else r :: patchFirst p f t'
  end.

(** Remove the first row that satisfies [p]. *)
Fixpoint removeFirst (p : R -> bool) (t : list R) : list R :=
  match t with
  | [] => []
  | r :: t' => if p r then t' else r :: removeFirst p t'
  end.

Definition patchAll (p : R -> bool) (f : R -> R) (t : list R) : list R :=
  map (fun r => if p r then f r else r) t.

Definition removeAll (p : R -> bool) (t : list R) : list R :=
  filter (fun r => negb (p r)) t.

Definition countRows (p : R -> bool) (t : list R) : Z :=
  Z.of_nat (List.length (filter p t)).

(** [orderBy: { key: 'desc' }]: a stable insertion sort, largest key
    first; rows with equal keys keep their table order. *)
Fixpoint insertDesc (key : R -> Z) (x : R) (l : list R) : list R :=
  match l with
  | [] => [x]
  | y :: l' =>
      if key y <=? key x then x :: l else y :: insertDesc key x l'
  end.

Definition sortDesc (key : R -> Z) (l : list R) : list R :=
  fold_right (insertDesc key) [] l.

(** [skip] and [take] on an ordered result.  A negative [take] counts
    from the end of the result. *)
Definition window (skip take : Z) (l : list R) : list R :=
  if take <? 0
  then rev (firstn (Z.to_nat (- take)) (skipn (Z.to_nat skip) (rev l)))
  else firstn (Z.to_nat take) (skipn (Z.to_nat skip) l).
End Rows.

(** ** The client's operations on one table *)

Record Delegate (R : Type) := mkDelegate {
  model : Model;
  table : Database -> list R;
  setTable : list R -> Database -> Database
}.
Arguments model {R} _.
Arguments table {R} _ _.
Arguments setTable {R} _ _ _.

Record BatchPayload := mkBatch { count : Z }.

Section Client.
Context {R : Type} (d : Delegate R).

Definition findUnique (where_ : R -> bool) : M (option R) :=
  issue (model d) AFindUnique ;;;
  s <- getDb ;;
  ret (find where_ (table d s)).

Definition findMany (where_ : R -> bool) (orderByDesc : R -> Z)
    (skip take : option Z) : M (list R) :=
  issue (model d) AFindMany ;;;
  s <- getDb ;;
  let rows := sortDesc orderByDesc (filter where_ (table d s)) in
  match skip, take with
  | None, None => ret rows
  | _, _ =>
      let sk := match skip with Some k => k | None => 0 end in
      if sk <? 0 then throw ValidationError
      else match take with
           | Some k => ret (window sk k rows)
           | None => ret (skipn (Z.to_nat sk) rows)
           end
  end.

Definition countWhere (where_ : R -> bool) : M Z :=
  issue (model d) ACount ;;;
  s <- getDb ;;
  ret (countRows where_ (table d s)).

(** [update] with a unique [where]: the row must exist. *)
Definition update (where_ : R -> bool) (data : R -> R) : M R :=
  issue (model d) AUpdate ;;;
  s <- getDb ;;
  match find where_ (table d s) with
  | None => throw RecordNotFound
  | Some r =>
      putDb (setTable d (patchFirst where_ data (table d s)) s) ;;;
      ret (data r)
  end.

(** [updateMany]: the count is the number of rows the [where] matches. *)
Definition updateMany (where_ : R -> bool) (data : R -> R) : M BatchPayload :=
  issue (model d) AUpdateMany ;;;
  s <- getDb ;;
  putDb (setTable d (patchAll where_ data (table d s)) s) ;;;
  ret (mkBatch (countRows where_ (table d s))).

(** [delete] with a unique [where]; [restricted] tells whether a
    referential constraint of the store forbids removing the row. *)
Definition delete (where_ : R -> bool) (restricted : Database -> R -> bool)
  : M R :=
  issue (model d) ADelete ;;;
  s <- getDb ;;
  match find where_ (table d s) with
  | None => throw RecordNotFound
  | Some r =>
      if restricted s r then throw ForeignKeyConstraint
      else putDb (setTable d (removeFirst where_ (table d s)) s) ;;; ret r
  end.

Definition deleteMany (where_ : R -> bool) : M BatchPayload :=
  issue (model d) ADeleteMany ;;;
  s <- getDb ;;
  putDb (setTable d (removeAll where_ (table d s)) s) ;;;
  ret (mkBatch (countRows where_ (table d s))).

(** [create]: [clash] recognises a row that shares a unique key with the
    new one, [refsOk] tells whether the rows it points to exist. *)
Definition create (clash : R -> R -> bool) (refsOk : Database -> R -> bool)
    (row : R) : M R :=
  issue (model d) ACreate ;;;
  s <- getDb ;;
  if existsb (clash row) (table d s) then throw UniqueConstraint
  else if negb (refsOk s row) then throw ForeignKeyConstraint
  else putDb (setTable d (table d s ++ [row]) s) ;;; ret row.
End Client.

Definition userD : Delegate User.t :=
  mkDelegate _ MUser users
    (fun t s => mkDatabase t (roles s) (sessions s) (refreshTokens s)
                           (passwordResetTokens s) (auditLogs s)).

Definition roleD : Delegate Role.t :=
  mkDelegate _ MRole roles
    (fun t s => mkDatabase (users s) t (sessions s) (refreshTokens s)
                           (passwordResetTokens s) (auditLogs s)).

Definition sessionD : Delegate Session.t :=
  mkDelegate _ MSession sessions
    (fun t s => mkDatabase (users s) (roles s) t (refreshTokens s)
                           (passwordResetTokens s) (auditLogs s)).

Definition refreshTokenD : Delegate RefreshToken.t :=
  mkDelegate _ MRefreshToken refreshTokens
    (fun t s => mkDatabase (users s) (roles s) (sessions s) t
                           (passwordResetTokens s) (auditLogs s)).

Definition passwordResetTokenD : Delegate PasswordResetToken.t :=
  mkDelegate _ MPasswordResetToken passwordResetTokens
    (fun t s => mkDatabase (users s) (roles s) (sessions s) (refreshTokens s)
                           t (auditLogs s)).

Definition auditLogD : Delegate AuditLog.t :=
  mkDelegate _ MAuditLog auditLogs
    (fun t s => mkDatabase (users s) (roles s) (sessions s) (refreshTokens s)
                           (passwordResetTokens s) t).

(** Modelled from the spec: the schema is not among the sources; the spec
    has the store reject a token-like row whose [userId] names no existing
    [User] (a foreign-key violation). *)
Definition userExists (uid : string) (s : Database) : bool :=
  existsb (fun u => String.eqb (User.id u) uid) (users s).

Definition unrestricted {R} (s : Database) (r : R) : bool := false.

(** ** Values of the service layer *)

(** [o?.field] *)
Definition optField {A B} (o : option A) (field : A -> option B) : option B :=
  match o with
  | Some a => field a
  | None => None
  end.

(** Truthiness of an optional string: [undefined] and the empty string are
    falsy. *)
Definition truthy (o : option string) : bool :=
  match o with
  | Some s => negb (String.eqb s "")
  | None => false
  end.

(** A default parameter value, [x: number = v]. *)
Definition defaultTo (v : Z) (x : option Z) : Z :=
  match x with
  | Some z => z
  | None => v
  end.

(** A [number] that a division of integers can produce. *)
Inductive Number := Int (z : Z) | Infinity | NaN.

(** [Math.ceil(total / limit)] for a row count [total] and an integer
    [limit]. *)
Definition Math_ceil_div (total limit : Z) : Number :=
  if limit =? 0 then (if total =? 0 then NaN else Infinity)
  else Int (- ((- total) / limit)).

Record Pagination := mkPagination {
  page : Z;
  limit : Z;
  total : Z;
  pages : Number
}.

(** The envelope of a paginated listing.  The source names the first field
    after the entity ([users], [sessions], ...); here it is [items]. *)
Record Page (R : Type) := mkPage {
  items : list R;
  pagination : Pagination
}.
Arguments mkPage {R} _ _.
Arguments items {R} _.
Arguments pagination {R} _.

Definition whereAll {R} : R -> bool := fun _ => true.

Definition whereAnd {R} (w c : R -> bool) : R -> bool := fun r => w r && c r.

(** [if (filters?.f) where.f = filters.f] for a string column. *)
Definition whereStringField {R} (w : R -> bool) (f : option string)
    (column : R -> string) : R -> bool :=
  if truthy f
  then match f with
       | Some v => whereAnd w (fun r => String.eqb (column r) v)
       | None => w
       end
  else w.

(** ** password-reset.service.ts *)

Module CreatePasswordResetTokenData.
Record t := mk { token : string; userId : string; expiresAt : Date }.
End CreatePasswordResetTokenData.

Module UpdatePasswordResetTokenData.
Record t := mk { isUsed : option bool; expiresAt : option Date }.
End UpdatePasswordResetTokenData.

Module PasswordResetTokenFilters.
Record t := mk {
  userId : option string;
  isUsed : option bool;
  isExpired : option bool
}.
End PasswordResetTokenFilters.

Definition prtClash (a b : PasswordResetToken.t) : bool :=
  String.eqb (PasswordResetToken.id a) (PasswordResetToken.id b)
  || String.eqb (PasswordResetToken.token a) (PasswordResetToken.token b).

Definition prtRefsOk (s : Database) (r : PasswordResetToken.t) : bool :=
  userExists (PasswordResetToken.userId r) s.

(** The columns a patch [data] overwrites. *)
Definition prtPatch (data : UpdatePasswordResetTokenData.t)
    (r : PasswordResetToken.t) : PasswordResetToken.t :=
  PasswordResetToken.mk
    (PasswordResetToken.id r) (PasswordResetToken.token r)
    (PasswordResetToken.userId r)
    (match UpdatePasswordResetTokenData.expiresAt data with
     | Some e => e
     | None => PasswordResetToken.expiresAt r
     end)
    (match UpdatePasswordResetTokenData.isUsed data with
     | Some b => b
     | None => PasswordResetToken.isUsed r
     end)
    (PasswordResetToken.createdAt r).

Definition prtMarkUsed : PasswordResetToken.t -> PasswordResetToken.t :=
  prtPatch (UpdatePasswordResetTokenData.mk (Some true) None).

(** Modelled from the spec: the schema that gives the column defaults is
    not among the sources.  The new row takes an opaque id from the store,
    carries a creation timestamp (the store's current time), and starts
    with its one-way flag [false]. *)
Definition createPasswordResetToken (data : CreatePasswordResetTokenData.t)
  : M PasswordResetToken.t :=
  i <- freshId ;;
  fun w =>
    create passwordResetTokenD prtClash prtRefsOk
      (PasswordResetToken.mk i
         (CreatePasswordResetTokenData.token data)
         (CreatePasswordResetTokenData.userId data)
         (CreatePasswordResetTokenData.expiresAt data)
         false (now w)) w.

Definition findPasswordResetTokenByToken (token : string)
  : M (option PasswordResetToken.t) :=
  findUnique passwordResetTokenD
    (fun r => String.eqb (PasswordResetToken.token r) token).

Definition findPasswordResetTokenById (id : string)
  : M (option PasswordResetToken.t) :=
  findUnique passwordResetTokenD
    (fun r => String.eqb (PasswordResetToken.id r) id).

Definition updatePasswordResetToken (id : string)
    (data : UpdatePasswordResetTokenData.t) : M PasswordResetToken.t :=
  update passwordResetTokenD
    (fun r => String.eqb (PasswordResetToken.id r) id) (prtPatch data).

Definition markPasswordResetTokenAsUsed (id : string)
  : M PasswordResetToken.t :=
  update passwordResetTokenD
    (fun r => String.eqb (PasswordResetToken.id r) id) prtMarkUsed.

Definition markPasswordResetTokenAsUsedByToken (token : string)
  : M PasswordResetToken.t :=
  update passwordResetTokenD
    (fun r => String.eqb (PasswordResetToken.token r) token) prtMarkUsed.

Definition getUserPasswordResetTokens (userId : string)
  : M (list PasswordResetToken.t) :=
  findMany passwordResetTokenD
    (fun r => String.eqb (PasswordResetToken.userId r) userId)
    PasswordResetToken.createdAt None None.

Definition getActiveUserPasswordResetTokens (userId : string)
  : M (list PasswordResetToken.t) :=
  d <- new_Date ;;
  findMany passwordResetTokenD
    (fun r => String.eqb (PasswordResetToken.userId r) userId
              && Bool.eqb (PasswordResetToken.isUsed r) false
              && (PasswordResetToken.expiresAt r >? d))
    PasswordResetToken.createdAt None None.

Definition deletePasswordResetToken (id : string) : M PasswordResetToken.t :=
  delete passwordResetTokenD
    (fun r => String.eqb (PasswordResetToken.id r) id) unrestricted.

Definition deletePasswordResetTokenByToken (token : string)
  : M PasswordResetToken.t :=
  delete passwordResetTokenD
    (fun r => String.eqb (PasswordResetToken.token r) token) unrestricted.

Definition deleteAllUserPasswordResetTokens (userId : string)
  : M BatchPayload :=
  deleteMany passwordResetTokenD
    (fun r => String.eqb (PasswordResetToken.userId r) userId).

Definition deleteExpiredPasswordResetTokens : M BatchPayload :=
  d <- new_Date ;;
  deleteMany passwordResetTokenD
    (fun r => PasswordResetToken.expiresAt r <? d).

Definition deleteUsedPasswordResetTokens : M BatchPayload :=
  deleteMany passwordResetTokenD
    (fun r => Bool.eqb (PasswordResetToken.isUsed r) true).

Definition countActiveUserPasswordResetTokens (userId : string) : M Z :=
  d <- new_Date ;;
  countWhere passwordResetTokenD
    (fun r => String.eqb (PasswordResetToken.userId r) userId
              && Bool.eqb (PasswordResetToken.isUsed r) false
              && (PasswordResetToken.expiresAt r >? d)).

Definition countPasswordResetTokens : M Z :=
  countWhere passwordResetTokenD whereAll.

Definition getPasswordResetTokens (page limit : option Z)
    (filters : option PasswordResetTokenFilters.t)
  : M (Page PasswordResetToken.t) :=
  let page := defaultTo 1 page in
  let limit := defaultTo 10 limit in
  let skip := (page - 1) * limit in
  let where0 : PasswordResetToken.t -> bool := whereAll in
  let where1 :=
    whereStringField where0
      (optField filters PasswordResetTokenFilters.userId)
      PasswordResetToken.userId in
  let where2 :=
    match optField filters PasswordResetTokenFilters.isUsed with
    | Some b =>
        whereAnd where1 (fun r => Bool.eqb (PasswordResetToken.isUsed r) b)
    | None => where1
    end in
  where3 <-
    match optField filters PasswordResetTokenFilters.isExpired with
    | Some true =>
        d <- new_Date ;;
        ret (whereAnd where2 (fun r => PasswordResetToken.expiresAt r <? d))
    | Some false =>
        d <- new_Date ;;
        ret (whereAnd where2 (fun r => PasswordResetToken.expiresAt r >=? d))
    | None => ret where2
    end ;;
  passwordResetTokens <-
    findMany passwordResetTokenD where3 PasswordResetToken.createdAt
      (Some skip) (Some limit) ;;
  total <- countWhere passwordResetTokenD where3 ;;
  ret (mkPage passwordResetTokens
         (mkPagination page limit total (Math_ceil_div total limit))).

Definition isPasswordResetTokenValid (token : string) : M bool :=
  passwordResetToken <-
    findUnique passwordResetTokenD
      (fun r => String.eqb (PasswordResetToken.token r) token) ;;
  match passwordResetToken with
  | None => ret false
  | Some t =>
      (* [!t.isUsed && t.expiresAt > new Date()]: the right operand, and
         with it the clock read, is evaluated only when the left holds *)
      if negb (PasswordResetToken.isUsed t)
      then d <- new_Date ;; ret (PasswordResetToken.expiresAt t >? d)
      else ret false
  end.

Definition invalidateAllUserPasswordResetTokens (userId : string)
  : M BatchPayload :=
  updateMany passwordResetTokenD
    (fun r => String.eqb (PasswordResetToken.userId r) userId) prtMarkUsed.

(** ** refresh-token.service.ts *)

Module CreateRefreshTokenData.
Record t := mk { token : string; userId : string; expiresAt : Date }.
End CreateRefreshTokenData.

Module UpdateRefreshTokenData.
Record t := mk { isRevoked : option bool; expiresAt : option Date }.
End UpdateRefreshTokenData.

Module RefreshTokenFilters.
Record t := mk {
  userId : option string;
  isRevoked : option bool;
  isExpired : option bool
}.
End RefreshTokenFilters.

Definition rtClash (a b : RefreshToken.t) : bool :=
  String.eqb (RefreshToken.id a) (RefreshToken.id b)
  || String.eqb (RefreshToken.token a) (RefreshToken.token b).

Definition rtRefsOk (s : Database) (r : RefreshToken.t) : bool :=
  userExists (RefreshToken.userId r) s.

Definition rtPatch (data : UpdateRefreshTokenData.t) (r : RefreshToken.t)
  : RefreshToken.t :=
  RefreshToken.mk
    (RefreshToken.id r) (RefreshToken.token r) (RefreshToken.userId r)
    (match UpdateRefreshTokenData.expiresAt data with
     | Some e => e
     | None => RefreshToken.expiresAt r
     end)
    (match UpdateRefreshTokenData.isRevoked data with
     | Some b => b
     | None => RefreshToken.isRevoked r
     end)
    (RefreshToken.createdAt r).

Definition rtRevoke : RefreshToken.t -> RefreshToken.t :=
  rtPatch (UpdateRefreshTokenData.mk (Some true) None).

(** Modelled from the spec: column defaults as for the reset tokens. *)
Definition createRefreshToken (data : CreateRefreshTokenData.t)
  : M RefreshToken.t :=
  i <- freshId ;;
  fun w =>
    create refreshTokenD rtClash rtRefsOk
      (RefreshToken.mk i
         (CreateRefreshTokenData.token data)
         (CreateRefreshTokenData.userId data)
         (CreateRefreshTokenData.expiresAt data)
         false (now w)) w.

Definition findRefreshTokenByToken (token : string)
  : M (option RefreshToken.t) :=
  findUnique refreshTokenD (fun r => String.eqb (RefreshToken.token r) token).

Definition findRefreshTokenById (id : string) : M (option RefreshToken.t) :=
  findUnique refreshTokenD (fun r => String.eqb (RefreshToken.id r) id).

Definition updateRefreshToken (id : string) (data : UpdateRefreshTokenData.t)
  : M RefreshToken.t :=
  update refreshTokenD
    (fun r => String.eqb (RefreshToken.id r) id) (rtPatch data).

Definition revokeRefreshToken (id : string) : M RefreshToken.t :=
  update refreshTokenD (fun r => String.eqb (RefreshToken.id r) id) rtRevoke.

Definition revokeRefreshTokenByToken (token : string) : M RefreshToken.t :=
  update refreshTokenD
    (fun r => String.eqb (RefreshToken.token r) token) rtRevoke.

Definition getUserRefreshTokens (userId : string) : M (list RefreshToken.t) :=
  findMany refreshTokenD
    (fun r => String.eqb (RefreshToken.userId r) userId)
    RefreshToken.createdAt None None.

Definition getActiveUserRefreshTokens (userId : string)
  : M (list RefreshToken.t) :=
  d <- new_Date ;;
  findMany refreshTokenD
    (fun r => String.eqb (RefreshToken.userId r) userId
              && Bool.eqb (RefreshToken.isRevoked r) false
              && (RefreshToken.expiresAt r >? d))
    RefreshToken.createdAt None None.

Definition deleteRefreshToken (id : string) : M RefreshToken.t :=
  delete refreshTokenD
    (fun r => String.eqb (RefreshToken.id r) id) unrestricted.

Definition deleteRefreshTokenByToken (token : string) : M RefreshToken.t :=
  delete refreshTokenD
    (fun r => String.eqb (RefreshToken.token r) token) unrestricted.

Definition deleteAllUserRefreshTokens (userId : string) : M BatchPayload :=
  deleteMany refreshTokenD
    (fun r => String.eqb (RefreshToken.userId r) userId).

Definition deleteExpiredRefreshTokens : M BatchPayload :=
  d <- new_Date ;;
  deleteMany refreshTokenD (fun r => RefreshToken.expiresAt r <? d).

Definition deleteRevokedRefreshTokens : M BatchPayload :=
  deleteMany refreshTokenD
    (fun r => Bool.eqb (RefreshToken.isRevoked r) true).

Definition countActiveUserRefreshTokens (userId : string) : M Z :=
  d <- new_Date ;;
  countWhere refreshTokenD
    (fun r => String.eqb (RefreshToken.userId r) userId
              && Bool.eqb (RefreshToken.isRevoked r) false
              && (RefreshToken.expiresAt r >? d)).

Definition countRefreshTokens : M Z := countWhere refreshTokenD whereAll.

Definition getRefreshTokens (page limit : option Z)
    (filters : option RefreshTokenFilters.t) : M (Page RefreshToken.t) :=
  let page := defaultTo 1 page in
  let limit := defaultTo 10 limit in
  let skip := (page - 1) * limit in
  let where0 : RefreshToken.t -> bool := whereAll in
  let where1 :=
    whereStringField where0 (optField filters RefreshTokenFilters.userId)
      RefreshToken.userId in
  let where2 :=
    match optField filters RefreshTokenFilters.isRevoked with
    | Some b =>
        whereAnd where1 (fun r => Bool.eqb (RefreshToken.isRevoked r) b)
    | None => where1
    end in
  where3 <-
    match optField filters RefreshTokenFilters.isExpired with
    | Some true =>
        d <- new_Date ;;
        ret (whereAnd where2 (fun r => RefreshToken.expiresAt r <? d))
    | Some false =>
        d <- new_Date ;;
        ret (whereAnd where2 (fun r => RefreshToken.expiresAt r >=? d))
    | None => ret where2
    end ;;
  refreshTokens <-
    findMany refreshTokenD where3 RefreshToken.createdAt
      (Some skip) (Some limit) ;;
  total <- countWhere refreshTokenD where3 ;;
  ret (mkPage refreshTokens
         (mkPagination page limit total (Math_ceil_div total limit))).

Definition isRefreshTokenValid (token : string) : M bool :=
  refreshToken <-
    findUnique refreshTokenD
      (fun r => String.eqb (RefreshToken.token r) token) ;;
  match refreshToken with
  | None => ret false
  | Some t =>
      if negb (RefreshToken.isRevoked t)
      then d <- new_Date ;; ret (RefreshToken.expiresAt t >? d)
      else ret false
  end.

(** ** session.service.ts *)

Module CreateSessionData.
Record t := mk {
  token : string;
  userId : string;
  ipAddress : option string;
  userAgent : option string;
  expiresAt : Date
}.
End CreateSessionData.

Module UpdateSessionData.
Record t := mk { lastActivityAt : option Date; expiresAt : option Date }.
End UpdateSessionData.

Module SessionFilters.
Record t := mk { userId : option string; isExpired : option bool }.
End SessionFilters.

Definition sessionClash (a b : Session.t) : bool :=
  String.eqb (Session.id a) (Session.id b)
  || String.eqb (Session.token a) (Session.token b).

Definition sessionRefsOk (s : Database) (r : Session.t) : bool :=
  userExists (Session.userId r) s.

Definition sessionPatch (data : UpdateSessionData.t) (r : Session.t)
  : Session.t :=
  Session.mk
    (Session.id r) (Session.token r) (Session.userId r)
    (Session.ipAddress r) (Session.userAgent r)
    (match UpdateSessionData.expiresAt data with
     | Some e => e
     | None => Session.expiresAt r
     end)
    (match UpdateSessionData.lastActivityAt data with
     | Some a => a
     | None => Session.lastActivityAt r
     end)
    (Session.createdAt r).

(** Modelled from the spec: the column defaults come from the missing
    schema; the new row's id is the store's and its creation time is the
    store's current time.  [data] carries no [lastActivityAt]: the column
    takes the schema's default, whatever that is. *)
Definition createSession (data : CreateSessionData.t) : M Session.t :=
  i <- freshId ;;
  fun w =>
    create sessionD sessionClash sessionRefsOk
      (Session.mk i
         (CreateSessionData.token data) (CreateSessionData.userId data)
         (CreateSessionData.ipAddress data) (CreateSessionData.userAgent data)
         (CreateSessionData.expiresAt data)
         (lastActivityDefault (schema w) (now w)) (now w)) w.

Definition findSessionByToken (token : string) : M (option Session.t) :=
  findUnique sessionD (fun r => String.eqb (Session.token r) token).

Definition findSessionById (id : string) : M (option Session.t) :=
  findUnique sessionD (fun r => String.eqb (Session.id r) id).

Definition updateSession (id : string) (data : UpdateSessionData.t)
  : M Session.t :=
  update sessionD (fun r => String.eqb (Session.id r) id) (sessionPatch data).

Definition updateSessionActivity (token : string) : M Session.t :=
  d <- new_Date ;;
  update sessionD (fun r => String.eqb (Session.token r) token)
    (sessionPatch (UpdateSessionData.mk (Some d) None)).

Definition getUserSessions (userId : string) : M (list Session.t) :=
  findMany sessionD (fun r => String.eqb (Session.userId r) userId)
    Session.lastActivityAt None None.

Definition getActiveUserSessions (userId : string) : M (list Session.t) :=
  d <- new_Date ;;
  findMany sessionD
    (fun r => String.eqb (Session.userId r) userId
              && (Session.expiresAt r >? d))
    Session.lastActivityAt None None.

Definition deleteSession (id : string) : M Session.t :=
  delete sessionD (fun r => String.eqb (Session.id r) id) unrestricted.

Definition deleteSessionByToken (token : string) : M Session.t :=
  delete sessionD (fun r => String.eqb (Session.token r) token) unrestricted.

Definition deleteAllUserSessions (userId : string) : M BatchPayload :=
  deleteMany sessionD (fun r => String.eqb (Session.userId r) userId).

Definition deleteExpiredSessions : M BatchPayload :=
  d <- new_Date ;;
  deleteMany sessionD (fun r => Session.expiresAt r <? d).

Definition countActiveUserSessions (userId : string) : M Z :=
  d <- new_Date ;;
  countWhere sessionD
    (fun r => String.eqb (Session.userId r) userId
              && (Session.expiresAt r >? d)).

Definition countSessions : M Z := countWhere sessionD whereAll.

Definition getSessions (page limit : option Z)
    (filters : option SessionFilters.t) : M (Page Session.t) :=
  let page := defaultTo 1 page in
  let limit := defaultTo 10 limit in
  let skip := (page - 1) * limit in
  let where0 : Session.t -> bool := whereAll in
  let where1 :=
    whereStringField where0 (optField filters SessionFilters.userId)
      Session.userId in
  where2 <-
    match optField filters SessionFilters.isExpired with
    | Some true =>
        d <- new_Date ;;
        ret (whereAnd where1 (fun r => Session.expiresAt r <? d))
    | Some false =>
        d <- new_Date ;;
        ret (whereAnd where1 (fun r => Session.expiresAt r >=? d))
    | None => ret where1
    end ;;
  sessions <-
    findMany sessionD where2 Session.lastActivityAt (Some skip) (Some limit) ;;
  total <- countWhere sessionD where2 ;;
  ret (mkPage sessions
         (mkPagination page limit total (Math_ceil_div total limit))).

(** ** role.service.ts *)

Module CreateRoleData.
Record t := mk {
  name : string;
  description : option string;
  permissions : list string
}.
End CreateRoleData.

Definition roleClash (a b : Role.t) : bool :=
  String.eqb (Role.id a) (Role.id b) || String.eqb (Role.name a) (Role.name b).

(** Modelled from the spec: role names are unique. *)
Definition createRole (data : CreateRoleData.t) : M Role.t :=
  i <- freshId ;;
  create roleD roleClash (fun _ _ => true)
    (Role.mk i (CreateRoleData.name data) (CreateRoleData.description data)
       (CreateRoleData.permissions data)).

Definition findRoleByName (name : string) : M (option Role.t) :=
  findUnique roleD (fun r => String.eqb (Role.name r) name).

Definition findRoleById (id : string) : M (option Role.t) :=
  findUnique roleD (fun r => String.eqb (Role.id r) id).

(** Whether some [User] row points to the role [rid]. *)
Definition roleReferenced (rid : string) (s : Database) : bool :=
  existsb (fun u => String.eqb (User.roleId u) rid) (users s).

(** Modelled from the spec: the schema is not among the sources; the spec
    has the store refuse a dangling [roleId] (a foreign-key violation), so
    the store does not remove a role that a [User] row still points to.
    The function itself is the single [delete] call. *)
Definition deleteRole (id : string) : M Role.t :=
  delete roleD (fun r => String.eqb (Role.id r) id)
    (fun s r => roleReferenced (Role.id r) s).

Definition canDeleteRole (id : string) : M bool :=
  userCount <- countWhere userD (fun u => String.eqb (User.roleId u) id) ;;
  ret (userCount =? 0).

Definition getUsersByRole (roleId : string) : M (list User.t) :=
  findMany userD (fun u => String.eqb (User.roleId u) roleId)
    User.createdAt None None.

(** ** user.service.ts *)

Module CreateUserData.
Record t := mk {
  email : string;
  password : string;
  firstName : string;
  lastName : string;
  roleId : string;
  phone : option string;
  avatar : option string
}.
End CreateUserData.

Module UserFilters.
Record t := mk {
  isActive : option bool;
  roleId : option string;
  search : option string
}.
End UserFilters.

(** [{ contains: search, mode: 'insensitive' }]: the matching is the
    connector's; a connector without the mode refuses the query. *)
Definition containsInsensitive : M (string -> string -> bool) :=
  s <- getSchema ;;
  match insensitiveContains s with
  | Some matches => ret matches
  | None => throw ValidationError
  end.

Definition userClash (a b : User.t) : bool :=
  String.eqb (User.id a) (User.id b) || String.eqb (User.email a) (User.email b).

Definition userRefsOk (s : Database) (u : User.t) : bool :=
  existsb (fun r => String.eqb (Role.id r) (User.roleId u)) (roles s).

(** Modelled from the spec: the missing schema gives the defaults; a new
    user is active and must point to an existing role. *)
Definition createUser (data : CreateUserData.t) : M User.t :=
  i <- freshId ;;
  fun w =>
    create userD userClash userRefsOk
      (User.mk i
         (CreateUserData.email data) (CreateUserData.password data)
         (CreateUserData.firstName data) (CreateUserData.lastName data)
         (CreateUserData.roleId data)
         (CreateUserData.phone data) (CreateUserData.avatar data)
         true (now w)) w.

Definition findUserByEmail (email : string) : M (option User.t) :=
  findUnique userD (fun u => String.eqb (User.email u) email).

Definition findUserById (id : string) : M (option User.t) :=
  findUnique userD (fun u => String.eqb (User.id u) id).

Definition getUsers (page limit : option Z) (filters : option UserFilters.t)
  : M (Page User.t) :=
  let page := defaultTo 1 page in
  let limit := defaultTo 10 limit in
  let skip := (page - 1) * limit in
  let where0 : User.t -> bool := whereAll in
  let where1 :=
    match optField filters UserFilters.isActive with
    | Some b => whereAnd where0 (fun u => Bool.eqb (User.isActive u) b)
    | None => where0
    end in
  let where2 :=
    whereStringField where1 (optField filters UserFilters.roleId)
      User.roleId in
  where3 <-
    (if truthy (optField filters UserFilters.search)
     then match optField filters UserFilters.search with
          | Some q =>
              contains <- containsInsensitive ;;
              ret (whereAnd where2
                     (fun u => contains q (User.firstName u)
                               || contains q (User.lastName u)
                               || contains q (User.email u)))
          | None => ret where2
          end
     else ret where2) ;;
  users <- findMany userD where3 User.createdAt (Some skip) (Some limit) ;;
  total <- countWhere userD where3 ;;
  ret (mkPage users
         (mkPagination page limit total (Math_ceil_div total limit))).

(** Soft delete. *)
Definition deleteUser (id : string) : M User.t :=
  update userD (fun u => String.eqb (User.id u) id)
    (fun u =>
       User.mk (User.id u) (User.email u) (User.password u)
         (User.firstName u) (User.lastName u) (User.roleId u)
         (User.phone u) (User.avatar u) false (User.createdAt u)).

Definition countUsers : M Z := countWhere userD whereAll.

Definition countActiveUsers : M Z :=
  countWhere userD (fun u => Bool.eqb (User.isActive u) true).

(** ** audit.service.ts: the paginated listing *)

Module AuditLogFilters.
Record t := mk {
  userId : option string;
  entityType : option string;
  entityId : option string;
  action : option string;
  dateFrom : option Date;
  dateTo : option Date
}.
End AuditLogFilters.

Definition getAuditLogs (page limit : option Z)
    (filters : option AuditLogFilters.t) : M (Page AuditLog.t) :=
  let page := defaultTo 1 page in
  let limit := defaultTo 10 limit in
  let skip := (page - 1) * limit in
  let where0 : AuditLog.t -> bool := whereAll in
  let where1 :=
    whereStringField where0 (optField filters AuditLogFilters.userId)
      AuditLog.userId in
  let where2 :=
    whereStringField where1 (optField filters AuditLogFilters.entityType)
      AuditLog.entityType in
  let where3 :=
    whereStringField where2 (optField filters AuditLogFilters.entityId)
      AuditLog.entityId in
  let where4 :=
    whereStringField where3 (optField filters AuditLogFilters.action)
      AuditLog.action in
  let where5 :=
    match optField filters AuditLogFilters.dateFrom with
    | Some from => whereAnd where4 (fun r => AuditLog.createdAt r >=? from)
    | None => where4
    end in
  let where6 :=
    match optField filters AuditLogFilters.dateTo with
    | Some to => whereAnd where5 (fun r => AuditLog.createdAt r <=? to)
    | None => where5
    end in
  auditLogs <-
    findMany auditLogD where6 AuditLog.createdAt (Some skip) (Some limit) ;;
  total <- countWhere auditLogD where6 ;;
  ret (mkPage auditLogs
         (mkPagination page limit total (Math_ceil_div total limit))).

(** ** The exported mutations of the two flag-carrying token services *)

Inductive TokenMutation :=
| CreatePasswordResetToken (data : CreatePasswordResetTokenData.t)
| UpdatePasswordResetToken (id : string) (data : UpdatePasswordResetTokenData.t)
| MarkPasswordResetTokenAsUsed (id : string)
| MarkPasswordResetTokenAsUsedByToken (token : string)
| DeletePasswordResetToken (id : string)
| DeletePasswordResetTokenByToken (token : string)
| DeleteAllUserPasswordResetTokens (userId : string)
| DeleteExpiredPasswordResetTokens
| DeleteUsedPasswordResetTokens
| InvalidateAllUserPasswordResetTokens (userId : string)
| CreateRefreshToken (data : CreateRefreshTokenData.t)
| UpdateRefreshToken (id : string) (data : UpdateRefreshTokenData.t)
| RevokeRefreshToken (id : string)
| RevokeRefreshTokenByToken (token : string)
| DeleteRefreshToken (id : string)
| DeleteRefreshTokenByToken (token : string)
| DeleteAllUserRefreshTokens (userId : string)
| DeleteExpiredRefreshTokens
| DeleteRevokedRefreshTokens.

(** The world a mutation leaves behind, whatever it returned or threw. *)
Definition runMutation (m : TokenMutation) (w : World) : World :=
  match m with
  | CreatePasswordResetToken data => snd (createPasswordResetToken data w)
  | UpdatePasswordResetToken id data => snd (updatePasswordResetToken id data w)
  | MarkPasswordResetTokenAsUsed id => snd (markPasswordResetTokenAsUsed id w)
  | MarkPasswordResetTokenAsUsedByToken token =>
      snd (markPasswordResetTokenAsUsedByToken token w)
  | DeletePasswordResetToken id => snd (deletePasswordResetToken id w)
  | DeletePasswordResetTokenByToken token =>
      snd (deletePasswordResetTokenByToken token w)
  | DeleteAllUserPasswordResetTokens userId =>
      snd (deleteAllUserPasswordResetTokens userId w)
  | DeleteExpiredPasswordResetTokens => snd (deleteExpiredPasswordResetTokens w)
  | DeleteUsedPasswordResetTokens => snd (deleteUsedPasswordResetTokens w)
  | InvalidateAllUserPasswordResetTokens userId =>
      snd (invalidateAllUserPasswordResetTokens userId w)
  | CreateRefreshToken data => snd (createRefreshToken data w)
  | UpdateRefreshToken id data => snd (updateRefreshToken id data w)
  | RevokeRefreshToken id => snd (revokeRefreshToken id w)
  | RevokeRefreshTokenByToken token => snd (revokeRefreshTokenByToken token w)
  | DeleteRefreshToken id => snd (deleteRefreshToken id w)
  | DeleteRefreshTokenByToken token => snd (deleteRefreshTokenByToken token w)
  | DeleteAllUserRefreshTokens userId => snd (deleteAllUserRefreshTokens userId w)
  | DeleteExpiredRefreshTokens => snd (deleteExpiredRefreshTokens w)
  | DeleteRevokedRefreshTokens => snd (deleteRevokedRefreshTokens w)
  end.

(** The generic updates called with the flag explicitly [false]. *)
Definition clearsFlag (m : TokenMutation) : bool :=
  match m with
  | UpdatePasswordResetToken _ data =>
      match UpdatePasswordResetTokenData.isUsed data with
      | Some false => true
      | _ => false
      end
  | UpdateRefreshToken _ data =>
      match UpdateRefreshTokenData.isRevoked data with
      | Some false => true
      | _ => false
      end
  | _ => false
  end.

(** No row that is marked in [t] is found unmarked, under the same id, in
    [t']. *)
Definition staysMarked {R} (id : R -> string) (flag : R -> bool)
    (t t' : list R) : Prop :=
  forall r r', In r t -> In r' t' -> id r' = id r ->
               flag r = true -> flag r' = true.

(** A patch that keeps the id and never clears a set flag. *)
Definition keepsMark {R} (id : R -> string) (flag : R -> bool) (f : R -> R)
  : Prop :=
  forall r, id (f r) = id r /\ (flag r = true -> flag (f r) = true).

Definition keepsRetired (s s' : Database) : Prop :=
  staysMarked PasswordResetToken.id PasswordResetToken.isUsed
    (passwordResetTokens s) (passwordResetTokens s')
  /\ staysMarked RefreshToken.id RefreshToken.isRevoked
       (refreshTokens s) (refreshTokens s').

(** Ids are primary keys. *)
Definition uniqueIds (s : Database) : Prop :=
  NoDup (map PasswordResetToken.id (passwordResetTokens s))
  /\ NoDup (map RefreshToken.id (refreshTokens s)).

(** ** Orderings of a listing *)

(** [descBy key a b]: [a] may precede [b] in a listing with the largest
    [key] first. *)
Definition descBy {R} (key : R -> Z) : R -> R -> Prop :=
  fun a b => key b <= key a.

(** ** The shape of a paginated result *)

(** [k] is the ceiling of [T / L], for a positive [L]. *)
Definition isCeilOf (T L k : Z) : Prop := (k - 1) * L < T <= k * L.


(** The answer of a listing for the rows of [t] that [matches] selects:
    the two queries of a listing, [findMany] with [skip = (p-1)*L] and
    [take = L] and [count], on the same selection. *)
Definition pageOfMatching {R} (key : R -> Z) (matches : R -> bool)
    (t : list R) (p L : Z) : Result (Page R) :=
  let rows := sortDesc key (filter matches t) in
  let T := Z.of_nat (List.length (filter matches t)) in
  if (p - 1) * L <? 0 then Throw ValidationError
  else Ok (mkPage (window ((p - 1) * L) L rows)
             (mkPagination p L T (Math_ceil_div T L))).

Definition resultItems {R} (res : Result (Page R)) : list R :=
  match res with
  | Ok pg => items pg
  | Throw _ => []
  end.

Definition resultPagination {R} (res : Result (Page R)) : option Pagination :=
  match res with
  | Ok pg => Some (pagination pg)
  | Throw _ => None
  end.

(** ** The rows that match the filters of a listing

    What it is for a row to match the filters of a call, said column by
    column; the listings themselves build their [where] step by step. *)

(** A string filter that is absent or empty selects every row. *)
Definition stringFilter (f : option string) (v : string) : bool :=
  match f with
  | Some s => if String.eqb s "" then true else String.eqb v s
  | None => true
  end.

Definition boolFilter (f : option bool) (v : bool) : bool :=
  match f with
  | Some b => Bool.eqb v b
  | None => true
  end.

(** [isExpired: true] selects the rows whose expiry lies before [t],
    [isExpired: false] the other rows. *)
Definition expiredFilter (f : option bool) (t expiresAt : Date) : bool :=
  match f with
  | Some true => expiresAt <? t
  | Some false => t <=? expiresAt
  | None => true
  end.

(** Whether the call asks for a search. *)
Definition searches (filters : option UserFilters.t) : bool :=
  truthy (optField filters UserFilters.search).

(** [contains] is the matching of the search string against a column. *)
Definition userMatches (contains : string -> string -> bool)
    (filters : option UserFilters.t) (u : User.t) : bool :=
  match filters with
  | None => true
  | Some f =>
      boolFilter (UserFilters.isActive f) (User.isActive u)
      && stringFilter (UserFilters.roleId f) (User.roleId u)
      && match UserFilters.search f with
         | Some q =>
             if String.eqb q "" then true
             else contains q (User.firstName u)
                  || contains q (User.lastName u)
                  || contains q (User.email u)
         | None => true
         end
  end.

Definition passwordResetTokenMatches (t : Date)
    (filters : option PasswordResetTokenFilters.t) (r : PasswordResetToken.t)
  : bool :=
  match filters with
  | None => true
  | Some f =>
      stringFilter (PasswordResetTokenFilters.userId f)
        (PasswordResetToken.userId r)
      && boolFilter (PasswordResetTokenFilters.isUsed f)
           (PasswordResetToken.isUsed r)
      && expiredFilter (PasswordResetTokenFilters.isExpired f) t
           (PasswordResetToken.expiresAt r)
  end.

Definition refreshTokenMatches (t : Date)
    (filters : option RefreshTokenFilters.t) (r : RefreshToken.t) : bool :=
  match filters with
  | None => true
  | Some f =>
      stringFilter (RefreshTokenFilters.userId f) (RefreshToken.userId r)
      && boolFilter (RefreshTokenFilters.isRevoked f) (RefreshToken.isRevoked r)
      && expiredFilter (RefreshTokenFilters.isExpired f) t
           (RefreshToken.expiresAt r)
  end.

Definition sessionMatches (t : Date) (filters : option SessionFilters.t)
    (r : Session.t) : bool :=
  match filters with
  | None => true
  | Some f =>
      stringFilter (SessionFilters.userId f) (Session.userId r)
      && expiredFilter (SessionFilters.isExpired f) t (Session.expiresAt r)
  end.

(** The two ends of the date range are included. *)
Definition auditLogMatches (filters : option AuditLogFilters.t)
    (r : AuditLog.t) : bool :=
  match filters with
  | None => true
  | Some f =>
      stringFilter (AuditLogFilters.userId f) (AuditLog.userId r)
      && stringFilter (AuditLogFilters.entityType f) (AuditLog.entityType r)
      && stringFilter (AuditLogFilters.entityId f) (AuditLog.entityId r)
      && stringFilter (AuditLogFilters.action f) (AuditLog.action r)
      && match AuditLogFilters.dateFrom f with
         | Some from => from <=? AuditLog.createdAt r
         | None => true
         end
      && match AuditLogFilters.dateTo f with
         | Some to => AuditLog.createdAt r <=? to
         | None => true
         end
  end.

(** ** Sample data *)

Definition lowerAscii (c : ascii) : ascii :=
  let n := nat_of_ascii c in
  if (65 <=? n)%nat && (n <=? 90)%nat then ascii_of_nat (n + 32) else c.

Fixpoint toLower (s : string) : string :=
  match s with
  | EmptyString => EmptyString
  | String c s' => String (lowerAscii c) (toLower s')
  end.

Fixpoint containsStr (needle hay : string) : bool :=
  String.prefix needle hay
  || match hay with
     | EmptyString => false
     | String _ hay' => containsStr needle hay'
     end.

(** A matching a connector could have: substrings up to the case of the
    ASCII letters. *)
Definition asciiContains (search field : string) : bool :=
  containsStr (toLower search) (toLower field).

Definition sampleSchema : Schema := mkSchema (Some asciiContains) (fun t => t).

Definition sampleClock (t : Date) : nat -> Date := fun _ => t.

Definition sampleIds (k : nat) : string :=
  "row-" ++ String (ascii_of_nat (97 + k)) "".

Definition emptyDb : Database := mkDatabase [] [] [] [] [] [].

Definition adminRole : Role.t :=
  Role.mk "r1" "admin" (Some "Full system access") ["users:read"; "users:write"].

Definition alice : User.t :=
  User.mk "u1" "alice@example.com" "hash" "Alice" "Archer" "r1"
    None None true 10.

(** One role, one user holding it, no tokens; the clock stands at 1000. *)
Definition sampleWorld : World :=
  mkWorld (mkDatabase [alice] [adminRole] [] [] [] [])
    (sampleClock 1000) 0 sampleIds 0 [] sampleSchema.


Definition withDb (s : Database) (w : World) : World :=
  mkWorld s (clock w) (reads w) (idSupply w) (created w) (queries w)
    (schema w).

Definition usedResetToken : PasswordResetToken.t :=
  PasswordResetToken.mk "p1" "tok-1" "u1" 5000 true 20.

Definition revokedRefreshToken : RefreshToken.t :=
  RefreshToken.mk "f1" "rtok-1" "u1" 5000 true 20.

(** [sampleWorld] with one used reset token and one revoked refresh token,
    both unexpired. *)
Definition retiredWorld : World :=
  mkWorld (mkDatabase [alice] [adminRole] [] [revokedRefreshToken]
             [usedResetToken] [])
    (sampleClock 1000) 0 sampleIds 0 [] sampleSchema.

Definition expiredResetToken : PasswordResetToken.t :=
  PasswordResetToken.mk "p2" "tok-2" "u1" 500 false 20.

(** [sampleWorld] with one reset token that is unused but expired (its
    expiry 500 lies before the clock value 1000). *)
Definition expiredWorld : World :=
  mkWorld (mkDatabase [alice] [adminRole] [] [] [expiredResetToken] [])
    (sampleClock 1000) 0 sampleIds 0 [] sampleSchema.

Definition olderSession : Session.t :=
  Session.mk "s1" "stok-1" "u1" None None 5000 90 10.

Definition newerSession : Session.t :=
  Session.mk "s2" "stok-2" "u1" None None 5000 50 20.

(** [sampleWorld] with two sessions of the same user: the one created
    first is the one used last. *)
Definition sessionWorld : World :=
  mkWorld (mkDatabase [alice] [adminRole] [olderSession; newerSession] [] [] [])
    (sampleClock 1000) 0 sampleIds 0 [] sampleSchema.

Definition numberedUser (k : nat) : User.t :=
  User.mk (sampleIds k) (sampleIds k ++ "@example.com")%string "hash"
    "First" "Last" "r1" None None true (Z.of_nat k).

(** A store with 25 users, all holding the one role. *)
Definition crowdedWorld : World :=
  mkWorld (mkDatabase (map numberedUser (seq 0 25)) [adminRole] [] [] [] [])
    (sampleClock 1000) 0 sampleIds 0 [] sampleSchema.

(** [w] with the clock standing at [t]. *)
Definition withClock (t : Date) (w : World) : World :=
  mkWorld (db w) (sampleClock t) (reads w) (idSupply w) (created w)
    (queries w) (schema w).

(** ** user.service.ts: the generic update *)

Module UpdateUserData.
Record t := mk {
  firstName : option string;
  lastName : option string;
  phone : option string;
  avatar : option string;
  isActive : option bool
}.
End UpdateUserData.

Definition userPatch (data : UpdateUserData.t) (u : User.t) : User.t :=
  User.mk (User.id u) (User.email u) (User.password u)
    (match UpdateUserData.firstName data with
     | Some v => v
     | None => User.firstName u
     end)
    (match UpdateUserData.lastName data with
     | Some v => v
     | None => User.lastName u
     end)
    (User.roleId u)
    (match UpdateUserData.phone data with
     | Some v => Some v
     | None => User.phone u
     end)
    (match UpdateUserData.avatar data with
     | Some v => Some v
     | None => User.avatar u
     end)
    (match UpdateUserData.isActive data with
     | Some b => b
     | None => User.isActive u
     end)
    (User.createdAt u).

Definition updateUser (id : string) (data : UpdateUserData.t) : M User.t :=
  update userD (fun u => String.eqb (User.id u) id) (userPatch data).

(** ** audit.service.ts: the remaining operations *)

Module CreateAuditLogData.
Record t := mk {
  action : string;
  entityType : string;
  entityId : string;
  userId : string;
  oldValue : option string;
  newValue : option string;
  ipAddress : option string;
  userAgent : option string
}.
End CreateAuditLogData.

Module UpdateAuditLogData.
Record t := mk { oldValue : option string; newValue : option string }.
End UpdateAuditLogData.

Definition auditClash (a b : AuditLog.t) : bool :=
  String.eqb (AuditLog.id a) (AuditLog.id b).

Definition auditRefsOk (s : Database) (r : AuditLog.t) : bool :=
  userExists (AuditLog.userId r) s.

Definition auditPatch (data : UpdateAuditLogData.t) (r : AuditLog.t)
  : AuditLog.t :=
  AuditLog.mk (AuditLog.id r) (AuditLog.action r) (AuditLog.entityType r)
    (AuditLog.entityId r) (AuditLog.userId r)
    (match UpdateAuditLogData.oldValue data with
     | Some v => Some v
     | None => AuditLog.oldValue r
     end)
    (match UpdateAuditLogData.newValue data with
     | Some v => Some v
     | None => AuditLog.newValue r
     end)
    (AuditLog.ipAddress r) (AuditLog.userAgent r) (AuditLog.createdAt r).

(** Modelled from the spec: the missing schema gives the defaults; a new
    entry takes its id and its creation timestamp from the store and must
    point to an existing user. *)
Definition createAuditLog (data : CreateAuditLogData.t) : M AuditLog.t :=
  i <- freshId ;;
  fun w =>
    create auditLogD auditClash auditRefsOk
      (AuditLog.mk i
         (CreateAuditLogData.action data) (CreateAuditLogData.entityType data)
         (CreateAuditLogData.entityId data) (CreateAuditLogData.userId data)
         (CreateAuditLogData.oldValue data) (CreateAuditLogData.newValue data)
         (CreateAuditLogData.ipAddress data)
         (CreateAuditLogData.userAgent data) (now w)) w.

Definition findAuditLogById (id : string) : M (option AuditLog.t) :=
  findUnique auditLogD (fun r => String.eqb (AuditLog.id r) id).

Definition updateAuditLog (id : string) (data : UpdateAuditLogData.t)
  : M AuditLog.t :=
  update auditLogD (fun r => String.eqb (AuditLog.id r) id) (auditPatch data).

Definition getUserAuditLogs (userId : string) : M (list AuditLog.t) :=
  findMany auditLogD (fun r => String.eqb (AuditLog.userId r) userId)
    AuditLog.createdAt None None.

Definition getEntityAuditLogs (entityType entityId : string)
  : M (list AuditLog.t) :=
  findMany auditLogD
    (fun r => String.eqb (AuditLog.entityType r) entityType
              && String.eqb (AuditLog.entityId r) entityId)
    AuditLog.createdAt None None.

Definition getAuditLogsByAction (action : string) : M (list AuditLog.t) :=
  findMany auditLogD (fun r => String.eqb (AuditLog.action r) action)
    AuditLog.createdAt None None.

Definition getAuditLogsByEntityType (entityType : string)
  : M (list AuditLog.t) :=
  findMany auditLogD (fun r => String.eqb (AuditLog.entityType r) entityType)
    AuditLog.createdAt None None.

Definition deleteAuditLog (id : string) : M AuditLog.t :=
  delete auditLogD (fun r => String.eqb (AuditLog.id r) id) unrestricted.

Definition deleteAllUserAuditLogs (userId : string) : M BatchPayload :=
  deleteMany auditLogD (fun r => String.eqb (AuditLog.userId r) userId).

Definition deleteOldAuditLogs (olderThan : Date) : M BatchPayload :=
  deleteMany auditLogD (fun r => AuditLog.createdAt r <? olderThan).

Definition countUserAuditLogs (userId : string) : M Z :=
  countWhere auditLogD (fun r => String.eqb (AuditLog.userId r) userId).

Definition countEntityAuditLogs (entityType entityId : string) : M Z :=
  countWhere auditLogD
    (fun r => String.eqb (AuditLog.entityType r) entityType
              && String.eqb (AuditLog.entityId r) entityId).

Definition countAuditLogs : M Z := countWhere auditLogD whereAll.

(** One more occurrence of the key [k] in the tally [g]; a new key goes to
    the end. *)
Fixpoint bump (k : string) (g : list (string * Z)) : list (string * Z) :=
  match g with
  | [] => [(k, 1)]
  | (k', n) :: g' =>
      if String.eqb k' k then (k', n + 1) :: g' else (k', n) :: bump k g'
  end.

Definition tally {R} (by_ : R -> string) (t : list R) : list (string * Z) :=
  fold_left (fun g r => bump (by_ r) g) t [].

(** [groupBy({ by: [column], _count: { column: true },
    orderBy: { _count: { column: 'desc' } } })] for a string column that is
    never null: one pair per value of the column, with the number of rows
    that carry it, the largest number first.  The record of issued queries
    keeps the single-table actions only. *)
Definition groupBy {R} (d : Delegate R) (by_ : R -> string)
  : M (list (string * Z)) :=
  s <- getDb ;;
  ret (sortDesc snd (tally by_ (table d s))).

Record AuditLogStatistics := mkStatistics {
  totalLogs : Z;
  logsByAction : list (string * Z);
  logsByEntityType : list (string * Z);
  recentLogs : Z
}.

(** [Date.now()] *)
Definition Date_now : M Date := new_Date.

(** The arguments of the four queries, and with them the clock read, are
    evaluated before any of the queries runs. *)
Definition getAuditLogStatistics : M AuditLogStatistics :=
  n <- Date_now ;;
  totalLogs <- countWhere auditLogD whereAll ;;
  logsByAction <- groupBy auditLogD AuditLog.action ;;
  logsByEntityType <- groupBy auditLogD AuditLog.entityType ;;
  recentLogs <-
    countWhere auditLogD
      (fun r => AuditLog.createdAt r >=? n - 24 * 60 * 60 * 1000) ;;
  ret (mkStatistics totalLogs logsByAction logsByEntityType recentLogs).

Definition logUserAction (action entityType entityId userId : string)
    (oldValue newValue ipAddress userAgent : option string) : M AuditLog.t :=
  createAuditLog
    (CreateAuditLogData.mk action entityType entityId userId
       oldValue newValue ipAddress userAgent).

(** ** config/env.ts *)

(** [process.env]: the first binding of a name is the one in force. *)
Definition Env := list (string * string).

Fixpoint getenv (name : string) (env : Env) : option string :=
  match env with
  | [] => None
  | (k, v) :: env' => if String.eqb k name then Some v else getenv name env'
  end.


(** [o || d] for an optional string [o]. *)
Definition orElse (o : option string) (d : string) : string :=
  match o with
  | Some s => if String.eqb s "" then d else s
  | None => d
  end.

(** [l.join(sep)] *)
Fixpoint join (sep : string) (l : list string) : string :=
  match l with
  | [] => ""
  | [x] => x
  | x :: l' => String.append x (String.append sep (join sep l'))
  end.

(** [process.env.NODE_ENV === e] *)
Definition nodeEnvIs (env : Env) (e : string) : bool :=
  match getenv "NODE_ENV" env with
  | Some s => String.eqb s e
  | None => false
  end.

(** What a validation leaves behind: the lines written with
    [console.warn], and the message of the [Error] it threw, if any. *)
Record Validation := mkValidation {
  warnings : list string;
  thrown : option string
}.

Definition validateEnvironment (env : Env) : Validation :=
  let requiredVars :=
    ["DATABASE_URL"; "JWT_ACCESS_SECRET"; "JWT_REFRESH_SECRET"] in
  let missing :=
    filter (fun varName => negb (truthy (getenv varName env))) requiredVars in
  if (0 <? List.length missing)%nat
  then
    mkValidation
      [String.append "⚠️  Missing environment variables: " (join ", " missing)]
      (if nodeEnvIs env "production"
       then Some (String.append "Missing required environment variables: "
                    (join ", " missing))
       else None)
  else mkValidation [] None.

Definition getCurrentEnvironment (env : Env) : string :=
  orElse (getenv "NODE_ENV" env) "development".

Definition isEnvironment (env : Env) (e : string) : bool :=
  String.eqb (getCurrentEnvironment env) e.

(** The three flags the module exports, computed when it is loaded. *)
Module EnvTs.
Definition isDevelopment (env : Env) : bool := isEnvironment env "development".
Definition isProduction (env : Env) : bool := isEnvironment env "production".
Definition isTest (env : Env) : bool := isEnvironment env "test".
End EnvTs.

(** ** config/database.ts *)

(** The flags of the same names that this module exports. *)
Module DatabaseTs.
Definition isDevelopment (env : Env) : bool := nodeEnvIs env "development".
Definition isProduction (env : Env) : bool := nodeEnvIs env "production".
Definition isTest (env : Env) : bool := nodeEnvIs env "test".
End DatabaseTs.

Section DatabaseConfig.
(** The port is [parseInt] of a string, later printed inside a template
    string; the number type, the parser and the printer are parameters. *)
Variable Num : Type.
Variable parseInt : string -> Num.
Variable numberText : Num -> string.





End DatabaseConfig.

(** ** seeds/seed.ts *)

From Stdlib Require Import DecimalString.

(** [`${i}`] for a loop counter [i]. *)
Definition natText (i : nat) : string :=
  NilEmpty.string_of_uint (Nat.to_uint i).

(** [for (let i = first; ...; i++) body(i)], run [n] times. *)
Fixpoint forLoop (first n : nat) (body : nat -> M unit) : M unit :=
  match n with
  | O => ret tt
  | S n' => body first ;;; forLoop (S first) n' body
  end.

Section Seed.
(** [bcrypt.hash(password, 10)] is a parameter. *)
Variable bcryptHash : string -> string.

(** [main], up to the two counts it prints: the roles and the users. *)
Definition seedMain : M (Z * Z) :=
  adminRole <-
    createRole
      (CreateRoleData.mk "admin" (Some "Full system access")
         ["users:read"; "users:write"; "users:delete"; "roles:read";
          "roles:write"; "roles:delete"; "settings:read"; "settings:write";
          "reports:read"; "reports:export"]) ;;
  managerRole <-
    createRole
      (CreateRoleData.mk "manager" (Some "Can manage users and view reports")
         ["users:read"; "users:write"; "reports:read"; "reports:export"]) ;;
  userRole <-
    createRole
      (CreateRoleData.mk "user" (Some "Basic user access") ["users:read"]) ;;
  let adminPassword := bcryptHash "admin123" in
  createUser
    (CreateUserData.mk "admin@example.com" adminPassword "Admin" "User"
       (Role.id adminRole) (Some "+1234567890") None) ;;;
  let managerPassword := bcryptHash "manager123" in
  createUser
    (CreateUserData.mk "manager@example.com" managerPassword "Manager" "User"
       (Role.id managerRole) (Some "+1234567891") None) ;;;
  let userPassword := bcryptHash "user123" in
  createUser
    (CreateUserData.mk "user@example.com" userPassword "Regular" "User"
       (Role.id userRole) (Some "+1234567892") None) ;;;
  forLoop 1 5
    (fun i =>
       let testPassword := bcryptHash "test123" in
       createUser
         (CreateUserData.mk
            (String.append "test" (String.append (natText i) "@example.com"))
            testPassword
            (String.append "Test" (natText i)) "User"
            (Role.id userRole)
            (Some (String.append "+123456789" (natText (i + 2)))) None) ;;;
       ret tt) ;;;
  userCount <- countWhere userD whereAll ;;
  roleCount <- countWhere roleD whereAll ;;
  ret (roleCount, userCount).
End Seed.

(** ** Vocabulary of the further properties *)

(** The call throws the client's not-found error and leaves the tables as
    they were. *)
Definition notFound {A} (m : M A) (w : World) : Prop :=
  fst (m w) = Throw RecordNotFound /\ db (snd (m w)) = db w.

(** The call throws the client's unique-constraint error and leaves the
    tables as they were. *)
Definition duplicateKey {A} (m : M A) (w : World) : Prop :=
  fst (m w) = Throw UniqueConstraint /\ db (snd (m w)) = db w.

(** The rows a listing call returned; none if it threw. *)
Definition listed {R} (res : Result (list R)) : list R :=
  match res with
  | Ok l => l
  | Throw _ => []
  end.

(** An id supply that never repeats: the [k]-th id is [k] letters long. *)
Fixpoint unaryId (k : nat) : string :=
  match k with
  | O => ""
  | S k' => String "i" (unaryId k')
  end.

(** An empty store with the clock at 1000. *)
Definition blankWorld : World :=
  mkWorld emptyDb (sampleClock 1000) 0 unaryId 0 [] sampleSchema.

(** The counts of a grouping, added up. *)
Definition sumCounts (g : list (string * Z)) : Z :=
  fold_right Z.add 0 (map snd g).

Definition loginEntry : AuditLog.t :=
  AuditLog.mk "a1" "LOGIN" "User" "u1" "u1" None None None None 100.

Definition updateEntry : AuditLog.t :=
  AuditLog.mk "a2" "UPDATE" "Role" "r1" "u1" (Some "{}") (Some "{}")
    None None 200.

Definition laterLoginEntry : AuditLog.t :=
  AuditLog.mk "a3" "LOGIN" "User" "u1" "u1" None None None None 300.

(** [sampleWorld] with three audit entries, created at 100, 200 and 300. *)
Definition auditWorld : World :=
  mkWorld (mkDatabase [alice] [adminRole] [] [] []
             [loginEntry; updateEntry; laterLoginEntry])
    (sampleClock 1000) 0 sampleIds 0 [] sampleSchema.

(** * Properties *)

(** ** Running a service function *)

Ltac run :=
  unfold findUnique, findMany, countWhere, update, updateMany, delete,
    deleteMany, create, bind, ret, throw, issue, getDb, putDb, new_Date,
    freshId, getSchema, now;
  cbn [fst snd db clock reads idSupply created queries schema
       model table setTable
       passwordResetTokenD refreshTokenD sessionD userD roleD auditLogD
       users roles sessions refreshTokens passwordResetTokens auditLogs].

(** ** Facts about rows *)

Section RowFacts.
Context {R : Type}.
Implicit Types (p : R -> bool) (f : R -> R) (t : list R).

Lemma find_app_fresh p t r :
  existsb p t = false -> p r = true -> find p (t ++ [r]) = Some r.
Proof.
  induction t as [|x t IH]; cbn; intros Hnone Hr.
  - now rewrite Hr.
  - apply orb_false_iff in Hnone as [Hx Ht].
    rewrite Hx. now apply IH.
Qed.

Lemma countRows_zero_iff p t :
  countRows p t = 0 <-> forall r, In r t -> p r = false.
Proof.
  unfold countRows. split.
  - intros H r Hin. destruct (p r) eqn:Hp; [|reflexivity].
    assert (Hf : In r (filter p t)) by (apply filter_In; auto).
    destruct (filter p t); [destruct Hf | cbn in H; lia].
  - intros H. replace (filter p t) with (@nil R); [reflexivity|].
    symmetry. induction t as [|x t IH]; cbn; [reflexivity|].
    rewrite (H x (or_introl eq_refl)). apply IH.
    intros r Hr. apply H. now right.
Qed.
End RowFacts.

(** ** The validity checks *)

Lemma existsb_weaken {R} (p q : R -> bool) t :
  (forall r, q r = true -> p r = true) ->
  existsb p t = false -> existsb q t = false.
Proof.
  intros Hpq. induction t as [|x t IH]; cbn; [easy|].
  intros H. apply orb_false_iff in H as [Hx Ht].
  rewrite (IH Ht), orb_false_r.
  destruct (q x) eqn:Hq; [|reflexivity].
  now rewrite (Hpq x Hq) in Hx.
Qed.

Lemma isPasswordResetTokenValid_run w t :
  isPasswordResetTokenValid t w =
  match find (fun r => String.eqb (PasswordResetToken.token r) t)
             (passwordResetTokens (db w)) with
  | None => (Ok false, snd (issue MPasswordResetToken AFindUnique w))
  | Some e =>
      if negb (PasswordResetToken.isUsed e)
      then (Ok (PasswordResetToken.expiresAt e >? now w),
            snd (new_Date (snd (issue MPasswordResetToken AFindUnique w))))
      else (Ok false, snd (issue MPasswordResetToken AFindUnique w))
  end.
Proof.
  unfold isPasswordResetTokenValid. run.
  destruct (find _ _) as [e|]; [|reflexivity].
  destruct (PasswordResetToken.isUsed e); reflexivity.
Qed.

Lemma isRefreshTokenValid_run w t :
  isRefreshTokenValid t w =
  match find (fun r => String.eqb (RefreshToken.token r) t)
             (refreshTokens (db w)) with
  | None => (Ok false, snd (issue MRefreshToken AFindUnique w))
  | Some e =>
      if negb (RefreshToken.isRevoked e)
      then (Ok (RefreshToken.expiresAt e >? now w),
            snd (new_Date (snd (issue MRefreshToken AFindUnique w))))
      else (Ok false, snd (issue MRefreshToken AFindUnique w))
  end.
Proof.
  unfold isRefreshTokenValid. run.
  destruct (find _ _) as [e|]; [|reflexivity].
  destruct (RefreshToken.isRevoked e); reflexivity.
Qed.

Lemma createPasswordResetToken_ok data w e w1 :
  createPasswordResetToken data w = (Ok e, w1) ->
  e = PasswordResetToken.mk (idSupply w (created w))
        (CreatePasswordResetTokenData.token data)
        (CreatePasswordResetTokenData.userId data)
        (CreatePasswordResetTokenData.expiresAt data) false (now w)
  /\ existsb (prtClash e) (passwordResetTokens (db w)) = false
  /\ db w1 = setTable passwordResetTokenD
               (passwordResetTokens (db w) ++ [e]) (db w)
  /\ reads w1 = reads w /\ clock w1 = clock w.
Proof.
  unfold createPasswordResetToken. run.
  destruct (existsb _ _) eqn:Hc; [discriminate|].
  destruct (negb _); [discriminate|].
  intros H. injection H as <- <-. cbn. auto.
Qed.

Lemma createRefreshToken_ok data w e w1 :
  createRefreshToken data w = (Ok e, w1) ->
  e = RefreshToken.mk (idSupply w (created w))
        (CreateRefreshTokenData.token data)
        (CreateRefreshTokenData.userId data)
        (CreateRefreshTokenData.expiresAt data) false (now w)
  /\ existsb (rtClash e) (refreshTokens (db w)) = false
  /\ db w1 = setTable refreshTokenD (refreshTokens (db w) ++ [e]) (db w)
  /\ reads w1 = reads w /\ clock w1 = clock w.
Proof.
  unfold createRefreshToken. run.
  destruct (existsb _ _) eqn:Hc; [discriminate|].
  destruct (negb _); [discriminate|].
  intros H. injection H as <- <-. cbn. auto.
Qed.

(** C1.  Each validity check answers [false] when no row carries the token
    and otherwise [not flag && expiresAt > now], where [now] is the single
    clock value read by the call: the call reads the clock at most once
    and leaves the tables alone.  A token created with an expiry strictly
    before the clock value of the check is rejected by a check made right
    after its creation. *)
Theorem token_validity_check (w : World) (t : string) :
  (fst (isPasswordResetTokenValid t w) =
     Ok match find (fun r => String.eqb (PasswordResetToken.token r) t)
                   (passwordResetTokens (db w)) with
        | None => false
        | Some e => negb (PasswordResetToken.isUsed e)
                    && (PasswordResetToken.expiresAt e >? now w)
        end
   /\ (reads (snd (isPasswordResetTokenValid t w)) <= S (reads w))%nat
   /\ db (snd (isPasswordResetTokenValid t w)) = db w)
  /\ (fst (isRefreshTokenValid t w) =
        Ok match find (fun r => String.eqb (RefreshToken.token r) t)
                      (refreshTokens (db w)) with
           | None => false
           | Some e => negb (RefreshToken.isRevoked e)
                       && (RefreshToken.expiresAt e >? now w)
           end
      /\ (reads (snd (isRefreshTokenValid t w)) <= S (reads w))%nat
      /\ db (snd (isRefreshTokenValid t w)) = db w)
  /\ (forall expiresAt userId e w1,
        createPasswordResetToken
          (CreatePasswordResetTokenData.mk t userId expiresAt) w = (Ok e, w1) ->
        expiresAt < now w1 ->
        fst (isPasswordResetTokenValid t w1) = Ok false)
  /\ (forall expiresAt userId e w1,
        createRefreshToken
          (CreateRefreshTokenData.mk t userId expiresAt) w = (Ok e, w1) ->
        expiresAt < now w1 ->
        fst (isRefreshTokenValid t w1) = Ok false).
Proof.
  repeat split.
  - rewrite isPasswordResetTokenValid_run.
    destruct (find _ _) as [e|]; [|reflexivity].
    destruct (PasswordResetToken.isUsed e); reflexivity.
  - rewrite isPasswordResetTokenValid_run.
    destruct (find _ _) as [e|]; [|cbn; lia].
    destruct (negb _); cbn; lia.
  - rewrite isPasswordResetTokenValid_run.
    destruct (find _ _) as [e|]; [|reflexivity].
    destruct (negb _); reflexivity.
  - rewrite isRefreshTokenValid_run.
    destruct (find _ _) as [e|]; [|reflexivity].
    destruct (RefreshToken.isRevoked e); reflexivity.
  - rewrite isRefreshTokenValid_run.
    destruct (find _ _) as [e|]; [|cbn; lia].
    destruct (negb _); cbn; lia.
  - rewrite isRefreshTokenValid_run.
    destruct (find _ _) as [e|]; [|reflexivity].
    destruct (negb _); reflexivity.
  - intros x u e w1 Hc Hpast.
    apply createPasswordResetToken_ok in Hc as (He & Hfresh & Hdb & _ & _).
    rewrite isPasswordResetTokenValid_run, Hdb. cbn [setTable passwordResetTokenD passwordResetTokens].
    rewrite (find_app_fresh _ _ e).
    + subst e. cbn. f_equal. lia.
    + revert Hfresh. apply existsb_weaken. intros r Hr.
      unfold prtClash. subst e. cbn in *. rewrite String.eqb_sym in Hr.
      rewrite Hr. apply orb_true_r.
    + subst e. cbn. apply String.eqb_refl.
  - intros x u e w1 Hc Hpast.
    apply createRefreshToken_ok in Hc as (He & Hfresh & Hdb & _ & _).
    rewrite isRefreshTokenValid_run, Hdb. cbn [setTable refreshTokenD refreshTokens].
    rewrite (find_app_fresh _ _ e).
    + subst e. cbn. f_equal. lia.
    + revert Hfresh. apply existsb_weaken. intros r Hr.
      unfold rtClash. subst e. cbn in *. rewrite String.eqb_sym in Hr.
      rewrite Hr. apply orb_true_r.
    + subst e. cbn. apply String.eqb_refl.
Qed.

(** The scenario of C1: a reset token issued with its expiry one second
    (1000 ms) before the clock value. *)
Lemma token_validity_check_witness :
  fst (isPasswordResetTokenValid "tok"
         (snd (createPasswordResetToken
                 (CreatePasswordResetTokenData.mk "tok" "u1" 0)
                 sampleWorld))) = Ok false.
Proof.
  refine (proj1 (proj2 (proj2 (token_validity_check sampleWorld "tok")))
            0 "u1" _ _ _ _).
  - vm_compute. reflexivity.
  - vm_compute. reflexivity.
Defined.

(** ** The one-way flags *)

Section Marking.
Context {R : Type} (id : R -> string) (flag : R -> bool).
Implicit Types (p : R -> bool) (f : R -> R) (t : list R).

Local Abbreviation keepsMark := (keepsMark id flag).

Lemma unique_by_id t r r0 :
  NoDup (map id t) -> In r t -> In r0 t -> id r0 = id r -> r0 = r.
Proof.
  induction t as [|x t IH]; cbn; [easy|].
  intros Hnd Hr Hr0 Hid. inversion Hnd as [|? ? Hx Ht]; subst.
  destruct Hr as [<-|Hr], Hr0 as [<-|Hr0]; auto.
  - exfalso. apply Hx. rewrite <- Hid. now apply in_map.
  - exfalso. apply Hx. rewrite Hid. now apply in_map.
Qed.

Lemma staysMarked_from t t' :
  NoDup (map id t) ->
  (forall r', In r' t' ->
     (exists r0, In r0 t /\ id r0 = id r'
                 /\ (flag r0 = true -> flag r' = true))
     \/ (forall r, In r t -> id r <> id r')) ->
  staysMarked id flag t t'.
Proof.
  intros Hnd H r r' Hr Hr' Hid Hf.
  destruct (H r' Hr') as [(r0 & H0 & Hid0 & Hkeep)|Hfresh].
  - assert (r0 = r) by (apply (unique_by_id t); congruence).
    subst. auto.
  - exfalso. apply (Hfresh r Hr). congruence.
Qed.

Lemma staysMarked_sub t t' :
  NoDup (map id t) -> (forall r, In r t' -> In r t) ->
  staysMarked id flag t t'.
Proof.
  intros Hnd Hsub. apply staysMarked_from; [exact Hnd|].
  intros r' Hr'. left. exists r'. auto.
Qed.

Lemma staysMarked_refl t : NoDup (map id t) -> staysMarked id flag t t.
Proof. intros. apply staysMarked_sub; auto. Qed.

Lemma in_patchFirst p f t r' :
  In r' (patchFirst p f t) -> In r' t \/ exists r0, In r0 t /\ r' = f r0.
Proof.
  induction t as [|x t IH]; cbn; [easy|].
  destruct (p x); cbn.
  - intros [<-|H]; [right; exists x|left]; auto.
  - intros [<-|H]; [left; auto|].
    destruct (IH H) as [?|(r0 & ? & ?)]; [left|right; exists r0]; auto.
Qed.

Lemma in_patchAll p f t r' :
  In r' (patchAll p f t) -> In r' t \/ exists r0, In r0 t /\ r' = f r0.
Proof.
  unfold patchAll. rewrite in_map_iff. intros (r0 & <- & H0).
  destruct (p r0); [right; exists r0|left]; auto.
Qed.

Lemma in_removeFirst p t r' : In r' (removeFirst p t) -> In r' t.
Proof.
  induction t as [|x t IH]; cbn; [easy|].
  destruct (p x); cbn; [auto|]. intros [<-|H]; auto.
Qed.

Lemma in_removeAll p t r' : In r' (removeAll p t) -> In r' t.
Proof. unfold removeAll. rewrite filter_In. tauto. Qed.

Lemma staysMarked_patchFirst p f t :
  NoDup (map id t) -> keepsMark f ->
  staysMarked id flag t (patchFirst p f t).
Proof.
  intros Hnd Hf. apply staysMarked_from; [exact Hnd|].
  intros r' Hr'. left.
  destruct (in_patchFirst _ _ _ _ Hr') as [?|(r0 & H0 & ->)].
  - exists r'. auto.
  - exists r0. destruct (Hf r0). auto.
Qed.

Lemma staysMarked_patchAll p f t :
  NoDup (map id t) -> keepsMark f ->
  staysMarked id flag t (patchAll p f t).
Proof.
  intros Hnd Hf. apply staysMarked_from; [exact Hnd|].
  intros r' Hr'. left.
  destruct (in_patchAll _ _ _ _ Hr') as [?|(r0 & H0 & ->)].
  - exists r'. auto.
  - exists r0. destruct (Hf r0). auto.
Qed.

Lemma staysMarked_removeFirst p t :
  NoDup (map id t) -> staysMarked id flag t (removeFirst p t).
Proof. intros. apply staysMarked_sub; [assumption|]. apply in_removeFirst. Qed.

Lemma staysMarked_removeAll p t :
  NoDup (map id t) -> staysMarked id flag t (removeAll p t).
Proof. intros. apply staysMarked_sub; [assumption|]. apply in_removeAll. Qed.

Lemma staysMarked_append (clash : R -> R -> bool) t row :
  NoDup (map id t) ->
  (forall r, String.eqb (id row) (id r) = true -> clash row r = true) ->
  existsb (clash row) t = false ->
  staysMarked id flag t (t ++ [row]).
Proof.
  intros Hnd Hclash Hnone. apply staysMarked_from; [exact Hnd|].
  intros r' Hr'. apply in_app_or in Hr' as [Hr'|[<-|[]]].
  - left. exists r'. auto.
  - right. intros r Hr Hid.
    assert (He : existsb (clash row) t = true).
    { apply existsb_exists. exists r. split; [exact Hr|].
      apply Hclash. rewrite Hid. apply String.eqb_refl. }
    congruence.
Qed.
End Marking.

Lemma prtPatch_keepsMark data :
  UpdatePasswordResetTokenData.isUsed data <> Some false ->
  keepsMark PasswordResetToken.id PasswordResetToken.isUsed (prtPatch data).
Proof.
  intros H r. split; [reflexivity|]. cbn.
  destruct (UpdatePasswordResetTokenData.isUsed data) as [[|]|]; congruence.
Qed.

Lemma rtPatch_keepsMark data :
  UpdateRefreshTokenData.isRevoked data <> Some false ->
  keepsMark RefreshToken.id RefreshToken.isRevoked (rtPatch data).
Proof.
  intros H r. split; [reflexivity|]. cbn.
  destruct (UpdateRefreshTokenData.isRevoked data) as [[|]|]; congruence.
Qed.

Ltac flag_ok :=
  cbn in *;
  match goal with
  | |- Some true <> Some false => discriminate
  | |- ?x <> Some false => destruct x as [[|]|]; congruence
  end.

Ltac keep_marked :=
  first
    [ apply staysMarked_refl; assumption
    | apply staysMarked_patchFirst;
      [assumption
      | first [apply prtPatch_keepsMark | apply rtPatch_keepsMark]; flag_ok]
    | apply staysMarked_patchAll;
      [assumption
      | first [apply prtPatch_keepsMark | apply rtPatch_keepsMark]; flag_ok]
    | apply staysMarked_removeFirst; assumption
    | apply staysMarked_removeAll; assumption ].

(** C2, amended.  In a store whose ids are unique, every exported mutation
    of the password-reset and refresh-token services other than the generic
    [updatePasswordResetToken] / [updateRefreshToken] called with the flag
    set to [false] leaves every used reset token used and every revoked
    refresh token revoked: a row found under the same id afterwards still
    carries the flag. *)
Theorem retired_flag_one_way (m : TokenMutation) (w : World) :
  uniqueIds (db w) -> clearsFlag m = false ->
  keepsRetired (db w) (db (runMutation m w)).
Proof.
  intros [Hp Hr] Hm. unfold keepsRetired.
  destruct m; cbn [runMutation];
    unfold createPasswordResetToken, updatePasswordResetToken,
      markPasswordResetTokenAsUsed, markPasswordResetTokenAsUsedByToken,
      deletePasswordResetToken, deletePasswordResetTokenByToken,
      deleteAllUserPasswordResetTokens, deleteExpiredPasswordResetTokens,
      deleteUsedPasswordResetTokens, invalidateAllUserPasswordResetTokens,
      createRefreshToken, updateRefreshToken, revokeRefreshToken,
      revokeRefreshTokenByToken, deleteRefreshToken, deleteRefreshTokenByToken,
      deleteAllUserRefreshTokens, deleteExpiredRefreshTokens,
      deleteRevokedRefreshTokens, prtMarkUsed, rtRevoke, unrestricted; run.
  all: try (destruct (find _ _); run).
  all: try (destruct (existsb _ _) eqn:Hclash; run; [|destruct (negb _); run]).
  all: split; try keep_marked.
  - apply (staysMarked_append _ _ prtClash); auto.
    intros r H. unfold prtClash. now rewrite H.
  - apply (staysMarked_append _ _ rtClash); auto.
    intros r H. unfold rtClash. now rewrite H.
Qed.

(** The amended C2 at a store holding one used and one revoked token. *)
Lemma retired_flag_one_way_witness :
  keepsRetired (db retiredWorld)
    (db (runMutation (MarkPasswordResetTokenAsUsed "p1") retiredWorld)).
Proof.
  apply retired_flag_one_way.
  - split; cbn; repeat constructor; cbn; tauto.
  - reflexivity.
Defined.

(** C2 as stated fails: the generic updates accept [isUsed: false] /
    [isRevoked: false] and write it over a set flag. *)
Lemma retired_flag_reset_counterexample :
  fst (updatePasswordResetToken "p1"
         (UpdatePasswordResetTokenData.mk (Some false) None) retiredWorld)
  = Ok (PasswordResetToken.mk "p1" "tok-1" "u1" 5000 false 20)
  /\ fst (updateRefreshToken "f1"
            (UpdateRefreshTokenData.mk (Some false) None) retiredWorld)
     = Ok (RefreshToken.mk "f1" "rtok-1" "u1" 5000 false 20)
  /\ ~ keepsRetired (db retiredWorld)
        (db (runMutation
               (UpdatePasswordResetToken "p1"
                  (UpdatePasswordResetTokenData.mk (Some false) None))
               retiredWorld))
  /\ ~ keepsRetired (db retiredWorld)
        (db (runMutation
               (UpdateRefreshToken "f1"
                  (UpdateRefreshTokenData.mk (Some false) None))
               retiredWorld)).
Proof.
  repeat split; try reflexivity.
  - intros [H _].
    specialize (H usedResetToken
                  (PasswordResetToken.mk "p1" "tok-1" "u1" 5000 false 20)).
    cbn in H. discriminate H; auto.
  - intros [_ H].
    specialize (H revokedRefreshToken
                  (RefreshToken.mk "f1" "rtok-1" "u1" 5000 false 20)).
    cbn in H. discriminate H; auto.
Qed.

(** ** Revoking everything a user holds *)

Section BulkFacts.
Context {R : Type}.
Implicit Types (p q : R -> bool) (f : R -> R) (t : list R).

Lemma countRows_patchAll_zero p q f t :
  (forall r, q r = true -> p (f r) = false) ->
  (forall r, q r = false -> p r = false) ->
  countRows p (patchAll q f t) = 0.
Proof.
  intros Hhit Hmiss. apply countRows_zero_iff. intros r Hr.
  unfold patchAll in Hr. apply in_map_iff in Hr as (r0 & <- & _).
  destruct (q r0) eqn:Hq; auto.
Qed.

Lemma countRows_removeAll_zero p q t :
  (forall r, q r = false -> p r = false) ->
  countRows p (removeAll q t) = 0.
Proof.
  intros Hmiss. apply countRows_zero_iff. intros r Hr.
  unfold removeAll in Hr. apply filter_In in Hr as [_ Hq].
  apply Hmiss. now apply negb_true_iff.
Qed.

Lemma patchAll_fixed q f t :
  (forall r, In r t -> q r = true -> f r = r) -> patchAll q f t = t.
Proof.
  unfold patchAll. induction t as [|x t IH]; cbn; intros H; [reflexivity|].
  rewrite IH by (intros; apply H; auto). f_equal.
  destruct (q x) eqn:Hq; [|reflexivity]. apply H; auto.
Qed.

End BulkFacts.

(** C3.  Whatever the store held, right after the revoke-all operation of
    a token type the active count of the same user is 0: after
    [invalidateAllUserPasswordResetTokens] for reset tokens, after
    [deleteAllUserRefreshTokens] for refresh tokens, after
    [deleteAllUserSessions] for sessions. *)
Theorem revoke_all_leaves_no_active (w : World) (u : string) :
  fst (countActiveUserPasswordResetTokens u
         (snd (invalidateAllUserPasswordResetTokens u w))) = Ok 0
  /\ fst (countActiveUserRefreshTokens u
            (snd (deleteAllUserRefreshTokens u w))) = Ok 0
  /\ fst (countActiveUserSessions u
            (snd (deleteAllUserSessions u w))) = Ok 0.
Proof.
  unfold countActiveUserPasswordResetTokens,
    invalidateAllUserPasswordResetTokens, countActiveUserRefreshTokens,
    deleteAllUserRefreshTokens, countActiveUserSessions,
    deleteAllUserSessions.
  run. repeat split; f_equal.
  - apply countRows_patchAll_zero; intros r Hq; cbn.
    + now rewrite andb_false_r.
    + now rewrite Hq.
  - apply countRows_removeAll_zero. intros r Hq. now rewrite Hq.
  - apply countRows_removeAll_zero. intros r Hq. now rewrite Hq.
Qed.

Lemma prtMarkUsed_used r :
  PasswordResetToken.isUsed r = true -> prtMarkUsed r = r.
Proof. destruct r; cbn. now intros ->. Qed.

Lemma passwordResetTokenD_same s :
  setTable passwordResetTokenD (passwordResetTokens s) s = s.
Proof. now destruct s. Qed.

(** C6, amended.  [invalidateAllUserPasswordResetTokens u] selects by
    [userId] alone: it reports the number of [u]'s rows, active or not, and
    marks each of them used.  It reports 0 and changes nothing when [u] has
    no row at all; it changes nothing (yet still counts the rows) when all
    of [u]'s rows are already used. *)
Theorem invalidate_all_count (w : World) (u : string) :
  let mine := fun r => String.eqb (PasswordResetToken.userId r) u in
  let t := passwordResetTokens (db w) in
  let after := invalidateAllUserPasswordResetTokens u w in
  fst after = Ok (mkBatch (countRows mine t))
  /\ db (snd after) = setTable passwordResetTokenD (patchAll mine prtMarkUsed t) (db w)
  /\ ((forall r, In r t -> mine r = false) ->
      fst after = Ok (mkBatch 0) /\ db (snd after) = db w)
  /\ ((forall r, In r t -> mine r = true -> PasswordResetToken.isUsed r = true) ->
      db (snd after) = db w).
Proof.
  cbn zeta. unfold invalidateAllUserPasswordResetTokens. run.
  split; [reflexivity|]. split; [reflexivity|]. split.
  - intros Hnone. split.
    + do 2 f_equal. now apply countRows_zero_iff.
    + rewrite patchAll_fixed; [apply passwordResetTokenD_same|].
      intros r Hr Hq. rewrite (Hnone r Hr) in Hq. discriminate.
  - intros Hused. rewrite patchAll_fixed; [apply passwordResetTokenD_same|].
    intros r Hr Hq. apply prtMarkUsed_used. auto.
Qed.

(** The amended C6 at a user without rows. *)
Lemma invalidate_all_count_witness :
  fst (invalidateAllUserPasswordResetTokens "nobody" expiredWorld)
  = Ok (mkBatch 0)
  /\ db (snd (invalidateAllUserPasswordResetTokens "nobody" expiredWorld))
     = db expiredWorld.
Proof.
  apply (proj1 (proj2 (proj2 (invalidate_all_count expiredWorld "nobody")))).
  intros r [<-|[]]. reflexivity.
Defined.

(** C6 as stated fails: a user whose only token is unused but expired has
    no active token, yet the call reports one affected row and marks the
    row used. *)
Lemma invalidate_all_counterexample :
  fst (countActiveUserPasswordResetTokens "u1" expiredWorld) = Ok 0
  /\ fst (invalidateAllUserPasswordResetTokens "u1" expiredWorld)
     = Ok (mkBatch 1)
  /\ fst (invalidateAllUserPasswordResetTokens "u1" expiredWorld)
     <> Ok (mkBatch 0)
  /\ passwordResetTokens
       (db (snd (invalidateAllUserPasswordResetTokens "u1" expiredWorld)))
     = [PasswordResetToken.mk "p2" "tok-2" "u1" 500 true 20]
  /\ db (snd (invalidateAllUserPasswordResetTokens "u1" expiredWorld))
     <> db expiredWorld.
Proof. repeat split; try reflexivity; discriminate. Qed.

(** ** Retiring a token twice *)

Section UpdateTwice.
Context {R : Type} (d : Delegate R).
Hypothesis table_set : forall t s, table d (setTable d t s) = t.
Hypothesis set_set :
  forall t t' s, setTable d t (setTable d t' s) = setTable d t s.
Hypothesis set_same : forall s, setTable d (table d s) s = s.

Variables (p : R -> bool) (f : R -> R).
Hypothesis p_stable : forall r, p (f r) = p r.
Hypothesis f_idem : forall r, f (f r) = f r.

Lemma find_patchFirst t e :
  find p t = Some e -> find p (patchFirst p f t) = Some (f e).
Proof.
  induction t as [|x t IH]; cbn; [discriminate|].
  destruct (p x) eqn:Hx; cbn.
  - intros [= <-]. now rewrite p_stable, Hx.
  - rewrite Hx. exact IH.
Qed.

Lemma patchFirst_twice t :
  patchFirst p f (patchFirst p f t) = patchFirst p f t.
Proof.
  induction t as [|x t IH]; cbn; [reflexivity|].
  destruct (p x) eqn:Hx; cbn.
  - now rewrite p_stable, Hx, f_idem.
  - now rewrite Hx, IH.
Qed.

Lemma patchFirst_fixed t e :
  find p t = Some e -> f e = e -> patchFirst p f t = t.
Proof.
  induction t as [|x t IH]; cbn; [discriminate|].
  destruct (p x) eqn:Hx.
  - intros [= <-] ->. reflexivity.
  - intros He Hf. now rewrite IH.
Qed.

Lemma update_twice w e :
  find p (table d (db w)) = Some e ->
  let once := update d p f w in
  let twice := update d p f (snd once) in
  fst once = Ok (f e)
  /\ fst twice = Ok (f e)
  /\ db (snd twice) = db (snd once)
  /\ (f e = e -> db (snd once) = db w).
Proof.
  intros He. cbn zeta. unfold update. run. rewrite He. run.
  rewrite table_set, (find_patchFirst _ _ He). run.
  rewrite f_idem, patchFirst_twice, set_set.
  repeat split; try reflexivity.
  intros Hfix. now rewrite (patchFirst_fixed _ _ He Hfix), set_same.
Qed.
End UpdateTwice.

Lemma refreshTokenD_same s :
  setTable refreshTokenD (refreshTokens s) s = s.
Proof. now destruct s. Qed.

Lemma rtRevoke_revoked r :
  RefreshToken.isRevoked r = true -> rtRevoke r = r.
Proof. destruct r; cbn. now intros ->. Qed.

(** C4.  Each retire operation applied to an existing entity succeeds and
    returns the retired row; applied a second time it succeeds again with
    the same row and leaves the tables exactly as the first application left
    them; applied to an entity that is already retired it leaves the tables
    as they were. *)
Theorem retire_idempotent (w : World) (id token : string) :
  (forall e,
     find (fun r => String.eqb (PasswordResetToken.id r) id)
          (passwordResetTokens (db w)) = Some e ->
     let once := markPasswordResetTokenAsUsed id w in
     let twice := markPasswordResetTokenAsUsed id (snd once) in
     fst once = Ok (prtMarkUsed e) /\ fst twice = Ok (prtMarkUsed e)
     /\ db (snd twice) = db (snd once)
     /\ (PasswordResetToken.isUsed e = true -> db (snd once) = db w))
  /\ (forall e,
        find (fun r => String.eqb (PasswordResetToken.token r) token)
             (passwordResetTokens (db w)) = Some e ->
        let once := markPasswordResetTokenAsUsedByToken token w in
        let twice := markPasswordResetTokenAsUsedByToken token (snd once) in
        fst once = Ok (prtMarkUsed e) /\ fst twice = Ok (prtMarkUsed e)
        /\ db (snd twice) = db (snd once)
        /\ (PasswordResetToken.isUsed e = true -> db (snd once) = db w))
  /\ (forall e,
        find (fun r => String.eqb (RefreshToken.id r) id)
             (refreshTokens (db w)) = Some e ->
        let once := revokeRefreshToken id w in
        let twice := revokeRefreshToken id (snd once) in
        fst once = Ok (rtRevoke e) /\ fst twice = Ok (rtRevoke e)
        /\ db (snd twice) = db (snd once)
        /\ (RefreshToken.isRevoked e = true -> db (snd once) = db w))
  /\ (forall e,
        find (fun r => String.eqb (RefreshToken.token r) token)
             (refreshTokens (db w)) = Some e ->
        let once := revokeRefreshTokenByToken token w in
        let twice := revokeRefreshTokenByToken token (snd once) in
        fst once = Ok (rtRevoke e) /\ fst twice = Ok (rtRevoke e)
        /\ db (snd twice) = db (snd once)
        /\ (RefreshToken.isRevoked e = true -> db (snd once) = db w)).
Proof.
  repeat apply conj; intros e He;
    unfold markPasswordResetTokenAsUsed, markPasswordResetTokenAsUsedByToken,
      revokeRefreshToken, revokeRefreshTokenByToken.
  1, 2: destruct (fun Hp =>
                    update_twice passwordResetTokenD
                      (fun _ _ => eq_refl) (fun _ _ _ => eq_refl)
                      passwordResetTokenD_same _ prtMarkUsed Hp
                      (fun _ => eq_refl) w e He)
          as (H1 & H2 & H3 & H4); [reflexivity|].
  3, 4: destruct (fun Hp =>
                    update_twice refreshTokenD
                      (fun _ _ => eq_refl) (fun _ _ _ => eq_refl)
                      refreshTokenD_same _ rtRevoke Hp
                      (fun _ => eq_refl) w e He)
          as (H1 & H2 & H3 & H4); [reflexivity|].
  all: cbn zeta; repeat split; auto.
  all: intros Hu; apply H4;
       first [now apply prtMarkUsed_used | now apply rtRevoke_revoked].
Qed.

(** C4 at an existing, not yet used reset token. *)
Lemma retire_idempotent_witness :
  let once := markPasswordResetTokenAsUsed "p2" expiredWorld in
  let twice := markPasswordResetTokenAsUsed "p2" (snd once) in
  fst once = Ok (prtMarkUsed expiredResetToken)
  /\ fst twice = Ok (prtMarkUsed expiredResetToken)
  /\ db (snd twice) = db (snd once)
  /\ (PasswordResetToken.isUsed expiredResetToken = true ->
      db (snd once) = db expiredWorld).
Proof.
  apply (proj1 (retire_idempotent expiredWorld "p2" "tok-2")).
  reflexivity.
Defined.

(** ** The sweeps *)

Lemma removeAll_keeps {R} (p : R -> bool) t r :
  In r t -> p r = false -> In r (removeAll p t).
Proof.
  intros Hin Hp. unfold removeAll. apply filter_In. now rewrite Hp.
Qed.

(** C5.  An expired-sweep removes from its table exactly the rows whose
    [expiresAt] lies strictly before the clock value it read, so a row whose
    [expiresAt] is at or after that value stays; a retired-sweep removes
    exactly the rows whose flag is set, so a row with the flag [false]
    stays.  The remaining rows keep their content and order, and no other
    table changes. *)
Theorem sweeps_spare_live_rows (w : World) :
  (let t := passwordResetTokens (db w) in
   let after := deleteExpiredPasswordResetTokens w in
   let expired := fun r => PasswordResetToken.expiresAt r <? now w in
   fst after = Ok (mkBatch (countRows expired t))
   /\ db (snd after) = setTable passwordResetTokenD (removeAll expired t) (db w)
   /\ (forall r, In r t -> now w <= PasswordResetToken.expiresAt r ->
                 In r (passwordResetTokens (db (snd after)))))
  /\ (let t := refreshTokens (db w) in
      let after := deleteExpiredRefreshTokens w in
      let expired := fun r => RefreshToken.expiresAt r <? now w in
      fst after = Ok (mkBatch (countRows expired t))
      /\ db (snd after) = setTable refreshTokenD (removeAll expired t) (db w)
      /\ (forall r, In r t -> now w <= RefreshToken.expiresAt r ->
                    In r (refreshTokens (db (snd after)))))
  /\ (let t := sessions (db w) in
      let after := deleteExpiredSessions w in
      let expired := fun r => Session.expiresAt r <? now w in
      fst after = Ok (mkBatch (countRows expired t))
      /\ db (snd after) = setTable sessionD (removeAll expired t) (db w)
      /\ (forall r, In r t -> now w <= Session.expiresAt r ->
                    In r (sessions (db (snd after)))))
  /\ (let t := passwordResetTokens (db w) in
      let after := deleteUsedPasswordResetTokens w in
      let used := fun r => Bool.eqb (PasswordResetToken.isUsed r) true in
      fst after = Ok (mkBatch (countRows used t))
      /\ db (snd after) = setTable passwordResetTokenD (removeAll used t) (db w)
      /\ (forall r, In r t -> PasswordResetToken.isUsed r = false ->
                    In r (passwordResetTokens (db (snd after)))))
  /\ (let t := refreshTokens (db w) in
      let after := deleteRevokedRefreshTokens w in
      let revoked := fun r => Bool.eqb (RefreshToken.isRevoked r) true in
      fst after = Ok (mkBatch (countRows revoked t))
      /\ db (snd after) = setTable refreshTokenD (removeAll revoked t) (db w)
      /\ (forall r, In r t -> RefreshToken.isRevoked r = false ->
                    In r (refreshTokens (db (snd after))))).
Proof.
  unfold deleteExpiredPasswordResetTokens, deleteExpiredRefreshTokens,
    deleteExpiredSessions, deleteUsedPasswordResetTokens,
    deleteRevokedRefreshTokens.
  run. cbn zeta.
  repeat apply conj; try reflexivity; intros r Hin Hlive;
    apply removeAll_keeps; try exact Hin.
  1-3: apply Z.ltb_ge; exact Hlive.
  all: now rewrite Hlive.
Qed.

(** C5 at a reset token whose expiry (5000) lies after the clock value
    (1000). *)
Lemma sweeps_spare_live_rows_witness :
  In usedResetToken
     (passwordResetTokens (db (snd (deleteExpiredPasswordResetTokens retiredWorld)))).
Proof.
  apply (proj2 (proj2 (proj1 (sweeps_spare_live_rows retiredWorld)))).
  - left. reflexivity.
  - vm_compute. discriminate.
Defined.

(** ** Deleting a role *)

Lemma countRows_eqb_zero {R} (p : R -> bool) t :
  (countRows p t =? 0) = negb (existsb p t).
Proof.
  unfold countRows. induction t as [|x t IH]; cbn; [reflexivity|].
  destruct (p x); cbn; [reflexivity | exact IH].
Qed.

Lemma find_holds {R} (p : R -> bool) t e : find p t = Some e -> p e = true.
Proof. intros H. now apply find_some in H. Qed.

Lemma roleD_same s : setTable roleD (roles s) s = s.
Proof. now destruct s. Qed.

(** C7, amended.  [canDeleteRole r] is the zero-count query: one [count]
    on the users, answering [true] exactly when no user holds the role.
    [deleteRole r] makes no such check: its only query is the [delete] on
    the roles.  It throws the not-found error when no role has the id.  For
    an existing role the store's foreign key decides: while a user holds
    the role the deletion is refused with the foreign-key error and no
    table changes; when none does, which is when [canDeleteRole r] answers
    [true], it returns the role and removes its row and nothing else. *)
Theorem role_deletion_guard (w : World) (r : string) :
  let byId := fun x => String.eqb (Role.id x) r in
  (fst (canDeleteRole r w) = Ok (negb (roleReferenced r (db w)))
   /\ queries (snd (canDeleteRole r w)) = queries w ++ [(MUser, ACount)]
   /\ db (snd (canDeleteRole r w)) = db w)
  /\ queries (snd (deleteRole r w)) = queries w ++ [(MRole, ADelete)]
  /\ (find byId (roles (db w)) = None ->
      fst (deleteRole r w) = Throw RecordNotFound
      /\ db (snd (deleteRole r w)) = db w)
  /\ (forall e, find byId (roles (db w)) = Some e ->
      roleReferenced r (db w) = true ->
      fst (deleteRole r w) = Throw ForeignKeyConstraint
      /\ db (snd (deleteRole r w)) = db w)
  /\ (forall e, find byId (roles (db w)) = Some e ->
      fst (canDeleteRole r w) = Ok true ->
      fst (deleteRole r w) = Ok e
      /\ db (snd (deleteRole r w))
         = setTable roleD (removeFirst byId (roles (db w))) (db w)).
Proof.
  cbn zeta. unfold canDeleteRole, deleteRole, roleReferenced. run.
  repeat apply conj.
  - now rewrite countRows_eqb_zero.
  - reflexivity.
  - reflexivity.
  - destruct (find _ _) as [e|]; [|reflexivity].
    destruct (existsb _ _); reflexivity.
  - intros ->. split; reflexivity.
  - intros e He Href. rewrite He.
    assert (Hid : Role.id e = r) by (apply String.eqb_eq; exact (find_holds _ _ _ He)).
    rewrite Hid, Href. split; reflexivity.
  - intros e He Hcan. rewrite He.
    rewrite countRows_eqb_zero in Hcan.
    assert (Hid : Role.id e = r) by (apply String.eqb_eq; exact (find_holds _ _ _ He)).
    rewrite Hid.
    destruct (existsb _ (users (db w))); [discriminate|].
    split; reflexivity.
Qed.

(** The amended C7 at a role no user holds. *)
Lemma role_deletion_guard_witness :
  fst (deleteRole "r1" (withDb (mkDatabase [] [adminRole] [] [] [] [])
                          sampleWorld)) = Ok adminRole
  /\ db (snd (deleteRole "r1" (withDb (mkDatabase [] [adminRole] [] [] [] [])
                                 sampleWorld)))
     = emptyDb.
Proof.
  apply (proj2 (proj2 (proj2 (proj2
           (role_deletion_guard
              (withDb (mkDatabase [] [adminRole] [] [] [] [])
                 sampleWorld) "r1"))))).
  - reflexivity.
  - reflexivity.
Defined.

(** C7 as stated fails in its last part: no zero-count query precedes the
    deletion.  Whether the role is held by a user or by none, the one query
    [deleteRole] issues is the [delete] on the roles; the refusal for a
    role in use is the foreign-key error of that [delete]. *)
Lemma role_deletion_counterexample :
  let unused := withDb (mkDatabase [] [adminRole] [] [] [] []) sampleWorld in
  roleReferenced "r1" (db sampleWorld) = true
  /\ fst (deleteRole "r1" sampleWorld) = Throw ForeignKeyConstraint
  /\ queries (snd (deleteRole "r1" sampleWorld)) = [(MRole, ADelete)]
  /\ ~ In (MUser, ACount) (queries (snd (deleteRole "r1" sampleWorld)))
  /\ roleReferenced "r1" (db unused) = false
  /\ fst (deleteRole "r1" unused) = Ok adminRole
  /\ queries (snd (deleteRole "r1" unused)) = [(MRole, ADelete)]
  /\ ~ In (MUser, ACount) (queries (snd (deleteRole "r1" unused))).
Proof.
  cbn zeta. repeat split; try reflexivity.
  - cbn. intros [H|[]]. discriminate H.
  - cbn. intros [H|[]]. discriminate H.
Qed.

(** ** The order of a listing *)

Section SortFacts.
Context {R : Type} (key : R -> Z).
Implicit Types (x : R) (l : list R).

Lemma insertDesc_perm x l : Permutation (insertDesc key x l) (x :: l).
Proof.
  induction l as [|y l IH]; cbn; [reflexivity|].
  destruct (key y <=? key x); [reflexivity|].
  rewrite IH. apply perm_swap.
Qed.

Lemma sortDesc_perm l : Permutation (sortDesc key l) l.
Proof.
  induction l as [|x l IH]; cbn; [reflexivity|].
  rewrite insertDesc_perm. now constructor.
Qed.

Lemma sortDesc_length l : List.length (sortDesc key l) = List.length l.
Proof. apply Permutation_length, sortDesc_perm. Qed.

Lemma insertDesc_sorted x l :
  StronglySorted (descBy key) l ->
  StronglySorted (descBy key) (insertDesc key x l).
Proof.
  induction 1 as [|y l Hl IH Hy]; cbn.
  - repeat constructor.
  - destruct (key y <=? key x) eqn:Hc.
    + apply Z.leb_le in Hc. constructor; [now constructor|].
      constructor; [exact Hc|].
      eapply Forall_impl; [|exact Hy]. unfold descBy. intros; lia.
    + apply Z.leb_gt in Hc. constructor; [exact IH|].
      eapply Permutation_Forall; [symmetry; apply insertDesc_perm|].
      constructor; [unfold descBy; lia | exact Hy].
Qed.

Lemma sortDesc_sorted l : StronglySorted (descBy key) (sortDesc key l).
Proof.
  induction l as [|x l IH]; cbn; [constructor|].
  now apply insertDesc_sorted.
Qed.
End SortFacts.

(** C8, amended.  [getUserRefreshTokens] and [getUserPasswordResetTokens]
    return exactly the user's rows, newest first by creation time.
    [getUserSessions] and [getActiveUserSessions] return the user's
    sessions (for the latter, those expiring after the clock value read)
    most recently active first: they are ordered by [lastActivityAt]. *)
Theorem per_user_listings_order (w : World) (u : string) :
  (exists l,
     fst (getUserRefreshTokens u w) = Ok l
     /\ StronglySorted (descBy RefreshToken.createdAt) l
     /\ Permutation l
          (filter (fun r => String.eqb (RefreshToken.userId r) u)
             (refreshTokens (db w))))
  /\ (exists l,
        fst (getUserPasswordResetTokens u w) = Ok l
        /\ StronglySorted (descBy PasswordResetToken.createdAt) l
        /\ Permutation l
             (filter (fun r => String.eqb (PasswordResetToken.userId r) u)
                (passwordResetTokens (db w))))
  /\ (exists l,
        fst (getUserSessions u w) = Ok l
        /\ StronglySorted (descBy Session.lastActivityAt) l
        /\ Permutation l
             (filter (fun r => String.eqb (Session.userId r) u)
                (sessions (db w))))
  /\ (exists l,
        fst (getActiveUserSessions u w) = Ok l
        /\ StronglySorted (descBy Session.lastActivityAt) l
        /\ Permutation l
             (filter (fun r => String.eqb (Session.userId r) u
                               && (Session.expiresAt r >? now w))
                (sessions (db w)))).
Proof.
  unfold getUserRefreshTokens, getUserPasswordResetTokens, getUserSessions,
    getActiveUserSessions.
  run.
  repeat apply conj; eexists; (split; [reflexivity|]);
    split; auto using sortDesc_sorted, sortDesc_perm.
Qed.

(** C8 as stated fails for sessions: the session created first comes
    first when it is the one used last. *)
Lemma session_listing_counterexample :
  fst (getUserSessions "u1" sessionWorld) = Ok [olderSession; newerSession]
  /\ fst (getActiveUserSessions "u1" sessionWorld)
     = Ok [olderSession; newerSession]
  /\ Session.createdAt olderSession < Session.createdAt newerSession
  /\ ~ StronglySorted (descBy Session.createdAt) [olderSession; newerSession].
Proof.
  repeat split; try reflexivity.
  intros H. inversion H as [|? ? _ Hall]; subst.
  inversion Hall as [|? ? Hlt _]; subst.
  unfold descBy in Hlt. cbn in Hlt. lia.
Qed.

(** ** Pagination *)

Lemma Math_ceil_div_pos T L :
  1 <= L -> Math_ceil_div T L = Int (- ((- T) / L)) /\ isCeilOf T L (- ((- T) / L)).
Proof.
  intros HL. unfold Math_ceil_div, isCeilOf.
  replace (L =? 0) with false by (symmetry; apply Z.eqb_neq; lia).
  split; [reflexivity|].
  pose proof (Z.div_mod (- T) L ltac:(lia)) as Hdm.
  pose proof (Z.mod_pos_bound (- T) L ltac:(lia)) as Hm.
  nia.
Qed.

Lemma bind_ret {A B} (a : A) (f : A -> M B) w : bind (ret a) f w = f a w.
Proof. reflexivity. Qed.

Lemma bind_new_Date {A B} (g : Date -> A) (f : A -> M B) w :
  bind (bind new_Date (fun d => ret (g d))) f w
  = f (g (now w)) (snd (new_Date w)).
Proof. reflexivity. Qed.

Lemma filter_matches {R} (where_ matches : R -> bool) (t : list R) :
  (forall r, where_ r = matches r) -> filter where_ t = filter matches t.
Proof. intros H. apply filter_ext. exact H. Qed.

(** The two queries of a paginated listing, run on a [where] that selects
    the rows [matches] does. *)
Lemma listing_page {R} (d : Delegate R) (where_ matches : R -> bool)
    (key : R -> Z) (p L : Z) (w w' : World) :
  db w' = db w ->
  (forall r, where_ r = matches r) ->
  fst (bind (findMany d where_ key (Some ((p - 1) * L)) (Some L))
         (fun rows =>
            bind (countWhere d where_)
              (fun total =>
                 ret (mkPage rows
                        (mkPagination p L total (Math_ceil_div total L)))))
         w')
  = pageOfMatching key matches (table d (db w)) p L.
Proof.
  intros Hdb Hwh. unfold pageOfMatching. run. rewrite Hdb.
  rewrite (filter_matches where_ matches _ Hwh).
  destruct ((p - 1) * L <? 0); [reflexivity|]. cbn.
  unfold countRows. now rewrite (filter_matches where_ matches _ Hwh).
Qed.


Lemma whereStringField_spec {R} (w : R -> bool) (f : option string)
    (column : R -> string) (r : R) :
  whereStringField w f column r = w r && stringFilter f (column r).
Proof.
  unfold whereStringField, truthy, stringFilter, whereAnd.
  destruct f as [s|]; [|now rewrite andb_true_r].
  destruct (String.eqb s ""); [now rewrite andb_true_r|reflexivity].
Qed.

Lemma bind_containsInsensitive {A B} (g : (string -> string -> bool) -> A)
    (f : A -> M B) (c : string -> string -> bool) w :
  insensitiveContains (schema w) = Some c ->
  bind (bind containsInsensitive (fun m => ret (g m))) f w = f (g c) w.
Proof.
  intros H. unfold containsInsensitive, getSchema, bind, ret. now rewrite H.
Qed.

Lemma bind_containsInsensitive_none {A B}
    (g : (string -> string -> bool) -> A) (f : A -> M B) w :
  insensitiveContains (schema w) = None ->
  bind (bind containsInsensitive (fun m => ret (g m))) f w
  = (Throw ValidationError, w).
Proof.
  intros H. unfold containsInsensitive, getSchema, bind, ret, throw.
  now rewrite H.
Qed.

(** The [where] a listing builds selects the rows that match its
    filters. *)
Ltac same_rows :=
  let r := fresh "r" in
  intros r; unfold whereAnd, boolFilter, expiredFilter; cbn [optField];
  repeat match goal with
         | |- context [match ?o with Some _ => _ | None => _ end] =>
             is_var o; destruct o
         end;
  cbv beta; rewrite ?whereStringField_spec; unfold whereAll; cbn [andb];
  rewrite ?andb_true_r, ?Z.geb_leb; reflexivity.

Ltac paged :=
  cbn [defaultTo]; cbn zeta;
  rewrite ?bind_new_Date, ?bind_ret;
  match goal with
  | |- fst (bind (findMany ?d ?wh ?key _ _) _ ?w1)
       = pageOfMatching _ ?m (_ (db ?w0)) ?p0 ?L0 =>
      refine (listing_page d wh m key p0 L0 w0 w1 eq_refl _)
  end.

Lemma getUsers_page (w : World) (p L : Z) filters contains :
  (searches filters = true -> insensitiveContains (schema w) = Some contains) ->
  fst (getUsers (Some p) (Some L) filters w)
  = pageOfMatching User.createdAt (userMatches contains filters)
      (users (db w)) p L.
Proof.
  intros Hc. unfold getUsers, searches in *.
  destruct filters as [[a r [q|]]|];
    cbn [optField UserFilters.search truthy] in *.
  - destruct (String.eqb q "") eqn:Hq; cbn [negb] in *.
    + paged. intros u. unfold whereAnd.
      rewrite whereStringField_spec. unfold whereAll, userMatches, boolFilter.
      cbn [optField UserFilters.isActive UserFilters.roleId UserFilters.search].
      rewrite Hq. destruct a; now rewrite ?andb_true_r.
    + cbn [defaultTo]; cbn zeta.
      rewrite (bind_containsInsensitive _ _ contains w (Hc eq_refl)).
      paged. intros u. unfold whereAnd.
      rewrite whereStringField_spec. unfold whereAll, userMatches, boolFilter.
      cbn [optField UserFilters.isActive UserFilters.roleId UserFilters.search].
      rewrite Hq. destruct a; reflexivity.
  - paged. intros u. unfold whereAnd.
    rewrite whereStringField_spec. unfold whereAll, userMatches, boolFilter.
    cbn [optField UserFilters.isActive UserFilters.roleId UserFilters.search].
    destruct a; now rewrite ?andb_true_r.
  - paged. intros u. reflexivity.
Qed.

Lemma getUsers_refused (w : World) (page limit : option Z) filters :
  searches filters = true -> insensitiveContains (schema w) = None ->
  getUsers page limit filters w = (Throw ValidationError, w).
Proof.
  intros Hs Hn. unfold getUsers, searches in *.
  destruct filters as [[a r [q|]]|];
    cbn [optField UserFilters.search truthy] in *; try discriminate.
  rewrite Hs. cbn zeta.
  now rewrite (bind_containsInsensitive_none _ _ w Hn).
Qed.

Lemma getPasswordResetTokens_page (w : World) (p L : Z) filters :
  fst (getPasswordResetTokens (Some p) (Some L) filters w)
  = pageOfMatching PasswordResetToken.createdAt
      (passwordResetTokenMatches (now w) filters)
      (passwordResetTokens (db w)) p L.
Proof.
  unfold getPasswordResetTokens, passwordResetTokenMatches.
  destruct filters as [[u a [[|]|]]|];
    cbn [optField PasswordResetTokenFilters.userId
           PasswordResetTokenFilters.isUsed
           PasswordResetTokenFilters.isExpired];
    paged; same_rows.
Qed.

Lemma getRefreshTokens_page (w : World) (p L : Z) filters :
  fst (getRefreshTokens (Some p) (Some L) filters w)
  = pageOfMatching RefreshToken.createdAt (refreshTokenMatches (now w) filters)
      (refreshTokens (db w)) p L.
Proof.
  unfold getRefreshTokens, refreshTokenMatches.
  destruct filters as [[u a [[|]|]]|];
    cbn [optField RefreshTokenFilters.userId RefreshTokenFilters.isRevoked
           RefreshTokenFilters.isExpired];
    paged; same_rows.
Qed.

Lemma getSessions_page (w : World) (p L : Z) filters :
  fst (getSessions (Some p) (Some L) filters w)
  = pageOfMatching Session.lastActivityAt (sessionMatches (now w) filters)
      (sessions (db w)) p L.
Proof.
  unfold getSessions, sessionMatches.
  destruct filters as [[u [[|]|]]|];
    cbn [optField SessionFilters.userId SessionFilters.isExpired];
    paged; same_rows.
Qed.

Lemma getAuditLogs_page (w : World) (p L : Z) filters :
  fst (getAuditLogs (Some p) (Some L) filters w)
  = pageOfMatching AuditLog.createdAt (auditLogMatches filters)
      (auditLogs (db w)) p L.
Proof.
  unfold getAuditLogs, auditLogMatches.
  destruct filters as [[u t i a from to]|];
    cbn [optField AuditLogFilters.userId AuditLogFilters.entityType
           AuditLogFilters.entityId AuditLogFilters.action
           AuditLogFilters.dateFrom AuditLogFilters.dateTo];
    paged; same_rows.
Qed.




(** ** The instant of expiry *)

Lemma firstPage_all {R} (key : R -> Z) (wh : R -> bool) t L e :
  1 <= L -> Z.of_nat (List.length t) <= L ->
  In e t -> wh e = true ->
  In e (window ((1 - 1) * L) L (sortDesc key (filter wh t))).
Proof.
  intros HL Hlen Hin Hwh. unfold window.
  replace (L <? 0) with false by (symmetry; apply Z.ltb_ge; lia).
  cbn [Z.sub Z.mul Z.to_nat Z.add Z.opp Z.pos_sub skipn].
  rewrite firstn_all2.
  - eapply Permutation_in; [symmetry; apply sortDesc_perm|].
    apply filter_In. auto.
  - rewrite sortDesc_length.
    pose proof (filter_length_le wh t). lia.
Qed.

Lemma in_firstn {R} (x : R) n l : In x (firstn n l) -> In x l.
Proof.
  intros H. rewrite <- (firstn_skipn n l). apply in_or_app. now left.
Qed.

Lemma window_excludes {R} (key : R -> Z) (wh : R -> bool) t L e :
  1 <= L -> wh e = false ->
  ~ In e (window ((1 - 1) * L) L (sortDesc key (filter wh t))).
Proof.
  intros HL Hwh Hin. unfold window in Hin.
  replace (L <? 0) with false in Hin by (symmetry; apply Z.ltb_ge; lia).
  cbn [Z.sub Z.mul Z.to_nat Z.add Z.opp Z.pos_sub skipn] in Hin.
  apply in_firstn in Hin.
  apply (Permutation_in _ (sortDesc_perm key _)) in Hin.
  apply filter_In in Hin as [_ Hin]. congruence.
Qed.

Ltac first_page :=
  cbn [defaultTo optField
       PasswordResetTokenFilters.isExpired PasswordResetTokenFilters.isUsed
       PasswordResetTokenFilters.userId
       RefreshTokenFilters.isExpired RefreshTokenFilters.isRevoked
       RefreshTokenFilters.userId
       SessionFilters.isExpired SessionFilters.userId];
  cbn zeta; rewrite bind_new_Date; run;
  replace ((1 - 1) * _ <? 0) with false by reflexivity;
  cbn [resultItems items fst].

Ltac at_boundary Hexp :=
  unfold whereAnd, whereStringField, whereAll; cbn; rewrite Hexp;
  first [apply Z.geb_le; reflexivity | apply Z.ltb_irrefl].

(** C10.  A token-like row whose [expiresAt] equals the clock value a call
    reads is rejected by the validity check (which wants [expiresAt]
    strictly later), is not removed by the expired-sweep (which wants
    [expiresAt] strictly earlier), appears in the listing filtered with
    [isExpired: false] (first page, with a limit that covers the table) and
    is absent from the listing filtered with [isExpired: true]. *)
Theorem expiry_boundary (w : World) (L : Z) :
  1 <= L ->
  (forall e,
     let t := passwordResetTokens (db w) in
     let listing := fun b =>
       resultItems
         (fst (getPasswordResetTokens (Some 1) (Some L)
                 (Some (PasswordResetTokenFilters.mk None None (Some b))) w)) in
     In e t -> PasswordResetToken.expiresAt e = now w ->
     (find (fun r => String.eqb (PasswordResetToken.token r)
                       (PasswordResetToken.token e)) t = Some e ->
      fst (isPasswordResetTokenValid (PasswordResetToken.token e) w) = Ok false)
     /\ In e (passwordResetTokens
                (db (snd (deleteExpiredPasswordResetTokens w))))
     /\ (Z.of_nat (List.length t) <= L -> In e (listing false))
     /\ ~ In e (listing true))
  /\ (forall e,
        let t := refreshTokens (db w) in
        let listing := fun b =>
          resultItems
            (fst (getRefreshTokens (Some 1) (Some L)
                    (Some (RefreshTokenFilters.mk None None (Some b))) w)) in
        In e t -> RefreshToken.expiresAt e = now w ->
        (find (fun r => String.eqb (RefreshToken.token r)
                          (RefreshToken.token e)) t = Some e ->
         fst (isRefreshTokenValid (RefreshToken.token e) w) = Ok false)
        /\ In e (refreshTokens (db (snd (deleteExpiredRefreshTokens w))))
        /\ (Z.of_nat (List.length t) <= L -> In e (listing false))
        /\ ~ In e (listing true))
  /\ (forall e,
        let t := sessions (db w) in
        let listing := fun b =>
          resultItems
            (fst (getSessions (Some 1) (Some L)
                    (Some (SessionFilters.mk None (Some b))) w)) in
        In e t -> Session.expiresAt e = now w ->
        In e (sessions (db (snd (deleteExpiredSessions w))))
        /\ (Z.of_nat (List.length t) <= L -> In e (listing false))
        /\ ~ In e (listing true)).
Proof.
  intros HL.
  repeat apply conj; intros e t listing Hin Hexp; subst t listing;
    repeat apply conj.
  - intros Hfind. rewrite isPasswordResetTokenValid_run, Hfind, Hexp.
    destruct (negb _); [|reflexivity]. now rewrite Z.gtb_ltb, Z.ltb_irrefl.
  - unfold deleteExpiredPasswordResetTokens. run.
    apply removeAll_keeps; [exact Hin|]. rewrite Hexp. apply Z.ltb_irrefl.
  - intros Hlen. unfold getPasswordResetTokens. first_page.
    apply firstPage_all; auto. at_boundary Hexp.
  - unfold getPasswordResetTokens. first_page.
    apply window_excludes; auto. at_boundary Hexp.
  - intros Hfind. rewrite isRefreshTokenValid_run, Hfind, Hexp.
    destruct (negb _); [|reflexivity]. now rewrite Z.gtb_ltb, Z.ltb_irrefl.
  - unfold deleteExpiredRefreshTokens. run.
    apply removeAll_keeps; [exact Hin|]. rewrite Hexp. apply Z.ltb_irrefl.
  - intros Hlen. unfold getRefreshTokens. first_page.
    apply firstPage_all; auto. at_boundary Hexp.
  - unfold getRefreshTokens. first_page.
    apply window_excludes; auto. at_boundary Hexp.
  - unfold deleteExpiredSessions. run.
    apply removeAll_keeps; [exact Hin|]. rewrite Hexp. apply Z.ltb_irrefl.
  - intros Hlen. unfold getSessions. first_page.
    apply firstPage_all; auto. at_boundary Hexp.
  - unfold getSessions. first_page.
    apply window_excludes; auto. at_boundary Hexp.
Qed.

(** C10 at a reset token expiring at 500 with the clock standing at 500. *)
Lemma expiry_boundary_witness :
  fst (isPasswordResetTokenValid "tok-2" (withClock 500 expiredWorld))
  = Ok false
  /\ In expiredResetToken
        (passwordResetTokens
           (db (snd (deleteExpiredPasswordResetTokens
                       (withClock 500 expiredWorld)))))
  /\ In expiredResetToken
        (resultItems
           (fst (getPasswordResetTokens (Some 1) (Some 10)
                   (Some (PasswordResetTokenFilters.mk None None (Some false)))
                   (withClock 500 expiredWorld))))
  /\ ~ In expiredResetToken
          (resultItems
             (fst (getPasswordResetTokens (Some 1) (Some 10)
                     (Some (PasswordResetTokenFilters.mk None None (Some true)))
                     (withClock 500 expiredWorld)))).
Proof.
  destruct (proj1 (expiry_boundary (withClock 500 expiredWorld) 10
                     ltac:(lia)) expiredResetToken)
    as (H1 & H2 & H3 & H4).
  - left. reflexivity.
  - reflexivity.
  - split; [apply H1; reflexivity|].
    split; [exact H2|].
    split; [apply H3; cbn; lia | exact H4].
Defined.

(** * Further properties of the services *)

(** ** Issuing, finding and retiring a token *)

Lemma createSession_ok data w e w1 :
  createSession data w = (Ok e, w1) ->
  e = Session.mk (idSupply w (created w))
        (CreateSessionData.token data) (CreateSessionData.userId data)
        (CreateSessionData.ipAddress data) (CreateSessionData.userAgent data)
        (CreateSessionData.expiresAt data)
        (lastActivityDefault (schema w) (now w)) (now w)
  /\ existsb (sessionClash e) (sessions (db w)) = false
  /\ db w1 = setTable sessionD (sessions (db w) ++ [e]) (db w).
Proof.
  unfold createSession. run.
  destruct (existsb _ _) eqn:Hc; [discriminate|].
  destruct (negb _); [discriminate|].
  intros H. injection H as <- <-. cbn. auto.
Qed.

Lemma prtClash_token e t :
  existsb (prtClash e) t = false ->
  existsb (fun r => String.eqb (PasswordResetToken.token r)
                      (PasswordResetToken.token e)) t = false.
Proof.
  apply existsb_weaken. intros r Hr. unfold prtClash.
  rewrite String.eqb_sym in Hr. rewrite Hr. apply orb_true_r.
Qed.

Lemma prtClash_id e t :
  existsb (prtClash e) t = false ->
  existsb (fun r => String.eqb (PasswordResetToken.id r)
                      (PasswordResetToken.id e)) t = false.
Proof.
  apply existsb_weaken. intros r Hr. unfold prtClash.
  rewrite String.eqb_sym in Hr. now rewrite Hr.
Qed.

Lemma rtClash_token e t :
  existsb (rtClash e) t = false ->
  existsb (fun r => String.eqb (RefreshToken.token r)
                      (RefreshToken.token e)) t = false.
Proof.
  apply existsb_weaken. intros r Hr. unfold rtClash.
  rewrite String.eqb_sym in Hr. rewrite Hr. apply orb_true_r.
Qed.

Lemma rtClash_id e t :
  existsb (rtClash e) t = false ->
  existsb (fun r => String.eqb (RefreshToken.id r) (RefreshToken.id e)) t
  = false.
Proof.
  apply existsb_weaken. intros r Hr. unfold rtClash.
  rewrite String.eqb_sym in Hr. now rewrite Hr.
Qed.

Lemma sessionClash_token e t :
  existsb (sessionClash e) t = false ->
  existsb (fun r => String.eqb (Session.token r) (Session.token e)) t = false.
Proof.
  apply existsb_weaken. intros r Hr. unfold sessionClash.
  rewrite String.eqb_sym in Hr. rewrite Hr. apply orb_true_r.
Qed.

Lemma sessionClash_id e t :
  existsb (sessionClash e) t = false ->
  existsb (fun r => String.eqb (Session.id r) (Session.id e)) t = false.
Proof.
  apply existsb_weaken. intros r Hr. unfold sessionClash.
  rewrite String.eqb_sym in Hr. now rewrite Hr.
Qed.

(** X1.  A reset or refresh token that was just created is accepted by
    the validity check for as long as the clock value read stays before
    its expiry. *)
Theorem fresh_token_is_valid (w : World) (token userId : string)
    (expiresAt : Date) :
  (forall e w1 w2,
     createPasswordResetToken
       (CreatePasswordResetTokenData.mk token userId expiresAt) w
     = (Ok e, w1) ->
     db w2 = db w1 -> now w2 < expiresAt ->
     fst (isPasswordResetTokenValid token w2) = Ok true)
  /\ (forall e w1 w2,
        createRefreshToken
          (CreateRefreshTokenData.mk token userId expiresAt) w = (Ok e, w1) ->
        db w2 = db w1 -> now w2 < expiresAt ->
        fst (isRefreshTokenValid token w2) = Ok true).
Proof.
  split; intros e w1 w2 Hc Hdb Hlater.
  - apply createPasswordResetToken_ok in Hc as (He & Hfresh & Hdb1 & _).
    rewrite isPasswordResetTokenValid_run, Hdb, Hdb1.
    cbn [setTable passwordResetTokenD passwordResetTokens].
    rewrite (find_app_fresh _ _ e).
    + subst e. cbn. f_equal. apply Z.gtb_lt. lia.
    + apply prtClash_token in Hfresh. now subst e.
    + subst e. cbn. apply String.eqb_refl.
  - apply createRefreshToken_ok in Hc as (He & Hfresh & Hdb1 & _).
    rewrite isRefreshTokenValid_run, Hdb, Hdb1.
    cbn [setTable refreshTokenD refreshTokens].
    rewrite (find_app_fresh _ _ e).
    + subst e. cbn. f_equal. apply Z.gtb_lt. lia.
    + apply rtClash_token in Hfresh. now subst e.
    + subst e. cbn. apply String.eqb_refl.
Qed.

(** X1 at a reset token issued with its expiry after the clock value. *)
Lemma fresh_token_is_valid_witness :
  fst (isPasswordResetTokenValid "tok"
         (snd (createPasswordResetToken
                 (CreatePasswordResetTokenData.mk "tok" "u1" 2000)
                 sampleWorld))) = Ok true.
Proof.
  eapply (proj1 (fresh_token_is_valid sampleWorld "tok" "u1" 2000)).
  - vm_compute. reflexivity.
  - reflexivity.
  - vm_compute. reflexivity.
Defined.

(** X2.  Right after a successful creation the new row is the one the
    lookups by its token and by its id return, for reset tokens, refresh
    tokens and sessions alike; a new token starts unused (not revoked). *)
Theorem created_token_is_found (w : World) :
  (forall data e w1,
     createPasswordResetToken data w = (Ok e, w1) ->
     fst (findPasswordResetTokenByToken
            (CreatePasswordResetTokenData.token data) w1) = Ok (Some e)
     /\ fst (findPasswordResetTokenById (PasswordResetToken.id e) w1)
        = Ok (Some e)
     /\ PasswordResetToken.isUsed e = false)
  /\ (forall data e w1,
        createRefreshToken data w = (Ok e, w1) ->
        fst (findRefreshTokenByToken (CreateRefreshTokenData.token data) w1)
        = Ok (Some e)
        /\ fst (findRefreshTokenById (RefreshToken.id e) w1) = Ok (Some e)
        /\ RefreshToken.isRevoked e = false)
  /\ (forall data e w1,
        createSession data w = (Ok e, w1) ->
        fst (findSessionByToken (CreateSessionData.token data) w1)
        = Ok (Some e)
        /\ fst (findSessionById (Session.id e) w1) = Ok (Some e)).
Proof.
  repeat apply conj; intros data e w1 Hc.
  - apply createPasswordResetToken_ok in Hc as (He & Hfresh & Hdb1 & _).
    unfold findPasswordResetTokenByToken, findPasswordResetTokenById. run.
    rewrite Hdb1. cbn [setTable passwordResetTokenD passwordResetTokens].
    rewrite !(find_app_fresh _ _ e).
    + subst e. auto.
    + now apply prtClash_id.
    + apply String.eqb_refl.
    + apply prtClash_token in Hfresh. now subst e.
    + subst e. apply String.eqb_refl.
  - apply createRefreshToken_ok in Hc as (He & Hfresh & Hdb1 & _).
    unfold findRefreshTokenByToken, findRefreshTokenById. run.
    rewrite Hdb1. cbn [setTable refreshTokenD refreshTokens].
    rewrite !(find_app_fresh _ _ e).
    + subst e. auto.
    + now apply rtClash_id.
    + apply String.eqb_refl.
    + apply rtClash_token in Hfresh. now subst e.
    + subst e. apply String.eqb_refl.
  - apply createSession_ok in Hc as (He & Hfresh & Hdb1).
    unfold findSessionByToken, findSessionById. run.
    rewrite Hdb1. cbn [setTable sessionD sessions].
    rewrite !(find_app_fresh _ _ e).
    + subst e. auto.
    + now apply sessionClash_id.
    + apply String.eqb_refl.
    + apply sessionClash_token in Hfresh. now subst e.
    + subst e. apply String.eqb_refl.
Qed.

(** X2 at a new refresh token. *)
Lemma created_token_is_found_witness :
  fst (findRefreshTokenByToken "rtok-9"
         (snd (createRefreshToken
                 (CreateRefreshTokenData.mk "rtok-9" "u1" 5000) sampleWorld)))
  = Ok (Some (RefreshToken.mk "row-a" "rtok-9" "u1" 5000 false 1000)).
Proof.
  refine (proj1 (proj1 (proj2 (created_token_is_found sampleWorld))
                   (CreateRefreshTokenData.mk "rtok-9" "u1" 5000)
                   _ _ _)).
  vm_compute. reflexivity.
Defined.

Lemma update_db {R} (d : Delegate R) p f w :
  db (snd (update d p f w))
  = match find p (table d (db w)) with
    | Some _ => setTable d (patchFirst p f (table d (db w))) (db w)
    | None => db w
    end
  /\ fst (update d p f w)
     = match find p (table d (db w)) with
       | Some e => Ok (f e)
       | None => Throw RecordNotFound
       end.
Proof. unfold update. run. destruct (find _ _); split; reflexivity. Qed.

Lemma delete_db {R} (d : Delegate R) p w :
  db (snd (delete d p unrestricted w))
  = match find p (table d (db w)) with
    | Some _ => setTable d (removeFirst p (table d (db w))) (db w)
    | None => db w
    end
  /\ fst (delete d p unrestricted w)
     = match find p (table d (db w)) with
       | Some e => Ok e
       | None => Throw RecordNotFound
       end.
Proof. unfold delete. run. destruct (find _ _); split; reflexivity. Qed.

(** X3.  Once a reset token has been marked used through its token string,
    or a refresh token revoked through its token string, the validity check
    rejects that token string, at every later clock value, for as long as
    the tables stay as the operation left them. *)
Theorem retired_token_is_invalid (w : World) (token : string) :
  (forall e w1 w2,
     markPasswordResetTokenAsUsedByToken token w = (Ok e, w1) ->
     db w2 = db w1 ->
     fst (isPasswordResetTokenValid token w2) = Ok false)
  /\ (forall e w1 w2,
        revokeRefreshTokenByToken token w = (Ok e, w1) ->
        db w2 = db w1 ->
        fst (isRefreshTokenValid token w2) = Ok false).
Proof.
  split; intros e w1 w2 Hm Hdb.
  - unfold markPasswordResetTokenAsUsedByToken in Hm.
    destruct (update_db passwordResetTokenD
                (fun r => String.eqb (PasswordResetToken.token r) token)
                prtMarkUsed w) as [Hd Hr].
    rewrite Hm in Hd, Hr. cbn [fst snd] in Hd, Hr.
    cbn [table passwordResetTokenD] in Hd, Hr.
    destruct (find _ (passwordResetTokens (db w))) as [e0|] eqn:Hf;
      [|discriminate].
    rewrite isPasswordResetTokenValid_run, Hdb, Hd.
    cbn [setTable passwordResetTokenD passwordResetTokens].
    rewrite (find_patchFirst
               (fun r => String.eqb (PasswordResetToken.token r) token)
               prtMarkUsed (fun _ => eq_refl) _ _ Hf).
    reflexivity.
  - unfold revokeRefreshTokenByToken in Hm.
    destruct (update_db refreshTokenD
                (fun r => String.eqb (RefreshToken.token r) token)
                rtRevoke w) as [Hd Hr].
    rewrite Hm in Hd, Hr. cbn [fst snd] in Hd, Hr.
    cbn [table refreshTokenD] in Hd, Hr.
    destruct (find _ (refreshTokens (db w))) as [e0|] eqn:Hf;
      [|discriminate].
    rewrite isRefreshTokenValid_run, Hdb, Hd.
    cbn [setTable refreshTokenD refreshTokens].
    rewrite (find_patchFirst
               (fun r => String.eqb (RefreshToken.token r) token)
               rtRevoke (fun _ => eq_refl) _ _ Hf).
    reflexivity.
Qed.

(** X3 at an unused reset token whose expiry still lies ahead. *)
Lemma retired_token_is_invalid_witness :
  fst (isPasswordResetTokenValid "tok-2"
         (snd (markPasswordResetTokenAsUsedByToken "tok-2"
                 (withClock 100 expiredWorld)))) = Ok false.
Proof.
  refine (proj1 (retired_token_is_invalid (withClock 100 expiredWorld) "tok-2")
            _ _ _ _ eq_refl).
  vm_compute. reflexivity.
Defined.

(** X4.  When no row carries the given id, respectively the given token
    string, the lookups answer "absent" and the validity checks [false],
    while every single-row update, retirement and deletion throws the
    not-found error and changes no table. *)
Theorem missing_key_behaviour (w : World) (key : string) :
  (find (fun r => String.eqb (PasswordResetToken.id r) key)
        (passwordResetTokens (db w)) = None ->
   fst (findPasswordResetTokenById key w) = Ok None
   /\ (forall data, notFound (updatePasswordResetToken key data) w)
   /\ notFound (markPasswordResetTokenAsUsed key) w
   /\ notFound (deletePasswordResetToken key) w)
  /\ (find (fun r => String.eqb (PasswordResetToken.token r) key)
           (passwordResetTokens (db w)) = None ->
      fst (findPasswordResetTokenByToken key w) = Ok None
      /\ fst (isPasswordResetTokenValid key w) = Ok false
      /\ notFound (markPasswordResetTokenAsUsedByToken key) w
      /\ notFound (deletePasswordResetTokenByToken key) w)
  /\ (find (fun r => String.eqb (RefreshToken.id r) key)
           (refreshTokens (db w)) = None ->
      fst (findRefreshTokenById key w) = Ok None
      /\ (forall data, notFound (updateRefreshToken key data) w)
      /\ notFound (revokeRefreshToken key) w
      /\ notFound (deleteRefreshToken key) w)
  /\ (find (fun r => String.eqb (RefreshToken.token r) key)
           (refreshTokens (db w)) = None ->
      fst (findRefreshTokenByToken key w) = Ok None
      /\ fst (isRefreshTokenValid key w) = Ok false
      /\ notFound (revokeRefreshTokenByToken key) w
      /\ notFound (deleteRefreshTokenByToken key) w)
  /\ (find (fun r => String.eqb (Session.id r) key) (sessions (db w)) = None ->
      fst (findSessionById key w) = Ok None
      /\ (forall data, notFound (updateSession key data) w)
      /\ notFound (deleteSession key) w)
  /\ (find (fun r => String.eqb (Session.token r) key) (sessions (db w))
      = None ->
      fst (findSessionByToken key w) = Ok None
      /\ notFound (updateSessionActivity key) w
      /\ notFound (deleteSessionByToken key) w).
Proof.
  repeat apply conj; intros Hnone; repeat apply conj; try intros data;
    unfold notFound; try split;
    unfold findPasswordResetTokenById, findPasswordResetTokenByToken,
      findRefreshTokenById, findRefreshTokenByToken, findSessionById,
      findSessionByToken, updatePasswordResetToken,
      markPasswordResetTokenAsUsed, deletePasswordResetToken,
      markPasswordResetTokenAsUsedByToken, deletePasswordResetTokenByToken,
      updateRefreshToken, revokeRefreshToken, deleteRefreshToken,
      revokeRefreshTokenByToken, deleteRefreshTokenByToken,
      updateSession, deleteSession, deleteSessionByToken, unrestricted.
  all: try (run; now rewrite Hnone).
  all: try (now rewrite isPasswordResetTokenValid_run, Hnone).
  all: try (now rewrite isRefreshTokenValid_run, Hnone).
  all: unfold updateSessionActivity, update; run; now rewrite Hnone.
Qed.

(** X4 at a store without reset tokens. *)
Lemma missing_key_behaviour_witness :
  notFound (markPasswordResetTokenAsUsed "p9") sampleWorld.
Proof.
  apply (proj1 (missing_key_behaviour sampleWorld "p9")).
  reflexivity.
Defined.

(** ** Bulk operations and the active tokens *)

Section FilterFacts.
Context {R : Type}.
Implicit Types (p q : R -> bool) (f : R -> R) (t : list R).

Lemma filter_removeAll_disjoint p q t :
  (forall r, q r = true -> p r = false) ->
  filter q (removeAll p t) = filter q t.
Proof.
  intros Hd. unfold removeAll. induction t as [|x t IH]; cbn; [reflexivity|].
  destruct (p x) eqn:Hp; cbn.
  - destruct (q x) eqn:Hq; [|exact IH]. rewrite (Hd x Hq) in Hp. discriminate.
  - now rewrite IH.
Qed.

Lemma filter_patchAll_disjoint p q f t :
  (forall r, p r = true -> q r = false /\ q (f r) = false) ->
  filter q (patchAll p f t) = filter q t.
Proof.
  intros Hd. unfold patchAll. induction t as [|x t IH]; cbn; [reflexivity|].
  rewrite IH. destruct (p x) eqn:Hp; [|reflexivity].
  destruct (Hd x Hp) as [-> ->]. reflexivity.
Qed.

Lemma countRows_removeAll p t :
  countRows p t + Z.of_nat (List.length (removeAll p t))
  = Z.of_nat (List.length t).
Proof.
  unfold countRows, removeAll. induction t as [|x t IH]; cbn; [reflexivity|].
  destruct (p x); cbn [negb List.length]; lia.
Qed.

Lemma countRows_removeAll_same p t : countRows p (removeAll p t) = 0.
Proof.
  apply countRows_zero_iff. intros r Hr. unfold removeAll in Hr.
  apply filter_In in Hr as [_ Hr]. now apply negb_true_iff.
Qed.
End FilterFacts.

Lemma eqb_other (a u v : string) :
  u <> v -> String.eqb a u = true -> String.eqb a v = false.
Proof.
  intros Hne Hu. apply String.eqb_eq in Hu. subst a.
  now apply String.eqb_neq.
Qed.

(** X5.  Revoking or deleting everything one user holds leaves every other
    user's listing and active count as they were. *)
Theorem bulk_revocation_spares_others (w : World) (u v : string) :
  u <> v ->
  (let w' := snd (invalidateAllUserPasswordResetTokens u w) in
   fst (getUserPasswordResetTokens v w') = fst (getUserPasswordResetTokens v w)
   /\ fst (countActiveUserPasswordResetTokens v w')
      = fst (countActiveUserPasswordResetTokens v w))
  /\ (let w' := snd (deleteAllUserPasswordResetTokens u w) in
      fst (getUserPasswordResetTokens v w')
      = fst (getUserPasswordResetTokens v w)
      /\ fst (countActiveUserPasswordResetTokens v w')
         = fst (countActiveUserPasswordResetTokens v w))
  /\ (let w' := snd (deleteAllUserRefreshTokens u w) in
      fst (getUserRefreshTokens v w') = fst (getUserRefreshTokens v w)
      /\ fst (countActiveUserRefreshTokens v w')
         = fst (countActiveUserRefreshTokens v w))
  /\ (let w' := snd (deleteAllUserSessions u w) in
      fst (getUserSessions v w') = fst (getUserSessions v w)
      /\ fst (countActiveUserSessions v w')
         = fst (countActiveUserSessions v w)).
Proof.
  intros Hne. cbn zeta.
  unfold invalidateAllUserPasswordResetTokens,
    deleteAllUserPasswordResetTokens, deleteAllUserRefreshTokens,
    deleteAllUserSessions, getUserPasswordResetTokens, getUserRefreshTokens,
    getUserSessions, countActiveUserPasswordResetTokens,
    countActiveUserRefreshTokens, countActiveUserSessions.
  run. unfold countRows.
  repeat apply conj.
  1, 2: rewrite filter_patchAll_disjoint; [reflexivity|]; intros r Hr; cbn;
        now rewrite (eqb_other _ _ _ Hne Hr).
  all: rewrite filter_removeAll_disjoint; [reflexivity|]; intros r Hr;
       destruct (String.eqb _ u) eqn:Hu; [|reflexivity];
       now rewrite (eqb_other _ _ _ Hne Hu) in Hr.
Qed.

(** X5 at two different users. *)
Lemma bulk_revocation_spares_others_witness :
  fst (getUserSessions "u1" (snd (deleteAllUserSessions "u2" sessionWorld)))
  = fst (getUserSessions "u1" sessionWorld).
Proof.
  apply (proj1 (proj2 (proj2 (proj2
           (bulk_revocation_spares_others sessionWorld "u2" "u1"
              ltac:(discriminate)))))).
Defined.

(** X6.  At one clock value the active count of a user is the length of
    the user's active listing. *)
Theorem active_count_is_listing_length (w : World) (u : string) :
  fst (countActiveUserPasswordResetTokens u w)
  = Ok (Z.of_nat (List.length
                    (listed (fst (getActiveUserPasswordResetTokens u w)))))
  /\ fst (countActiveUserRefreshTokens u w)
     = Ok (Z.of_nat (List.length
                       (listed (fst (getActiveUserRefreshTokens u w)))))
  /\ fst (countActiveUserSessions u w)
     = Ok (Z.of_nat (List.length (listed (fst (getActiveUserSessions u w))))).
Proof.
  unfold countActiveUserPasswordResetTokens, getActiveUserPasswordResetTokens,
    countActiveUserRefreshTokens, getActiveUserRefreshTokens,
    countActiveUserSessions, getActiveUserSessions.
  run. cbn [listed]. rewrite !sortDesc_length. repeat split.
Qed.

(** X7.  Every row of an active listing belongs to the user, carries no
    retirement flag and expires after the clock value read; and a token
    string that the validity check accepts is carried by a row of the
    active listing of that row's user. *)
Theorem valid_tokens_are_the_active_ones (w : World) (u t : string) :
  (forall e, In e (listed (fst (getActiveUserPasswordResetTokens u w))) ->
             PasswordResetToken.userId e = u
             /\ PasswordResetToken.isUsed e = false
             /\ now w < PasswordResetToken.expiresAt e)
  /\ (forall e, In e (listed (fst (getActiveUserRefreshTokens u w))) ->
                RefreshToken.userId e = u
                /\ RefreshToken.isRevoked e = false
                /\ now w < RefreshToken.expiresAt e)
  /\ (fst (isPasswordResetTokenValid t w) = Ok true ->
      exists e,
        PasswordResetToken.token e = t
        /\ In e (listed (fst (getActiveUserPasswordResetTokens
                                (PasswordResetToken.userId e) w))))
  /\ (fst (isRefreshTokenValid t w) = Ok true ->
      exists e,
        RefreshToken.token e = t
        /\ In e (listed (fst (getActiveUserRefreshTokens
                                (RefreshToken.userId e) w)))).
Proof.
  repeat apply conj.
  - intros e. unfold getActiveUserPasswordResetTokens. run. cbn [listed].
    intros Hin. apply (Permutation_in _ (sortDesc_perm _ _)) in Hin.
    apply filter_In in Hin as [_ Hin].
    apply andb_true_iff in Hin as [Hin Hexp].
    apply andb_true_iff in Hin as [Hu Hflag].
    apply String.eqb_eq in Hu. apply Z.gtb_lt in Hexp.
    destruct (PasswordResetToken.isUsed e); [discriminate|]. auto.
  - intros e. unfold getActiveUserRefreshTokens. run. cbn [listed].
    intros Hin. apply (Permutation_in _ (sortDesc_perm _ _)) in Hin.
    apply filter_In in Hin as [_ Hin].
    apply andb_true_iff in Hin as [Hin Hexp].
    apply andb_true_iff in Hin as [Hu Hflag].
    apply String.eqb_eq in Hu. apply Z.gtb_lt in Hexp.
    destruct (RefreshToken.isRevoked e); [discriminate|]. auto.
  - rewrite isPasswordResetTokenValid_run.
    destruct (find _ _) as [e|] eqn:Hf; [|discriminate].
    destruct (PasswordResetToken.isUsed e) eqn:Hflag; [discriminate|].
    cbn. intros [= Hexp]. apply find_some in Hf as [Hin Ht].
    exists e. split; [now apply String.eqb_eq|].
    unfold getActiveUserPasswordResetTokens. run. cbn [listed].
    apply (Permutation_in _ (Permutation_sym (sortDesc_perm _ _))).
    apply filter_In. split; [exact Hin|].
    unfold now in Hexp. now rewrite String.eqb_refl, Hflag, Hexp.
  - rewrite isRefreshTokenValid_run.
    destruct (find _ _) as [e|] eqn:Hf; [|discriminate].
    destruct (RefreshToken.isRevoked e) eqn:Hflag; [discriminate|].
    cbn. intros [= Hexp]. apply find_some in Hf as [Hin Ht].
    exists e. split; [now apply String.eqb_eq|].
    unfold getActiveUserRefreshTokens. run. cbn [listed].
    apply (Permutation_in _ (Permutation_sym (sortDesc_perm _ _))).
    apply filter_In. split; [exact Hin|].
    unfold now in Hexp. now rewrite String.eqb_refl, Hflag, Hexp.
Qed.

(** X7 at a reset token that is valid at clock value 100. *)
Lemma valid_tokens_are_the_active_ones_witness :
  exists e,
    PasswordResetToken.token e = "tok-2"
    /\ In e (listed (fst (getActiveUserPasswordResetTokens
                            (PasswordResetToken.userId e)
                            (withClock 100 expiredWorld)))).
Proof.
  apply (proj1 (proj2 (proj2
           (valid_tokens_are_the_active_ones (withClock 100 expiredWorld)
              "u1" "tok-2")))).
  vm_compute. reflexivity.
Defined.

(** X8.  Sweeping the used reset tokens or the revoked refresh tokens
    changes no user's active listing or active count, at any clock
    value. *)
Theorem retired_sweep_keeps_active (w : World) (u : string) :
  (let w' := snd (deleteUsedPasswordResetTokens w) in
   fst (getActiveUserPasswordResetTokens u w')
   = fst (getActiveUserPasswordResetTokens u w)
   /\ fst (countActiveUserPasswordResetTokens u w')
      = fst (countActiveUserPasswordResetTokens u w))
  /\ (let w' := snd (deleteRevokedRefreshTokens w) in
      fst (getActiveUserRefreshTokens u w')
      = fst (getActiveUserRefreshTokens u w)
      /\ fst (countActiveUserRefreshTokens u w')
         = fst (countActiveUserRefreshTokens u w)).
Proof.
  cbn zeta.
  unfold deleteUsedPasswordResetTokens, deleteRevokedRefreshTokens,
    getActiveUserPasswordResetTokens, getActiveUserRefreshTokens,
    countActiveUserPasswordResetTokens, countActiveUserRefreshTokens.
  run. unfold countRows.
  repeat apply conj;
    (rewrite filter_removeAll_disjoint; [reflexivity|]); intros r Hr.
  all: apply andb_true_iff in Hr as [Hr _];
       apply andb_true_iff in Hr as [_ Hr].
  - now destruct (PasswordResetToken.isUsed r).
  - now destruct (PasswordResetToken.isUsed r).
  - now destruct (RefreshToken.isRevoked r).
  - now destruct (RefreshToken.isRevoked r).
Qed.

(** X9.  A sweep of the expired rows removes nothing that is active at a
    clock value at or after the one the sweep read: with the swept tables,
    each user's active listing and active count at such a clock value are
    what they would be with the tables before the sweep. *)
Theorem expired_sweep_keeps_active (w w2 : World) (u : string) :
  now w <= now w2 ->
  (db w2 = db (snd (deleteExpiredPasswordResetTokens w)) ->
   fst (getActiveUserPasswordResetTokens u w2)
   = fst (getActiveUserPasswordResetTokens u (withDb (db w) w2))
   /\ fst (countActiveUserPasswordResetTokens u w2)
      = fst (countActiveUserPasswordResetTokens u (withDb (db w) w2)))
  /\ (db w2 = db (snd (deleteExpiredRefreshTokens w)) ->
      fst (getActiveUserRefreshTokens u w2)
      = fst (getActiveUserRefreshTokens u (withDb (db w) w2))
      /\ fst (countActiveUserRefreshTokens u w2)
         = fst (countActiveUserRefreshTokens u (withDb (db w) w2)))
  /\ (db w2 = db (snd (deleteExpiredSessions w)) ->
      fst (getActiveUserSessions u w2)
      = fst (getActiveUserSessions u (withDb (db w) w2))
      /\ fst (countActiveUserSessions u w2)
         = fst (countActiveUserSessions u (withDb (db w) w2))).
Proof.
  intros Hclock.
  unfold deleteExpiredPasswordResetTokens, deleteExpiredRefreshTokens,
    deleteExpiredSessions, getActiveUserPasswordResetTokens,
    getActiveUserRefreshTokens, getActiveUserSessions,
    countActiveUserPasswordResetTokens, countActiveUserRefreshTokens,
    countActiveUserSessions, withDb.
  run. unfold countRows, now in *.
  repeat apply conj; intros ->; cbn;
    split; (rewrite filter_removeAll_disjoint; [reflexivity|]); intros r Hr;
    apply andb_true_iff in Hr as [_ Hr]; apply Z.gtb_lt in Hr;
    apply Z.ltb_ge; lia.
Qed.

(** X9 at a sweep made at clock value 100 and a listing at clock value
    1000. *)
Lemma expired_sweep_keeps_active_witness :
  fst (countActiveUserSessions "u1"
         (withDb (db (snd (deleteExpiredSessions (withClock 100 sessionWorld))))
            sessionWorld))
  = fst (countActiveUserSessions "u1"
           (withDb (db (withClock 100 sessionWorld))
              (withDb (db (snd (deleteExpiredSessions
                                  (withClock 100 sessionWorld))))
                 sessionWorld))).
Proof.
  refine (proj2 (proj2 (proj2 (expired_sweep_keeps_active
                   (withClock 100 sessionWorld)
                   (withDb (db (snd (deleteExpiredSessions
                                       (withClock 100 sessionWorld))))
                      sessionWorld)
                   "u1" _)) eq_refl)).
  vm_compute. discriminate.
Defined.

(** X10.  A sweep reports as many rows as it removes: its count and the
    rows left add up to the rows there were.  Repeating a retired-sweep
    reports 0; repeating an expired-sweep reports 0 when it reads no later
    clock value. *)
Theorem sweep_accounting (w w2 : World) :
  (let after := deleteExpiredPasswordResetTokens w in
   (exists n, fst after = Ok (mkBatch n)
              /\ n + Z.of_nat (List.length (passwordResetTokens (db (snd after))))
                 = Z.of_nat (List.length (passwordResetTokens (db w))))
   /\ (db w2 = db (snd after) -> now w2 <= now w ->
       fst (deleteExpiredPasswordResetTokens w2) = Ok (mkBatch 0)))
  /\ (let after := deleteExpiredRefreshTokens w in
      (exists n, fst after = Ok (mkBatch n)
                 /\ n + Z.of_nat (List.length (refreshTokens (db (snd after))))
                    = Z.of_nat (List.length (refreshTokens (db w))))
      /\ (db w2 = db (snd after) -> now w2 <= now w ->
          fst (deleteExpiredRefreshTokens w2) = Ok (mkBatch 0)))
  /\ (let after := deleteExpiredSessions w in
      (exists n, fst after = Ok (mkBatch n)
                 /\ n + Z.of_nat (List.length (sessions (db (snd after))))
                    = Z.of_nat (List.length (sessions (db w))))
      /\ (db w2 = db (snd after) -> now w2 <= now w ->
          fst (deleteExpiredSessions w2) = Ok (mkBatch 0)))
  /\ (let after := deleteUsedPasswordResetTokens w in
      (exists n, fst after = Ok (mkBatch n)
                 /\ n + Z.of_nat (List.length
                                    (passwordResetTokens (db (snd after))))
                    = Z.of_nat (List.length (passwordResetTokens (db w))))
      /\ (db w2 = db (snd after) ->
          fst (deleteUsedPasswordResetTokens w2) = Ok (mkBatch 0)))
  /\ (let after := deleteRevokedRefreshTokens w in
      (exists n, fst after = Ok (mkBatch n)
                 /\ n + Z.of_nat (List.length (refreshTokens (db (snd after))))
                    = Z.of_nat (List.length (refreshTokens (db w))))
      /\ (db w2 = db (snd after) ->
          fst (deleteRevokedRefreshTokens w2) = Ok (mkBatch 0))).
Proof.
  unfold deleteExpiredPasswordResetTokens, deleteExpiredRefreshTokens,
    deleteExpiredSessions, deleteUsedPasswordResetTokens,
    deleteRevokedRefreshTokens.
  run. cbn zeta.
  repeat apply conj;
    try (eexists; split; [reflexivity | apply countRows_removeAll]).
  1-3: intros -> Hclock; cbn; do 2 f_equal;
       apply countRows_zero_iff; intros r Hr;
       unfold removeAll in Hr; apply filter_In in Hr as [_ Hr];
       apply negb_true_iff, Z.ltb_ge in Hr; apply Z.ltb_ge;
       unfold now in Hclock; lia.
  all: intros ->; cbn; do 2 f_equal; apply countRows_removeAll_same.
Qed.

(** X10 at a repeated sweep of expired sessions. *)
Lemma sweep_accounting_witness :
  fst (deleteExpiredSessions (snd (deleteExpiredSessions sessionWorld)))
  = Ok (mkBatch 0).
Proof.
  apply (proj2 (proj1 (proj2 (proj2
           (sweep_accounting sessionWorld
              (snd (deleteExpiredSessions sessionWorld))))))).
  - reflexivity.
  - vm_compute. discriminate.
Defined.

(** ** Session activity *)

Lemma in_patchFirst_find {R} (p : R -> bool) (f : R -> R) t e0 r :
  find p t = Some e0 -> In r (patchFirst p f t) -> In r t \/ r = f e0.
Proof.
  induction t as [|x t IH]; cbn; [discriminate|].
  destruct (p x); cbn.
  - intros [= <-] [<-|H]; auto.
  - intros Hf [<-|H]; auto. destruct (IH Hf H); auto.
Qed.

Lemma patched_in_patchFirst {R} (p : R -> bool) (f : R -> R) t e0 :
  find p t = Some e0 -> In (f e0) (patchFirst p f t).
Proof.
  induction t as [|x t IH]; cbn; [discriminate|].
  destruct (p x); cbn.
  - intros [= <-]. now left.
  - intros Hf. right. now apply IH.
Qed.

Lemma sorted_head_is_max {R} (key : R -> Z) l e :
  StronglySorted (descBy key) l -> In e l ->
  (forall r, In r l -> key r < key e \/ r = e) ->
  exists rest, l = e :: rest.
Proof.
  intros Hs Hin Hmax. destruct l as [|h rest]; [destruct Hin|].
  exists rest. f_equal.
  destruct Hin as [->|Hin]; [reflexivity|].
  inversion Hs as [|? ? _ Hall]; subst.
  rewrite Forall_forall in Hall. specialize (Hall e Hin). unfold descBy in Hall.
  destruct (Hmax h (or_introl eq_refl)) as [Hlt|Heq]; [lia | exact Heq].
Qed.

(** X11.  [updateSessionActivity] stamps the session with the clock value
    it read and leaves its expiry alone.  When every session was last
    active before that clock value, the stamped session comes first in its
    user's session listing. *)
Theorem activity_update_moves_session_first (w : World) (token : string)
    (e : Session.t) (w1 : World) :
  updateSessionActivity token w = (Ok e, w1) ->
  (exists e0,
     find (fun r => String.eqb (Session.token r) token) (sessions (db w))
     = Some e0
     /\ Session.lastActivityAt e = now w
     /\ Session.expiresAt e = Session.expiresAt e0
     /\ Session.userId e = Session.userId e0)
  /\ ((forall r, In r (sessions (db w)) -> Session.lastActivityAt r < now w) ->
      exists rest,
        fst (getUserSessions (Session.userId e) w1) = Ok (e :: rest)).
Proof.
  unfold updateSessionActivity, update. run.
  destruct (find _ _) as [e0|] eqn:Hf; [|discriminate].
  run. intros [= <- <-]. split.
  - exists e0. cbn. auto.
  - intros Hpast. unfold getUserSessions. run.
    set (f := sessionPatch _).
    set (p := fun r : Session.t => String.eqb (Session.token r) token) in *.
    destruct (sorted_head_is_max Session.lastActivityAt
                (sortDesc Session.lastActivityAt
                   (filter (fun r => String.eqb (Session.userId r)
                                       (Session.userId (f e0)))
                      (patchFirst p f (sessions (db w)))))
                (f e0)) as [rest Hrest].
    + apply sortDesc_sorted.
    + apply (Permutation_in _ (Permutation_sym (sortDesc_perm _ _))).
      apply filter_In. split; [now apply patched_in_patchFirst|].
      apply String.eqb_refl.
    + intros r Hr. apply (Permutation_in _ (sortDesc_perm _ _)) in Hr.
      apply filter_In in Hr as [Hr _].
      destruct (in_patchFirst_find _ _ _ _ _ Hf Hr) as [Hold| ->]; [|now right].
      left. subst f. cbn. now apply Hpast.
    + exists rest. now rewrite Hrest.
Qed.

(** X11 at the session used least recently, with the clock at 1000. *)
Lemma activity_update_moves_session_first_witness :
  exists rest,
    fst (getUserSessions "u1" (snd (updateSessionActivity "stok-2" sessionWorld)))
    = Ok (Session.mk "s2" "stok-2" "u1" None None 5000 1000 20 :: rest).
Proof.
  refine (proj2 (activity_update_moves_session_first sessionWorld "stok-2"
                   (Session.mk "s2" "stok-2" "u1" None None 5000 1000 20)
                   _ eq_refl) _).
  intros r [<-|[<-|[]]]; vm_compute; reflexivity.
Defined.

(** ** Users *)

Lemma userD_same s : setTable userD (users s) s = s.
Proof. now destruct s. Qed.

Lemma length_patchFirst {R} (p : R -> bool) (f : R -> R) t :
  List.length (patchFirst p f t) = List.length t.
Proof.
  induction t as [|x t IH]; cbn; [reflexivity|].
  destruct (p x); cbn; [reflexivity | now rewrite IH].
Qed.

Lemma countRows_patchFirst {R} (p q : R -> bool) (f : R -> R) t e0 :
  find p t = Some e0 ->
  countRows q (patchFirst p f t)
  = countRows q t - Z.b2z (q e0) + Z.b2z (q (f e0)).
Proof.
  unfold countRows. induction t as [|x t IH]; cbn; [discriminate|].
  destruct (p x) eqn:Hp; cbn.
  - intros [= <-]. destruct (q x), (q (f x)); cbn [List.length Z.b2z]; lia.
  - intros Hf. specialize (IH Hf).
    destruct (q x); cbn [List.length]; lia.
Qed.

Lemma countRows_whereAll {R} (t : list R) :
  countRows whereAll t = Z.of_nat (List.length t).
Proof.
  unfold countRows, whereAll. f_equal.
  induction t as [|x t IH]; cbn; congruence.
Qed.

(** X12.  The soft delete keeps the row: after [deleteUser] the user is
    still found by id, now inactive; the user count is unchanged and the
    count of active users drops by one exactly when the user was active;
    deleting the same user again succeeds and changes nothing. *)
Theorem soft_delete_keeps_the_row (w : World) (id : string) (e : User.t)
    (w1 : World) :
  deleteUser id w = (Ok e, w1) ->
  User.isActive e = false
  /\ fst (findUserById id w1) = Ok (Some e)
  /\ fst (countUsers w1) = fst (countUsers w)
  /\ (exists e0,
        find (fun u => String.eqb (User.id u) id) (users (db w)) = Some e0
        /\ fst (countActiveUsers w1)
           = Ok (countRows (fun u => Bool.eqb (User.isActive u) true)
                   (users (db w))
                 - Z.b2z (User.isActive e0)))
  /\ fst (deleteUser id w1) = Ok e
  /\ db (snd (deleteUser id w1)) = db w1.
Proof.
  unfold deleteUser.
  set (p := fun u : User.t => String.eqb (User.id u) id).
  set (f := fun u : User.t => User.mk _ _ _ _ _ _ _ _ false _).
  intros Hdel.
  destruct (update_db userD p f w) as [Hd Hr].
  rewrite Hdel in Hd, Hr. cbn [fst snd table userD] in Hd, Hr.
  destruct (find p (users (db w))) as [e0|] eqn:Hf; [|discriminate].
  injection Hr as ->.
  assert (Hf1 : find p (users (db w1)) = Some (f e0)).
  { rewrite Hd. cbn [setTable userD users].
    now apply (find_patchFirst p f (fun _ => eq_refl)). }
  repeat apply conj.
  - reflexivity.
  - unfold findUserById. run. fold p. now rewrite Hf1.
  - unfold countUsers. run. rewrite Hd. cbn [setTable userD users].
    now rewrite !countRows_whereAll, length_patchFirst.
  - exists e0. split; [reflexivity|].
    unfold countActiveUsers. run. rewrite Hd. cbn [setTable userD users].
    rewrite (countRows_patchFirst p _ f _ e0 Hf). f_equal. cbn.
    destruct (User.isActive e0); cbn; lia.
  - destruct (update_db userD p f w1) as [_ Hr1].
    cbn [table userD] in Hr1. rewrite Hf1 in Hr1. exact Hr1.
  - destruct (update_db userD p f w1) as [Hd1 _].
    cbn [table userD] in Hd1. rewrite Hf1 in Hd1. rewrite Hd1.
    rewrite (patchFirst_fixed p f _ _ Hf1 eq_refl). apply userD_same.
Qed.

(** X12 at an active user. *)
Lemma soft_delete_keeps_the_row_witness :
  fst (findUserById "u1" (snd (deleteUser "u1" sampleWorld)))
  = Ok (Some (User.mk "u1" "alice@example.com" "hash" "Alice" "Archer" "r1"
                None None false 10)).
Proof.
  refine (proj1 (proj2 (soft_delete_keeps_the_row sampleWorld "u1"
                          _ _ eq_refl))).
Defined.

(** ** What a listing can return *)

Lemma in_skipn {R} (x : R) n l : In x (skipn n l) -> In x l.
Proof.
  intros H. rewrite <- (firstn_skipn n l). apply in_or_app. now right.
Qed.

Lemma in_window {R} sk k (l : list R) x : In x (window sk k l) -> In x l.
Proof.
  unfold window. destruct (k <? 0); intros H.
  - apply in_rev. apply in_rev in H. now apply in_firstn, in_skipn in H.
  - now apply in_firstn, in_skipn in H.
Qed.

Lemma findMany_sound {R} (d : Delegate R) wh key sk tk w x :
  In x (listed (fst (findMany d wh key sk tk w))) ->
  wh x = true /\ In x (table d (db w)).
Proof.
  unfold findMany. run.
  assert (Hrows : In x (sortDesc key (filter wh (table d (db w)))) ->
                  wh x = true /\ In x (table d (db w))).
  { intros H. apply (Permutation_in _ (sortDesc_perm _ _)) in H.
    apply filter_In in H. tauto. }
  destruct sk as [sk|], tk as [tk|]; cbn [listed fst];
    try (destruct (_ <? 0); cbn [listed fst]); try (intros []);
    intros H; apply Hrows;
    first [exact H | now apply in_window in H | now apply in_skipn in H].
Qed.

Lemma page_items {R} (d : Delegate R) wh key sk tk
    (k : list R -> M (Page R)) w :
  (forall rows w', resultItems (fst (k rows w')) = rows) ->
  resultItems (fst (bind (findMany d wh key sk tk) k w))
  = listed (fst (findMany d wh key sk tk w)).
Proof.
  intros Hk. unfold bind.
  destruct (findMany d wh key sk tk w) as [[rows|err] w']; cbn; auto.
Qed.

Lemma whereStringField_sound {R} (wh : R -> bool) f column r :
  whereStringField wh f column r = true ->
  wh r = true /\ (forall v, f = Some v -> v <> "" -> column r = v).
Proof.
  unfold whereStringField, truthy, whereAnd.
  destruct f as [v|]; [|intros ->; split; [reflexivity | discriminate]].
  destruct (String.eqb v "") eqn:Hv; cbn.
  - apply String.eqb_eq in Hv. intros ->. split; [reflexivity|].
    intros ? [= <-]. contradiction.
  - intros H. apply andb_true_iff in H as [-> H]. split; [reflexivity|].
    intros ? [= <-] _. now apply String.eqb_eq.
Qed.

Lemma pageOfMatching_sound {R} (key : R -> Z) (matches : R -> bool)
    (t : list R) (p L : Z) x :
  In x (resultItems (pageOfMatching key matches t p L)) ->
  matches x = true /\ In x t.
Proof.
  unfold pageOfMatching. destruct (_ <? 0); cbn; [intros []|].
  intros H. apply in_window in H.
  apply (Permutation_in _ (sortDesc_perm _ _)) in H.
  apply filter_In in H. tauto.
Qed.

Lemma getUsers_defaults (page limit : option Z) filters w :
  getUsers page limit filters w
  = getUsers (Some (defaultTo 1 page)) (Some (defaultTo 10 limit)) filters w.
Proof. reflexivity. Qed.

(** X14.  Every user [getUsers] returns is a stored user that meets the
    filters in force: the requested [isActive] value (also when it is
    [false]), the requested role, and for a search string the connector's
    case-insensitive matching of it against the first name, the last name
    or the email; users are returned for a search only by a connector that
    has this matching.  An empty role or search string is no filter at
    all, and an object without filters is the same as none. *)
Theorem getUsers_filters (w : World) (page limit : option Z)
    (isActive : option bool) (roleId search : option string) :
  (forall u,
     In u (resultItems
             (fst (getUsers page limit
                     (Some (UserFilters.mk isActive roleId search)) w))) ->
     In u (users (db w))
     /\ (forall b, isActive = Some b -> User.isActive u = b)
     /\ (forall r, roleId = Some r -> r <> "" -> User.roleId u = r)
     /\ (forall q, search = Some q -> q <> "" ->
                   exists contains,
                     insensitiveContains (schema w) = Some contains
                     /\ contains q (User.firstName u)
                        || contains q (User.lastName u)
                        || contains q (User.email u) = true))
  /\ getUsers page limit (Some (UserFilters.mk isActive (Some "") (Some ""))) w
     = getUsers page limit (Some (UserFilters.mk isActive None None)) w
  /\ getUsers page limit (Some (UserFilters.mk None None None)) w
     = getUsers page limit None w.
Proof.
  split; [|split; reflexivity].
  intros u Hin. rewrite getUsers_defaults in Hin.
  set (filters := Some (UserFilters.mk isActive roleId search)) in *.
  assert (Hmeets : forall contains,
            userMatches contains filters u = true ->
            (forall b, isActive = Some b -> User.isActive u = b)
            /\ (forall r, roleId = Some r -> r <> "" -> User.roleId u = r)
            /\ (forall q, search = Some q -> q <> "" ->
                          contains q (User.firstName u)
                          || contains q (User.lastName u)
                          || contains q (User.email u) = true)).
  { intros contains Hm. unfold filters, userMatches in Hm.
    cbn [UserFilters.isActive UserFilters.roleId UserFilters.search] in Hm.
    apply andb_true_iff in Hm as [Hm Hq].
    apply andb_true_iff in Hm as [Ha Hr].
    repeat split.
    - intros b ->. cbn in Ha. now apply Bool.eqb_prop in Ha.
    - intros r -> Hne. cbn in Hr. apply String.eqb_neq in Hne.
      rewrite Hne in Hr. now apply String.eqb_eq.
    - intros q -> Hne. apply String.eqb_neq in Hne. now rewrite Hne in Hq. }
  destruct (searches filters) eqn:Hs.
  - destruct (insensitiveContains (schema w)) as [contains|] eqn:Hc.
    + rewrite (getUsers_page _ _ _ _ contains (fun _ => Hc)) in Hin.
      apply pageOfMatching_sound in Hin as [Hm Hin].
      destruct (Hmeets contains Hm) as (Ha & Hr & Hq).
      repeat split; auto. intros q Hsq Hne. exists contains. auto.
    + rewrite (getUsers_refused _ _ _ _ Hs Hc) in Hin. destruct Hin.
  - rewrite (getUsers_page _ _ _ _ (fun _ _ => false)) in Hin
      by (rewrite Hs; discriminate).
    apply pageOfMatching_sound in Hin as [Hm Hin].
    destruct (Hmeets _ Hm) as (Ha & Hr & _).
    repeat split; auto. intros q -> Hne.
    unfold searches, filters in Hs. cbn in Hs.
    apply String.eqb_neq in Hne. now rewrite Hne in Hs.
Qed.

(** X14 at the newest user of a store, with a role filter. *)
Lemma getUsers_filters_witness :
  In (numberedUser 24) (users (db crowdedWorld))
  /\ User.roleId (numberedUser 24) = "r1".
Proof.
  destruct (proj1 (getUsers_filters crowdedWorld (Some 1) (Some 10)
                     None (Some "r1") None) (numberedUser 24))
    as (H1 & _ & H3 & _).
  - vm_compute. left. reflexivity.
  - split; [exact H1 | apply (H3 "r1" eq_refl); discriminate].
Defined.

(** ** Walking through the pages *)

Lemma flat_map_seq_shift {R} (f : nat -> list R) a k :
  flat_map f (seq (S a) k) = flat_map (fun i => f (S i)) (seq a k).
Proof.
  revert a. induction k as [|k IH]; intros a; cbn; [reflexivity|].
  now rewrite IH.
Qed.

Lemma pages_concat {R} (L : nat) (rows : list R) k :
  (List.length rows <= k * L)%nat ->
  flat_map (fun i => firstn L (skipn (i * L) rows)) (seq 0 k) = rows.
Proof.
  revert rows. induction k as [|k IH]; intros rows Hlen.
  - destruct rows; [reflexivity | cbn in Hlen; lia].
  - cbn [seq flat_map]. rewrite flat_map_seq_shift.
    rewrite (flat_map_ext _ (fun i => firstn L (skipn (i * L) (skipn L rows)))).
    + rewrite IH by (rewrite length_skipn; lia).
      cbn [Nat.mul skipn]. apply firstn_skipn.
    + intros i. rewrite skipn_skipn. do 2 f_equal. lia.
Qed.

Section Pager.
Context {R : Type} (get : Z -> Z -> Result (Page R)) (rows : list R).
Hypothesis get_page :
  forall p L, 1 <= p -> 1 <= L ->
    get p L
    = Ok (mkPage (firstn (Z.to_nat L) (skipn (Z.to_nat ((p - 1) * L)) rows))
            (mkPagination p L (Z.of_nat (List.length rows))
               (Math_ceil_div (Z.of_nat (List.length rows)) L))).

Lemma pager_walk (L T k : Z) :
  1 <= L ->
  resultPagination (get 1 L) = Some (mkPagination 1 L T (Int k)) ->
  flat_map (fun i => resultItems (get (Z.of_nat (S i)) L)) (seq 0 (Z.to_nat k))
  = resultItems (get 1 (Z.max 1 T))
  /\ List.length (resultItems (get 1 (Z.max 1 T))) = Z.to_nat T
  /\ (forall p, k < p -> resultItems (get p L) = [])
  /\ (forall p, 1 <= p ->
                (List.length (resultItems (get p L)) <= Z.to_nat L)%nat).
Proof.
  intros HL Hfirst.
  rewrite get_page in Hfirst by lia. cbn in Hfirst.
  destruct (Math_ceil_div_pos (Z.of_nat (List.length rows)) L HL)
    as [Hceil Hk].
  rewrite Hceil in Hfirst. injection Hfirst as HT Hkeq.
  rewrite Hkeq in Hk. unfold isCeilOf in Hk. rewrite HT in Hk. clear Hkeq.
  assert (Hall : resultItems (get 1 (Z.max 1 T)) = rows).
  { rewrite get_page by lia. cbn [resultItems items].
    replace (Z.to_nat ((1 - 1) * Z.max 1 T)) with 0%nat by lia.
    cbn [skipn]. apply firstn_all2. lia. }
  repeat apply conj.
  - rewrite Hall.
    rewrite (flat_map_ext _
               (fun i => firstn (Z.to_nat L) (skipn (i * Z.to_nat L) rows))).
    + apply pages_concat. nia.
    + intros i. rewrite get_page by lia. cbn [resultItems items].
      do 2 f_equal. nia.
  - rewrite Hall. lia.
  - intros p Hp. assert (1 <= p) by nia.
    rewrite get_page by lia. cbn [resultItems items].
    rewrite skipn_all2; [now destruct (Z.to_nat L)|]. nia.
  - intros p Hp. rewrite get_page by lia. cbn [resultItems items].
    rewrite length_firstn. lia.
Qed.
End Pager.

Lemma pageOfMatching_pos {R} (key : R -> Z) (matches : R -> bool)
    (t : list R) (p L : Z) :
  1 <= p -> 1 <= L ->
  let rows := sortDesc key (filter matches t) in
  pageOfMatching key matches t p L
  = Ok (mkPage (firstn (Z.to_nat L) (skipn (Z.to_nat ((p - 1) * L)) rows))
          (mkPagination p L (Z.of_nat (List.length rows))
             (Math_ceil_div (Z.of_nat (List.length rows)) L))).
Proof.
  intros Hp HL. cbn zeta. unfold pageOfMatching, window.
  replace ((p - 1) * L <? 0) with false by (symmetry; apply Z.ltb_ge; nia).
  replace (L <? 0) with false by (symmetry; apply Z.ltb_ge; lia).
  now rewrite sortDesc_length.
Qed.

(** X15.  Walking through [getUsers] or [getAuditLogs] page by page, with
    one limit and one set of filters over unchanged tables, yields every
    selected row exactly once and in listing order: the pages 1 to [pages]
    put end to end are the single page that a limit of [total] returns.
    That page has [total] rows, no page holds more than [limit] rows, and
    every page after the last is empty. *)
Theorem pages_cover_the_listing (w : World) (L T k : Z) :
  1 <= L ->
  (forall filters,
     let get := fun p l => fst (getUsers (Some p) (Some l) filters w) in
     resultPagination (get 1 L) = Some (mkPagination 1 L T (Int k)) ->
     flat_map (fun i => resultItems (get (Z.of_nat (S i)) L))
       (seq 0 (Z.to_nat k))
     = resultItems (get 1 (Z.max 1 T))
     /\ List.length (resultItems (get 1 (Z.max 1 T))) = Z.to_nat T
     /\ (forall p, k < p -> resultItems (get p L) = [])
     /\ (forall p, 1 <= p ->
                   (List.length (resultItems (get p L)) <= Z.to_nat L)%nat))
  /\ (forall filters,
        let get := fun p l => fst (getAuditLogs (Some p) (Some l) filters w) in
        resultPagination (get 1 L) = Some (mkPagination 1 L T (Int k)) ->
        flat_map (fun i => resultItems (get (Z.of_nat (S i)) L))
          (seq 0 (Z.to_nat k))
        = resultItems (get 1 (Z.max 1 T))
        /\ List.length (resultItems (get 1 (Z.max 1 T))) = Z.to_nat T
        /\ (forall p, k < p -> resultItems (get p L) = [])
        /\ (forall p, 1 <= p ->
                      (List.length (resultItems (get p L)) <= Z.to_nat L)%nat)).
Proof.
  intros HL. split; intros filters get Hfirst; subst get.
  - assert (Hc : exists contains,
               searches filters = true ->
               insensitiveContains (schema w) = Some contains).
    { destruct (insensitiveContains (schema w)) as [c|] eqn:Hc.
      - exists c. reflexivity.
      - exists (fun _ _ => false). intros Hs. cbv beta in Hfirst.
        rewrite (getUsers_refused _ _ _ _ Hs Hc) in Hfirst. discriminate. }
    destruct Hc as [contains Hc].
    refine (pager_walk
              (fun p l => fst (getUsers (Some p) (Some l) filters w))
              (sortDesc User.createdAt
                 (filter (userMatches contains filters) (users (db w))))
              _ L T k HL Hfirst).
    intros p l Hp Hl. cbv beta. rewrite (getUsers_page _ _ _ _ _ Hc).
    now apply pageOfMatching_pos.
  - refine (pager_walk
              (fun p l => fst (getAuditLogs (Some p) (Some l) filters w))
              (sortDesc AuditLog.createdAt
                 (filter (auditLogMatches filters) (auditLogs (db w))))
              _ L T k HL Hfirst).
    intros p l Hp Hl. cbv beta. rewrite getAuditLogs_page.
    now apply pageOfMatching_pos.
Qed.

(** X15 in a store of 25 users read ten at a time. *)
Lemma pages_cover_the_listing_witness :
  flat_map
    (fun i => resultItems
                (fst (getUsers (Some (Z.of_nat (S i))) (Some 10) None
                        crowdedWorld)))
    (seq 0 3)
  = resultItems (fst (getUsers (Some 1) (Some 25) None crowdedWorld)).
Proof.
  apply (proj1 (proj1 (pages_cover_the_listing crowdedWorld 10 25 3
                         ltac:(lia)) None eq_refl)).
Defined.

(** ** Degenerate pages *)

Lemma pageOfMatching_zero {R} (key : R -> Z) (matches : R -> bool)
    (t : list R) (p : Z) :
  let T := Z.of_nat (List.length (filter matches t)) in
  pageOfMatching key matches t p 0
  = Ok (mkPage [] (mkPagination p 0 T (if T =? 0 then NaN else Infinity))).
Proof.
  cbn zeta. unfold pageOfMatching. now rewrite Z.mul_0_r.
Qed.

Lemma pageOfMatching_none {R} (key : R -> Z) (matches : R -> bool)
    (t : list R) (p L : Z) :
  1 <= p -> 1 <= L -> filter matches t = [] ->
  pageOfMatching key matches t p L
  = Ok (mkPage [] (mkPagination p L 0 (Int 0))).
Proof.
  intros Hp HL Hnil. rewrite pageOfMatching_pos by assumption.
  rewrite Hnil. cbn [sortDesc fold_right List.length Z.of_nat].
  rewrite skipn_nil, firstn_nil.
  destruct (Math_ceil_div_pos 0 L HL) as [-> _]. reflexivity.
Qed.

(** X16.  With a limit of 0 a paginated listing returns no rows, the
    number of matching rows as its total, and a page count that is not a
    number of pages: [Infinity] when some row matches, [NaN] when none
    does.  With a limit of at least 1, a listing whose filters no row
    matches returns no rows, total 0 and 0 pages.  For [getUsers] with a
    search this is so on a connector that has the case-insensitive
    matching. *)
Theorem degenerate_pages (w : World) (p L : Z) :
  (let zero := fun (R : Type) (matching : list R) (res : Result (Page R)) =>
     let T := Z.of_nat (List.length matching) in
     res = Ok (mkPage []
                 (mkPagination p 0 T (if T =? 0 then NaN else Infinity))) in
   (forall filters contains,
      (searches filters = true ->
       insensitiveContains (schema w) = Some contains) ->
      zero _ (filter (userMatches contains filters) (users (db w)))
        (fst (getUsers (Some p) (Some 0) filters w)))
   /\ (forall filters,
         zero _ (filter (passwordResetTokenMatches (now w) filters)
                   (passwordResetTokens (db w)))
           (fst (getPasswordResetTokens (Some p) (Some 0) filters w)))
   /\ (forall filters,
         zero _ (filter (refreshTokenMatches (now w) filters)
                   (refreshTokens (db w)))
           (fst (getRefreshTokens (Some p) (Some 0) filters w)))
   /\ (forall filters,
         zero _ (filter (sessionMatches (now w) filters) (sessions (db w)))
           (fst (getSessions (Some p) (Some 0) filters w)))
   /\ (forall filters,
         zero _ (filter (auditLogMatches filters) (auditLogs (db w)))
           (fst (getAuditLogs (Some p) (Some 0) filters w))))
  /\ (1 <= p -> 1 <= L ->
      let none := fun (R : Type) (matching : list R) (res : Result (Page R)) =>
        matching = [] ->
        res = Ok (mkPage [] (mkPagination p L 0 (Int 0))) in
      (forall filters contains,
         (searches filters = true ->
          insensitiveContains (schema w) = Some contains) ->
         none _ (filter (userMatches contains filters) (users (db w)))
           (fst (getUsers (Some p) (Some L) filters w)))
      /\ (forall filters,
            none _ (filter (passwordResetTokenMatches (now w) filters)
                      (passwordResetTokens (db w)))
              (fst (getPasswordResetTokens (Some p) (Some L) filters w)))
      /\ (forall filters,
            none _ (filter (refreshTokenMatches (now w) filters)
                      (refreshTokens (db w)))
              (fst (getRefreshTokens (Some p) (Some L) filters w)))
      /\ (forall filters,
            none _ (filter (sessionMatches (now w) filters) (sessions (db w)))
              (fst (getSessions (Some p) (Some L) filters w)))
      /\ (forall filters,
            none _ (filter (auditLogMatches filters) (auditLogs (db w)))
              (fst (getAuditLogs (Some p) (Some L) filters w)))).
Proof.
  split.
  - cbn zeta. repeat apply conj.
    + intros filters contains Hc. rewrite (getUsers_page _ _ _ _ _ Hc).
      apply pageOfMatching_zero.
    + intros filters. rewrite getPasswordResetTokens_page.
      apply pageOfMatching_zero.
    + intros filters. rewrite getRefreshTokens_page.
      apply pageOfMatching_zero.
    + intros filters. rewrite getSessions_page. apply pageOfMatching_zero.
    + intros filters. rewrite getAuditLogs_page. apply pageOfMatching_zero.
  - intros Hp HL. cbv beta zeta. repeat apply conj.
    + intros filters contains Hc Hnil. rewrite (getUsers_page _ _ _ _ _ Hc).
      now apply pageOfMatching_none.
    + intros filters Hnil. rewrite getPasswordResetTokens_page.
      now apply pageOfMatching_none.
    + intros filters Hnil. rewrite getRefreshTokens_page.
      now apply pageOfMatching_none.
    + intros filters Hnil. rewrite getSessions_page.
      now apply pageOfMatching_none.
    + intros filters Hnil. rewrite getAuditLogs_page.
      now apply pageOfMatching_none.
Qed.

(** X16 at the one user and at the reset tokens of a store that has
    none. *)
Lemma degenerate_pages_witness :
  fst (getUsers (Some 1) (Some 0) None sampleWorld)
  = Ok (mkPage [] (mkPagination 1 0 1 Infinity))
  /\ fst (getPasswordResetTokens (Some 1) (Some 10) None sampleWorld)
     = Ok (mkPage [] (mkPagination 1 10 0 (Int 0))).
Proof.
  split.
  - exact (proj1 (proj1 (degenerate_pages sampleWorld 1 10))
             None asciiContains (fun H => False_ind _ (diff_false_true H))).
  - apply (proj1 (proj2 (proj2 (degenerate_pages sampleWorld 1 10)
                           ltac:(lia) ltac:(lia))) None).
    reflexivity.
Defined.

(** ** Roles *)

(** X17.  [canDeleteRole] answers [true] exactly when [getUsersByRole]
    lists nobody, and every user that listing returns holds the role. *)
Theorem canDeleteRole_iff_no_users (w : World) (r : string) :
  fst (canDeleteRole r w)
  = Ok match listed (fst (getUsersByRole r w)) with
       | [] => true
       | _ :: _ => false
       end
  /\ (forall u, In u (listed (fst (getUsersByRole r w))) -> User.roleId u = r).
Proof.
  split.
  - unfold canDeleteRole, getUsersByRole. run. cbn [listed]. f_equal.
    unfold countRows.
    rewrite <- (sortDesc_length User.createdAt).
    now destruct (sortDesc _ _).
  - intros u Hin. unfold getUsersByRole in Hin.
    apply findMany_sound in Hin as [Hin _]. now apply String.eqb_eq.
Qed.

(** X17 at a role one user holds. *)
Lemma canDeleteRole_iff_no_users_witness : User.roleId alice = "r1".
Proof.
  apply (proj2 (canDeleteRole_iff_no_users sampleWorld "r1")).
  vm_compute. left. reflexivity.
Defined.

Lemma create_clash {R} (d : Delegate R) clash refsOk row w :
  existsb (clash row) (table d (db w)) = true ->
  duplicateKey (create d clash refsOk row) w.
Proof. intros H. unfold duplicateKey, create. run. now rewrite H. Qed.

Lemma existsb_witness {R} (p : R -> bool) t r :
  In r t -> p r = true -> existsb p t = true.
Proof. intros Hin Hp. apply existsb_exists. eauto. Qed.

(** ** The seed script *)

Lemma unaryId_inj a b : unaryId a = unaryId b -> a = b.
Proof.
  revert b. induction a as [|a IH]; destruct b as [|b]; cbn;
    try discriminate; [reflexivity|].
  intros [= H]. f_equal. now apply IH.
Qed.

Ltac ids_differ Hinj :=
  repeat match goal with
    | |- context [String.eqb (idSupply ?w ?a) (idSupply ?w ?a)] =>
        rewrite (String.eqb_refl (idSupply w a))
    | |- context [String.eqb (idSupply ?w ?a) (idSupply ?w ?b)] =>
        replace (String.eqb (idSupply w a) (idSupply w b)) with false
          by (symmetry; apply String.eqb_neq; intros E; apply Hinj in E; lia)
    end.

Lemma bind_throw {A B} (m : M A) (f : A -> M B) w e :
  fst (m w) = Throw e ->
  fst (bind m f w) = Throw e /\ snd (bind m f w) = snd (m w).
Proof.
  unfold bind. destruct (m w) as [[a|e'] w']; cbn; [discriminate|].
  intros [= ->]. auto.
Qed.

Lemma seed_refused (bcryptHash : string -> string) (w : World) r :
  In r (roles (db w)) -> Role.name r = "admin" ->
  fst (seedMain bcryptHash w) = Throw UniqueConstraint
  /\ db (snd (seedMain bcryptHash w)) = db w.
Proof.
  intros Hin Hname. unfold seedMain.
  match goal with
  | |- context [bind (createRole ?data) ?f w] =>
      assert (Hdup : duplicateKey (createRole data) w);
      [|destruct Hdup as [Hthrow Hdb];
        destruct (bind_throw (createRole data) f w _ Hthrow) as [-> ->];
        auto]
  end.
  unfold createRole, duplicateKey.
  unfold bind at 1; unfold freshId; cbn [fst snd].
  match goal with
  | |- context [create ?d ?clash ?refsOk ?row ?w1] =>
      destruct (create_clash d clash refsOk row w1) as [H1 H2];
      [|split; [exact H1 | exact H2]]
  end.
  apply (existsb_witness _ _ r); [exact Hin|]. unfold roleClash. cbn.
  rewrite Hname. apply orb_true_r.
Qed.

(** X19.  Run on a store without roles and users, with ids that never
    repeat, the seed script creates the three roles and the eight users,
    each user holding the role meant for it, and prints 3 and 8.  Run on a
    store that already has a role named admin (so also when run a second
    time) it stops at its first step with the unique-constraint error and
    changes no table. *)
Theorem seed_runs_once (bcryptHash : string -> string) (w : World) :
  ((forall a b, idSupply w a = idSupply w b -> a = b) ->
   roles (db w) = [] -> users (db w) = [] ->
   let w' := snd (seedMain bcryptHash w) in
   fst (seedMain bcryptHash w) = Ok (3, 8)
   /\ map Role.name (roles (db w')) = ["admin"; "manager"; "user"]
   /\ map (fun u =>
             (User.email u,
              option_map Role.name
                (find (fun r => String.eqb (Role.id r) (User.roleId u))
                   (roles (db w')))))
        (users (db w'))
      = [("admin@example.com", Some "admin");
         ("manager@example.com", Some "manager");
         ("user@example.com", Some "user");
         ("test1@example.com", Some "user");
         ("test2@example.com", Some "user");
         ("test3@example.com", Some "user");
         ("test4@example.com", Some "user");
         ("test5@example.com", Some "user")]
   /\ fst (seedMain bcryptHash w') = Throw UniqueConstraint
   /\ db (snd (seedMain bcryptHash w')) = db w')
  /\ (forall r, In r (roles (db w)) -> Role.name r = "admin" ->
                fst (seedMain bcryptHash w) = Throw UniqueConstraint
                /\ db (snd (seedMain bcryptHash w)) = db w).
Proof.
  split; [|intros r; apply seed_refused].
  intros Hinj Hr Hu. cbn zeta.
  assert (Hfirst :
            fst (seedMain bcryptHash w) = Ok (3, 8)
            /\ map Role.name (roles (db (snd (seedMain bcryptHash w))))
               = ["admin"; "manager"; "user"]
            /\ map (fun u =>
                      (User.email u,
                       option_map Role.name
                         (find (fun r => String.eqb (Role.id r)
                                           (User.roleId u))
                            (roles (db (snd (seedMain bcryptHash w)))))))
                 (users (db (snd (seedMain bcryptHash w))))
               = [("admin@example.com", Some "admin");
                  ("manager@example.com", Some "manager");
                  ("user@example.com", Some "user");
                  ("test1@example.com", Some "user");
                  ("test2@example.com", Some "user");
                  ("test3@example.com", Some "user");
                  ("test4@example.com", Some "user");
                  ("test5@example.com", Some "user")]).
  { unfold seedMain, createRole, createUser, forLoop, userRefsOk.
    run. rewrite Hr, Hu.
    repeat (progress (cbn; unfold roleClash, userClash; cbn;
                      ids_differ Hinj)).
    repeat split. }
  destruct Hfirst as (H1 & H2 & H3). repeat (split; [assumption|]).
  destruct (roles (db (snd (seedMain bcryptHash w)))) as [|r rest] eqn:Hroles;
    [discriminate|].
  injection H2 as Hname _.
  apply (seed_refused bcryptHash _ r); [|exact Hname].
  rewrite Hroles. now left.
Qed.

(** X19 on an empty store. *)
Lemma seed_runs_once_witness :
  fst (seedMain (fun s => s) blankWorld) = Ok (3, 8).
Proof.
  apply (proj1 (seed_runs_once (fun s => s) blankWorld)).
  - apply unaryId_inj.
  - reflexivity.
  - reflexivity.
Defined.

(** ** The audit log *)

Lemma countRows_app {R} (p : R -> bool) t t' :
  countRows p (t ++ t') = countRows p t + countRows p t'.
Proof. unfold countRows. rewrite filter_app, length_app. lia. Qed.

(** X20.  A recorded action is appended: [logUserAction] adds exactly one
    entry at the end of the audit log, built from its arguments and stamped
    with the store's time, and alters no earlier entry and no other table.
    The entry is then counted, found by its id and listed for its user. *)
Theorem audit_entry_is_appended (w : World)
    (action entityType entityId userId : string)
    (oldValue newValue ipAddress userAgent : option string)
    (e : AuditLog.t) (w1 : World) :
  logUserAction action entityType entityId userId oldValue newValue
    ipAddress userAgent w = (Ok e, w1) ->
  e = AuditLog.mk (idSupply w (created w)) action entityType entityId userId
        oldValue newValue ipAddress userAgent (now w)
  /\ db w1 = setTable auditLogD (auditLogs (db w) ++ [e]) (db w)
  /\ fst (countAuditLogs w1) = Ok (Z.of_nat (List.length (auditLogs (db w))) + 1)
  /\ fst (findAuditLogById (AuditLog.id e) w1) = Ok (Some e)
  /\ In e (listed (fst (getUserAuditLogs userId w1))).
Proof.
  unfold logUserAction, createAuditLog. run.
  destruct (existsb _ _) eqn:Hc; [discriminate|].
  destruct (negb _); [discriminate|].
  intros H. injection H as <- <-. cbn [db].
  split; [reflexivity|]. split; [reflexivity|].
  unfold countAuditLogs, findAuditLogById, getUserAuditLogs. run.
  repeat apply conj.
  - rewrite countRows_whereAll, length_app. cbn. f_equal. lia.
  - f_equal. apply find_app_fresh; [|apply String.eqb_refl].
    revert Hc. apply existsb_weaken. intros r Hr. unfold auditClash. cbn.
    now rewrite String.eqb_sym.
  - cbn [listed].
    apply (Permutation_in _ (Permutation_sym (sortDesc_perm _ _))).
    apply filter_In. split; [apply in_or_app; right; now left|].
    apply String.eqb_refl.
Qed.

(** X20 at a first entry. *)
Lemma audit_entry_is_appended_witness :
  fst (countAuditLogs
         (snd (logUserAction "LOGIN" "User" "u1" "u1" None None None None
                 sampleWorld))) = Ok (0 + 1).
Proof.
  refine (proj1 (proj2 (proj2 (audit_entry_is_appended sampleWorld
            "LOGIN" "User" "u1" "u1" None None None None _ _ eq_refl)))).
Defined.

Lemma findMany_ext {R} (d : Delegate R) wh1 wh2 key sk tk w :
  (forall r, In r (table d (db w)) -> wh1 r = wh2 r) ->
  findMany d wh1 key sk tk w = findMany d wh2 key sk tk w.
Proof.
  intros H. unfold findMany. run. now rewrite (filter_ext_in wh1 wh2).
Qed.

Lemma countWhere_ext {R} (d : Delegate R) wh1 wh2 w :
  (forall r, In r (table d (db w)) -> wh1 r = wh2 r) ->
  countWhere d wh1 w = countWhere d wh2 w.
Proof.
  intros H. unfold countWhere, countRows. run.
  now rewrite (filter_ext_in wh1 wh2).
Qed.

Lemma findMany_db {R} (d : Delegate R) wh key sk tk w :
  db (snd (findMany d wh key sk tk w)) = db w.
Proof.
  unfold findMany. run.
  destruct sk, tk; try destruct (_ <? 0); reflexivity.
Qed.

Lemma page_ext {R} (d : Delegate R) wh1 wh2 key sk tk
    (k : list R -> Z -> M (Page R)) w :
  (forall r, In r (table d (db w)) -> wh1 r = wh2 r) ->
  bind (findMany d wh1 key sk tk)
    (fun rows => bind (countWhere d wh1) (k rows)) w
  = bind (findMany d wh2 key sk tk)
      (fun rows => bind (countWhere d wh2) (k rows)) w.
Proof.
  intros H. unfold bind at 1 3. rewrite (findMany_ext d wh1 wh2) by exact H.
  pose proof (findMany_db d wh2 key sk tk w) as Hdb.
  destruct (findMany d wh2 key sk tk w) as [[rows|err] w']; [|reflexivity].
  cbn [snd] in Hdb. unfold bind.
  rewrite (countWhere_ext d wh1 wh2); [reflexivity|].
  rewrite Hdb. exact H.
Qed.

(** X21.  [deleteOldAuditLogs] removes exactly the entries created strictly
    before the cutoff: an entry created at the cutoff stays, and the count
    reported and the entries left add up to the entries there were.
    Afterwards a listing from the cutoff onwards is the listing without a
    lower bound. *)
Theorem old_audit_logs_cutoff (w : World) (olderThan : Date) :
  let after := deleteOldAuditLogs olderThan w in
  auditLogs (db (snd after))
  = filter (fun r => olderThan <=? AuditLog.createdAt r) (auditLogs (db w))
  /\ (exists n, fst after = Ok (mkBatch n)
                /\ n + Z.of_nat (List.length (auditLogs (db (snd after))))
                   = Z.of_nat (List.length (auditLogs (db w))))
  /\ (forall r, In r (auditLogs (db w)) -> AuditLog.createdAt r = olderThan ->
                In r (auditLogs (db (snd after))))
  /\ (forall page limit userId entityType entityId action dateTo,
        getAuditLogs page limit
          (Some (AuditLogFilters.mk userId entityType entityId action
                   (Some olderThan) dateTo)) (snd after)
        = getAuditLogs page limit
            (Some (AuditLogFilters.mk userId entityType entityId action
                     None dateTo)) (snd after)).
Proof.
  cbn zeta. unfold deleteOldAuditLogs. run.
  assert (Hfilter :
            removeAll (fun r => AuditLog.createdAt r <? olderThan)
              (auditLogs (db w))
            = filter (fun r => olderThan <=? AuditLog.createdAt r)
                (auditLogs (db w))).
  { unfold removeAll. apply filter_ext. intros r.
    rewrite Z.ltb_antisym. apply negb_involutive. }
  repeat apply conj.
  - exact Hfilter.
  - eexists. split; [reflexivity|]. apply countRows_removeAll.
  - intros r Hin Hat. apply removeAll_keeps; [exact Hin|].
    rewrite Hat. apply Z.ltb_irrefl.
  - intros page limit userId entityType entityId action dateTo.
    unfold getAuditLogs.
    cbn [optField AuditLogFilters.userId AuditLogFilters.entityType
         AuditLogFilters.entityId AuditLogFilters.action
         AuditLogFilters.dateFrom AuditLogFilters.dateTo].
    cbn zeta. apply page_ext. cbn [table auditLogD db auditLogs].
    rewrite Hfilter. intros r Hr. apply filter_In in Hr as [_ Hr].
    destruct dateTo; unfold whereAnd; rewrite Z.geb_leb, Hr;
      now rewrite ?andb_true_r.
Qed.

(** X21 at an entry created exactly at the cutoff. *)
Lemma old_audit_logs_cutoff_witness :
  In updateEntry (auditLogs (db (snd (deleteOldAuditLogs 200 auditWorld)))).
Proof.
  apply (proj1 (proj2 (proj2 (old_audit_logs_cutoff auditWorld 200)))).
  - right. left. reflexivity.
  - reflexivity.
Defined.

(** ** The audit statistics *)

Section TallyFacts.
Context {R : Type} (by_ : R -> string).

(** The number of rows of [l] whose column holds [a]. *)
Let cnt (a : string) (l : list R) : Z :=
  countRows (fun r => String.eqb (by_ r) a) l.

Lemma bump_sum k g : sumCounts (bump k g) = sumCounts g + 1.
Proof.
  unfold sumCounts. induction g as [|[k' n] g IH]; cbn; [reflexivity|].
  destruct (String.eqb k' k); cbn; lia.
Qed.

Lemma bump_key a k g :
  In a (map fst (bump k g)) <-> a = k \/ In a (map fst g).
Proof.
  induction g as [|[k' n] g IH]; cbn; [intuition|].
  destruct (String.eqb_spec k' k) as [->|Hne]; cbn.
  - intuition (subst; auto).
  - rewrite IH. intuition (subst; auto).
Qed.

Lemma bump_NoDup k g : NoDup (map fst g) -> NoDup (map fst (bump k g)).
Proof.
  induction g as [|[k' n] g IH]; cbn; intros Hnd.
  - repeat constructor. auto.
  - inversion Hnd as [|? ? Hnot Hrest]; subst.
    destruct (String.eqb_spec k' k) as [->|Hne]; cbn.
    + now constructor.
    + constructor; [|auto]. rewrite bump_key. intros [->|H]; auto.
Qed.

Lemma bump_in a n k g :
  NoDup (map fst g) ->
  In (a, n) (bump k g)
  <-> (a <> k /\ In (a, n) g)
      \/ (a = k /\ (In (k, n - 1) g \/ (~ In k (map fst g) /\ n = 1))).
Proof.
  induction g as [|[k' m] g IH]; cbn; intros Hnd.
  - split.
    + intros [[= <- <-]|[]]. right. auto.
    + intros [[_ []]|[-> [[]|[_ ->]]]]. now left.
  - inversion Hnd as [|? ? Hnot Hrest]; subst.
    destruct (String.eqb_spec k' k) as [->|Hne]; cbn.
    + split.
      * intros [[= <- <-]|Hin].
        -- right. split; [reflexivity|]. left. left. f_equal. lia.
        -- left. split; [|now right]. intros ->. apply Hnot.
           now apply (in_map fst) in Hin.
      * intros [[Hak [[= -> _]|Hin]]|[-> [[[= ->]|Hin]|[Hno _]]]].
        -- contradiction.
        -- now right.
        -- left. f_equal. lia.
        -- exfalso. apply Hnot. now apply (in_map fst) in Hin.
        -- exfalso. apply Hno. now left.
    + rewrite (IH Hrest). split.
      * intros [[= -> ->]|[[Hak Hin]|[-> [Hin|[Hno ->]]]]].
        -- left. split; [exact Hne|]. now left.
        -- left. split; [exact Hak|]. now right.
        -- right. split; [reflexivity|]. left. now right.
        -- right. split; [reflexivity|]. right. split; [|reflexivity].
           intros [Heq|Hin]; [now apply Hne | now apply Hno].
      * intros [[Hak [[= -> ->]|Hin]]|[-> [[[= Hk _]|Hin]|[Hno ->]]]].
        -- now left.
        -- right. left. auto.
        -- contradiction.
        -- right. right. split; [reflexivity|]. now left.
        -- right. right. split; [reflexivity|]. right. split; [|reflexivity].
           intros Hin. apply Hno. now right.
Qed.

(** The tally [g] accounts for the rows [l]. *)
Let accounts (g : list (string * Z)) (l : list R) : Prop :=
  NoDup (map fst g)
  /\ forall a n, In (a, n) g <-> n = cnt a l /\ 1 <= n.

Lemma cnt_snoc a l r :
  cnt a (l ++ [r]) = cnt a l + (if String.eqb (by_ r) a then 1 else 0).
Proof.
  unfold cnt. rewrite countRows_app. f_equal. unfold countRows. cbn.
  now destruct (String.eqb (by_ r) a).
Qed.

Lemma cnt_nonneg a l : 0 <= cnt a l.
Proof. unfold cnt, countRows. lia. Qed.

Lemma accounts_key g l k :
  accounts g l -> (In k (map fst g) <-> 1 <= cnt k l).
Proof.
  intros [_ Hg]. split.
  - intros Hin. apply in_map_iff in Hin as ([a n] & <- & Hin).
    apply Hg in Hin. cbn. lia.
  - intros Hc. apply in_map_iff. exists (k, cnt k l). split; [reflexivity|].
    apply Hg. auto.
Qed.

Lemma accounts_bump g l r :
  accounts g l -> accounts (bump (by_ r) g) (l ++ [r]).
Proof.
  intros Hacc. pose proof Hacc as [Hnd Hg]. split; [now apply bump_NoDup|].
  intros a n. rewrite (bump_in _ _ _ _ Hnd), cnt_snoc.
  pose proof (accounts_key g l (by_ r) Hacc) as Hkey.
  pose proof (cnt_nonneg (by_ r) l) as Hnn.
  destruct (String.eqb_spec (by_ r) a) as [<-|Hne].
  - rewrite (Hg (by_ r) (n - 1)). split.
    + intros [[Hbad _]|[_ [[Hn Hge]|[Hno ->]]]]; [contradiction|lia|].
      assert (cnt (by_ r) l = 0) by (rewrite Hkey in Hno; lia). lia.
    + intros [-> _]. right. split; [reflexivity|].
      destruct (Z.eq_dec (cnt (by_ r) l) 0) as [Hz|Hnz].
      * right. rewrite Hkey. lia.
      * left. lia.
  - rewrite (Hg a n), Z.add_0_r. split.
    + intros [[_ H]|[-> _]]; [exact H | contradiction].
    + intros H. left. split; [congruence | exact H].
Qed.

Lemma accounts_fold t g l :
  accounts g l ->
  accounts (fold_left (fun g r => bump (by_ r) g) t g) (l ++ t).
Proof.
  revert g l. induction t as [|r t IH]; intros g l Hacc; cbn.
  - now rewrite app_nil_r.
  - replace (l ++ r :: t) with ((l ++ [r]) ++ t)
      by (now rewrite <- app_assoc).
    apply IH. now apply accounts_bump.
Qed.

Lemma fold_sum t g :
  sumCounts (fold_left (fun g r => bump (by_ r) g) t g)
  = sumCounts g + Z.of_nat (List.length t).
Proof.
  revert g. induction t as [|r t IH]; intros g; cbn [fold_left List.length].
  - lia.
  - rewrite IH, bump_sum. lia.
Qed.

Lemma tally_accounts t :
  NoDup (map fst (tally by_ t))
  /\ (forall a n,
        In (a, n) (tally by_ t)
        <-> n = countRows (fun r => String.eqb (by_ r) a) t /\ 1 <= n)
  /\ sumCounts (tally by_ t) = Z.of_nat (List.length t).
Proof.
  destruct (accounts_fold t [] []) as [Hnd Hin].
  - split; [constructor|]. intros a n. cbn. split; [intros []|].
    unfold cnt, countRows. cbn. lia.
  - cbn [app] in Hin. split; [exact Hnd|]. split; [exact Hin|].
    unfold tally. now rewrite fold_sum.
Qed.
End TallyFacts.

Lemma sumCounts_perm g g' : Permutation g g' -> sumCounts g = sumCounts g'.
Proof.
  unfold sumCounts. induction 1; cbn; lia.
Qed.

Lemma grouping_facts {R} (by_ : R -> string) (t : list R) :
  let g := sortDesc snd (tally by_ t) in
  sumCounts g = Z.of_nat (List.length t)
  /\ (forall a n,
        In (a, n) g
        <-> n = countRows (fun r => String.eqb (by_ r) a) t /\ 1 <= n)
  /\ NoDup (map fst g)
  /\ StronglySorted (descBy snd) g.
Proof.
  cbn zeta. destruct (tally_accounts by_ t) as (Hnd & Hin & Hsum).
  pose proof (sortDesc_perm snd (tally by_ t)) as Hperm.
  repeat apply conj.
  - now rewrite (sumCounts_perm _ _ Hperm).
  - intros a n. rewrite <- Hin. split; apply Permutation_in;
      [exact Hperm | now apply Permutation_sym].
  - apply (Permutation_NoDup (l := map fst (tally by_ t))); [|exact Hnd].
    apply Permutation_map. now apply Permutation_sym.
  - apply sortDesc_sorted.
Qed.

(** X22.  The audit statistics add up.  Each grouping lists every value of
    its column once, with the number of entries that carry it, the largest
    number first, and its counts sum to the total number of entries; the
    count of recent entries is the number of entries created in the 24
    hours before the clock value read, and never exceeds the total. *)
Theorem audit_statistics_add_up (w : World) :
  exists st,
    fst (getAuditLogStatistics w) = Ok st
    /\ totalLogs st = Z.of_nat (List.length (auditLogs (db w)))
    /\ sumCounts (logsByAction st) = totalLogs st
    /\ sumCounts (logsByEntityType st) = totalLogs st
    /\ (forall a n,
          In (a, n) (logsByAction st)
          <-> n = countRows (fun r => String.eqb (AuditLog.action r) a)
                    (auditLogs (db w))
              /\ 1 <= n)
    /\ (forall a n,
          In (a, n) (logsByEntityType st)
          <-> n = countRows (fun r => String.eqb (AuditLog.entityType r) a)
                    (auditLogs (db w))
              /\ 1 <= n)
    /\ NoDup (map fst (logsByAction st))
    /\ NoDup (map fst (logsByEntityType st))
    /\ StronglySorted (descBy snd) (logsByAction st)
    /\ StronglySorted (descBy snd) (logsByEntityType st)
    /\ recentLogs st
       = countRows (fun r => now w - 86400000 <=? AuditLog.createdAt r)
           (auditLogs (db w))
    /\ 0 <= recentLogs st <= totalLogs st.
Proof.
  unfold getAuditLogStatistics, Date_now, groupBy. run.
  eexists. split; [reflexivity|].
  cbn [totalLogs logsByAction logsByEntityType recentLogs].
  destruct (grouping_facts AuditLog.action (auditLogs (db w)))
    as (Hs1 & Hi1 & Hn1 & Ho1).
  destruct (grouping_facts AuditLog.entityType (auditLogs (db w)))
    as (Hs2 & Hi2 & Hn2 & Ho2).
  rewrite countRows_whereAll.
  repeat apply conj; try assumption; try reflexivity.
  - unfold countRows. f_equal. f_equal. apply filter_ext. intros r.
    now rewrite Z.geb_leb.
  - unfold countRows. lia.
  - unfold countRows.
    pose proof (filter_length_le
                  (fun r => AuditLog.createdAt r >=? clock w (reads w)
                                                     - 24 * 60 * 60 * 1000)
                  (auditLogs (db w))).
    lia.
Qed.

(** X22 at a log with two logins and one update. *)
Lemma audit_statistics_add_up_witness :
  exists st,
    fst (getAuditLogStatistics auditWorld) = Ok st
    /\ In ("LOGIN", 2) (logsByAction st).
Proof.
  destruct (audit_statistics_add_up auditWorld)
    as (st & Hst & _ & _ & _ & Hact & _).
  exists st. split; [exact Hst|].
  apply Hact. split; [reflexivity | lia].
Defined.

(** X23.  Every entry [getAuditLogs] returns is a stored entry that meets
    the filters in force: each non-empty string filter, and the date range,
    both ends included.  A range whose start lies after its end selects
    nothing. *)
Theorem getAuditLogs_filters (w : World) (page limit : option Z)
    (userId entityType entityId action : option string)
    (dateFrom dateTo : option Date) :
  let res :=
    fst (getAuditLogs page limit
           (Some (AuditLogFilters.mk userId entityType entityId action
                    dateFrom dateTo)) w) in
  (forall r,
     In r (resultItems res) ->
     In r (auditLogs (db w))
     /\ (forall v, userId = Some v -> v <> "" -> AuditLog.userId r = v)
     /\ (forall v, entityType = Some v -> v <> "" -> AuditLog.entityType r = v)
     /\ (forall v, entityId = Some v -> v <> "" -> AuditLog.entityId r = v)
     /\ (forall v, action = Some v -> v <> "" -> AuditLog.action r = v)
     /\ (forall d, dateFrom = Some d -> d <= AuditLog.createdAt r)
     /\ (forall d, dateTo = Some d -> AuditLog.createdAt r <= d))
  /\ (forall a b, dateFrom = Some a -> dateTo = Some b -> b < a ->
                  resultItems res = []).
Proof.
  cbn zeta.
  assert (Hsound : forall r,
     In r (resultItems
             (fst (getAuditLogs page limit
                     (Some (AuditLogFilters.mk userId entityType entityId
                              action dateFrom dateTo)) w))) ->
     In r (auditLogs (db w))
     /\ (forall v, userId = Some v -> v <> "" -> AuditLog.userId r = v)
     /\ (forall v, entityType = Some v -> v <> "" -> AuditLog.entityType r = v)
     /\ (forall v, entityId = Some v -> v <> "" -> AuditLog.entityId r = v)
     /\ (forall v, action = Some v -> v <> "" -> AuditLog.action r = v)
     /\ (forall d, dateFrom = Some d -> d <= AuditLog.createdAt r)
     /\ (forall d, dateTo = Some d -> AuditLog.createdAt r <= d)).
  { intros r. unfold getAuditLogs. cbn zeta.
    rewrite page_items by reflexivity.
    intros Hin. apply findMany_sound in Hin as [Hwh Hin].
    split; [exact Hin|].
    cbn [optField AuditLogFilters.userId AuditLogFilters.entityType
         AuditLogFilters.entityId AuditLogFilters.action
         AuditLogFilters.dateFrom AuditLogFilters.dateTo] in Hwh.
    assert (Hto : match dateFrom with
                  | Some from =>
                      whereAnd
                        (whereStringField
                           (whereStringField
                              (whereStringField
                                 (whereStringField whereAll userId
                                    AuditLog.userId)
                                 entityType AuditLog.entityType)
                              entityId AuditLog.entityId)
                           action AuditLog.action)
                        (fun r => AuditLog.createdAt r >=? from)
                  | None =>
                      whereStringField
                        (whereStringField
                           (whereStringField
                              (whereStringField whereAll userId
                                 AuditLog.userId)
                              entityType AuditLog.entityType)
                           entityId AuditLog.entityId)
                        action AuditLog.action
                  end r = true
                  /\ (forall d, dateTo = Some d -> AuditLog.createdAt r <= d)).
    { destruct dateTo as [to|]; [|split; [exact Hwh | discriminate]].
      unfold whereAnd in Hwh at 1. apply andb_true_iff in Hwh as [H1 H2].
      split; [exact H1|]. intros ? [= <-]. now apply Z.leb_le. }
    destruct Hto as [Hwh5 Hto].
    assert (Hfrom : whereStringField
                      (whereStringField
                         (whereStringField
                            (whereStringField whereAll userId AuditLog.userId)
                            entityType AuditLog.entityType)
                         entityId AuditLog.entityId)
                      action AuditLog.action r = true
                    /\ (forall d, dateFrom = Some d ->
                                  d <= AuditLog.createdAt r)).
    { destruct dateFrom as [from|]; [|split; [exact Hwh5 | discriminate]].
      unfold whereAnd in Hwh5 at 1. apply andb_true_iff in Hwh5 as [H1 H2].
      split; [exact H1|]. intros ? [= <-]. now apply Z.geb_le. }
    destruct Hfrom as [Hwh4 Hfrom].
    apply whereStringField_sound in Hwh4 as [Hwh3 Haction].
    apply whereStringField_sound in Hwh3 as [Hwh2 Hid].
    apply whereStringField_sound in Hwh2 as [Hwh1 Htype].
    apply whereStringField_sound in Hwh1 as [_ Huser].
    repeat split; assumption. }
  split; [exact Hsound|].
  intros a b Ha Hb Hlt.
  destruct (resultItems _) as [|r rest] eqn:Hres; [reflexivity|].
  destruct (Hsound r) as (_ & _ & _ & _ & _ & Hfrom & Hto).
  - now left.
  - specialize (Hfrom a Ha). specialize (Hto b Hb). lia.
Qed.

(** X23 at a range that holds one of three entries. *)
Lemma getAuditLogs_filters_witness :
  150 <= AuditLog.createdAt updateEntry <= 250.
Proof.
  destruct (proj1 (getAuditLogs_filters auditWorld (Some 1) (Some 10)
                     None None None None (Some 150) (Some 250)) updateEntry)
    as (_ & _ & _ & _ & _ & Hfrom & Hto).
  - vm_compute. left. reflexivity.
  - split; [apply (Hfrom 150 eq_refl) | apply (Hto 250 eq_refl)].
Defined.

(** ** The environment *)

Lemma truthy_spec o :
  truthy o = true <-> exists s, o = Some s /\ s <> "".
Proof.
  unfold truthy. destruct o as [s|].
  - rewrite negb_true_iff. split.
    + intros H. exists s. split; [reflexivity|]. now apply String.eqb_neq.
    + intros (s' & [= <-] & Hne). now apply String.eqb_neq.
  - split; [discriminate | intros (s & [=] & _)].
Qed.

Lemma orElse_truthy o d :
  orElse o d = match o with
               | Some s => if truthy o then s else d
               | None => d
               end.
Proof.
  unfold orElse, truthy. destruct o as [s|]; [|reflexivity].
  now destruct (String.eqb s "").
Qed.

(** X24.  [validateEnvironment] is silent when the three required
    variables are set to non-empty strings.  When one of them is unset or
    empty it writes one warning, and it throws exactly when [NODE_ENV] is
    [production]; the error names the missing variables, in the order
    DATABASE_URL, JWT_ACCESS_SECRET, JWT_REFRESH_SECRET. *)
Theorem validateEnvironment_outcome (env : Env) :
  let required := ["DATABASE_URL"; "JWT_ACCESS_SECRET"; "JWT_REFRESH_SECRET"] in
  let unset := fun v => getenv v env = None \/ getenv v env = Some "" in
  ((forall v, In v required -> ~ unset v) ->
   validateEnvironment env = mkValidation [] None)
  /\ (forall v, In v required -> unset v ->
        List.length (warnings (validateEnvironment env)) = 1%nat
        /\ (thrown (validateEnvironment env) <> None
            <-> getenv "NODE_ENV" env = Some "production")
        /\ (forall msg missing,
              thrown (validateEnvironment env) = Some msg ->
              missing = filter (fun x => match getenv x env with
                                         | Some s => String.eqb s ""
                                         | None => true
                                         end) required ->
              msg = String.append "Missing required environment variables: "
                      (join ", " missing))).
Proof.
  cbn zeta.
  assert (Hpred : forall x, negb (truthy (getenv x env))
                            = match getenv x env with
                              | Some s => String.eqb s ""
                              | None => true
                              end).
  { intros x. unfold truthy. destruct (getenv x env); [|reflexivity].
    apply negb_involutive. }
  split.
  - intros Hset. unfold validateEnvironment. cbn zeta.
    assert (Hok : forall v, In v ["DATABASE_URL"; "JWT_ACCESS_SECRET";
                                  "JWT_REFRESH_SECRET"] ->
                            negb (truthy (getenv v env)) = false).
    { intros v Hv. apply negb_false_iff, truthy_spec.
      destruct (getenv v env) as [s|] eqn:Hs.
      - exists s. split; [reflexivity|]. intros ->.
        apply (Hset v Hv). right. exact Hs.
      - exfalso. apply (Hset v Hv). left. exact Hs. }
    cbn [filter]. rewrite !Hok by (cbn; tauto). reflexivity.
  - intros v Hv Hunset. unfold validateEnvironment. cbn zeta.
    set (missing := filter _ _).
    assert (Hin : In v missing).
    { apply filter_In. split; [exact Hv|]. rewrite Hpred.
      destruct Hunset as [-> | ->]; reflexivity. }
    destruct missing as [|m rest] eqn:Hmissing; [destruct Hin|].
    cbn [List.length Nat.ltb Nat.leb warnings thrown].
    split; [reflexivity|]. split.
    + unfold nodeEnvIs. destruct (getenv "NODE_ENV" env) as [s|].
      * destruct (String.eqb_spec s "production") as [->|Hne].
        -- split; [reflexivity | discriminate].
        -- split; [intros H; now contradiction H | intros [= H]; contradiction].
      * split; [intros H; now contradiction H | discriminate].
    + intros msg missing' Hthrown ->.
      destruct (nodeEnvIs env "production"); [|discriminate].
      assert (Hmsg : Some (String.append
                             "Missing required environment variables: "
                             (join ", " (m :: rest))) = Some msg)
        by exact Hthrown.
      apply (f_equal (fun o => match o with Some x => x | None => "" end))
        in Hmsg.
      rewrite <- Hmsg. apply f_equal. apply f_equal. rewrite <- Hmissing.
      apply filter_ext. intros x. apply Hpred.
Qed.

(** X24 at a production environment whose second secret is empty. *)
Lemma validateEnvironment_outcome_witness :
  thrown (validateEnvironment
            [("NODE_ENV", "production"); ("DATABASE_URL", "mysql://db");
             ("JWT_ACCESS_SECRET", "s"); ("JWT_REFRESH_SECRET", "")])
  <> None.
Proof.
  refine (proj2 (proj1 (proj2 (proj2 (validateEnvironment_outcome
            [("NODE_ENV", "production"); ("DATABASE_URL", "mysql://db");
             ("JWT_ACCESS_SECRET", "s"); ("JWT_REFRESH_SECRET", "")])
                                 "JWT_REFRESH_SECRET" _ _))) eq_refl).
  - right. right. left. reflexivity.
  - right. reflexivity.
Defined.



(** ** Loading the database configuration *)





(** ** The audit listings *)

(** X27.  The four unpaginated audit listings return exactly the entries
    that carry the requested user, entity, action or entity type, newest
    first; the user and entity counts are the lengths of the user and
    entity listings.  After [deleteAllUserAuditLogs] the user's listing is
    empty and every other user's listing is as it was. *)
Theorem audit_listings (w : World) (userId entityType entityId action : string) :
  (let sel := fun r => String.eqb (AuditLog.userId r) userId in
   let l := listed (fst (getUserAuditLogs userId w)) in
   Permutation l (filter sel (auditLogs (db w)))
   /\ StronglySorted (descBy AuditLog.createdAt) l
   /\ fst (countUserAuditLogs userId w) = Ok (Z.of_nat (List.length l)))
  /\ (let sel := fun r => String.eqb (AuditLog.entityType r) entityType
                          && String.eqb (AuditLog.entityId r) entityId in
      let l := listed (fst (getEntityAuditLogs entityType entityId w)) in
      Permutation l (filter sel (auditLogs (db w)))
      /\ StronglySorted (descBy AuditLog.createdAt) l
      /\ fst (countEntityAuditLogs entityType entityId w)
         = Ok (Z.of_nat (List.length l)))
  /\ (let sel := fun r => String.eqb (AuditLog.action r) action in
      let l := listed (fst (getAuditLogsByAction action w)) in
      Permutation l (filter sel (auditLogs (db w)))
      /\ StronglySorted (descBy AuditLog.createdAt) l)
  /\ (let sel := fun r => String.eqb (AuditLog.entityType r) entityType in
      let l := listed (fst (getAuditLogsByEntityType entityType w)) in
      Permutation l (filter sel (auditLogs (db w)))
      /\ StronglySorted (descBy AuditLog.createdAt) l)
  /\ (let w' := snd (deleteAllUserAuditLogs userId w) in
      fst (getUserAuditLogs userId w') = Ok []
      /\ fst (countUserAuditLogs userId w') = Ok 0
      /\ (forall other, other <> userId ->
                        fst (getUserAuditLogs other w')
                        = fst (getUserAuditLogs other w))).
Proof.
  cbn zeta.
  unfold getUserAuditLogs, getEntityAuditLogs, getAuditLogsByAction,
    getAuditLogsByEntityType, countUserAuditLogs, countEntityAuditLogs,
    deleteAllUserAuditLogs.
  run. cbn [listed]. unfold countRows. rewrite !sortDesc_length.
  repeat apply conj;
    try apply sortDesc_perm; try apply sortDesc_sorted; try reflexivity.
  - assert (Hnil : filter (fun r => String.eqb (AuditLog.userId r) userId)
                     (removeAll
                        (fun r => String.eqb (AuditLog.userId r) userId)
                        (auditLogs (db w))) = []).
    { pose proof (countRows_removeAll_same
                    (fun r => String.eqb (AuditLog.userId r) userId)
                    (auditLogs (db w))) as H.
      unfold countRows in H. destruct (filter _ _); [reflexivity|].
      cbn in H. lia. }
    now rewrite Hnil.
  - f_equal. apply countRows_removeAll_same.
  - intros other Hne. rewrite filter_removeAll_disjoint; [reflexivity|].
    intros r Hr. destruct (String.eqb _ userId) eqn:Hu; [|reflexivity].
    assert (Hne' : userId <> other) by congruence.
    now rewrite (eqb_other _ _ _ Hne' Hu) in Hr.
Qed.

(** X27 at another user's entries. *)
Lemma audit_listings_witness :
  fst (getUserAuditLogs "u1" (snd (deleteAllUserAuditLogs "u2" auditWorld)))
  = fst (getUserAuditLogs "u1" auditWorld).
Proof.
  apply (proj2 (proj2 (proj2 (proj2 (proj2 (proj2
           (audit_listings auditWorld "u2" "" "" "")))))) "u1").
  discriminate.
Defined.
